(** * AI Playground front end: job poller, upload validation, diarization
      heuristic and fallback summary.

    Shallow embedding of
      - [TranscriptService.pollForResults] and [generateSummary],
      - the inline poll loops of [ImageAnalysis.processImage] and
        [DocumentSummarization.processDocument],
      - [validateFile]/[handleFile] of the three upload components,
      - [DiarizationService].

    JavaScript strings are modelled as [string]; a character is a code unit
    in the range U+0000..U+00FF.  Asynchronous functions are modelled by
    their sequential behaviour: every [await] is a point where the machine
    state is threaded through. *)

From Stdlib Require Import String Ascii List ZArith Lia Bool Arith.
From Stdlib Require Import DecimalString.
Import ListNotations.

Open Scope string_scope.

(** ** JavaScript values shared by the components *)

(** A thrown [Error]; only its message is ever inspected. *)
Inductive JsError : Type :=
| Error (message : string).

Definition message (e : JsError) : string :=
  match e with Error m => m end.

(** Template-literal rendering of a non-negative integer. *)
Definition decimal (n : nat) : string :=
  NilEmpty.string_of_uint (Nat.to_uint n).

(** ** JavaScript string primitives *)

Definition code (c : ascii) : nat := nat_of_ascii c.

(** WhiteSpace and LineTerminator code points below U+0100: TAB, LF, VT, FF,
    CR, SP and NBSP.  This is what [String.prototype.trim] strips and what
    the regular-expression class [\s] matches. *)
Definition isWhiteSpace (c : ascii) : bool :=
  let n := code c in
  (((9 <=? n) && (n <=? 13)) || (n =? 32) || (n =? 160))%nat.

(** LineTerminator code points below U+0100: the characters that [.] in a
    regular expression does not match. *)
Definition isLineTerminator (c : ascii) : bool :=
  let n := code c in ((n =? 10) || (n =? 13))%nat.

(** The class [\d]. *)
Definition isDigit (c : ascii) : bool :=
  let n := code c in ((48 <=? n) && (n <=? 57))%nat.

(** [String.prototype.toLowerCase] on one code unit. *)
Definition lowerChar (c : ascii) : ascii :=
  let n := code c in
  if (((65 <=? n) && (n <=? 90))
      || ((192 <=? n) && (n <=? 222) && negb (n =? 215)))%nat
  then ascii_of_nat (n + 32) else c.

Fixpoint toLowerCase (s : string) : string :=
  match s with
  | EmptyString => EmptyString
  | String c s' => String (lowerChar c) (toLowerCase s')
  end.

(** Equality of two code units under the [i] flag of a regular expression
    (without the [u] flag): both are canonicalized by simple case mapping. *)
Definition eqChar_i (a b : ascii) : bool :=
  Ascii.eqb (lowerChar a) (lowerChar b).

Fixpoint trimStart (s : string) : string :=
  match s with
  | EmptyString => EmptyString
  | String c s' => if isWhiteSpace c then trimStart s' else s
  end.

Fixpoint trimEnd (s : string) : string :=
  match s with
  | EmptyString => EmptyString
  | String c s' =>
      match trimEnd s' with
      | EmptyString => if isWhiteSpace c then EmptyString else String c EmptyString
      | t => String c t
      end
  end.

(** [String.prototype.trim] *)
Definition trim (s : string) : string := trimEnd (trimStart s).

(** [s.startsWith(p)] *)
Fixpoint startsWith (p s : string) : bool :=
  match p, s with
  | EmptyString, _ => true
  | String a p', String b s' => Ascii.eqb a b && startsWith p' s'
  | String _ _, EmptyString => false
  end.

(** [s.endsWith(p)]: [p] occurs at some position of [s] and reaches its
    end. *)
Fixpoint endsWith (p s : string) : bool :=
  (s =? p) ||
  match s with
  | EmptyString => false
  | String _ s' => endsWith p s'
  end.

(** The pattern text [p], read with the [i] flag, matches a prefix of [s]. *)
Fixpoint startsWith_i (p s : string) : bool :=
  match p, s with
  | EmptyString, _ => true
  | String a p', String b s' => eqChar_i a b && startsWith_i p' s'
  | String _ _, EmptyString => false
  end.

(** [/p/i.test(s)] for a pattern [p] made of literal characters only. *)
Fixpoint test_i (p s : string) : bool :=
  startsWith_i p s ||
  match s with
  | EmptyString => false
  | String _ s' => test_i p s'
  end.

(** The pattern text [p], read with the [i] flag, matches all of [s]. *)
Fixpoint equals_i (p s : string) : bool :=
  match p, s with
  | EmptyString, EmptyString => true
  | String a p', String b s' => eqChar_i a b && equals_i p' s'
  | _, _ => false
  end.

(** [/\.(a1|a2|...)$/i.test(s)] for alternatives made of literal characters:
    at some position of [s] there is a dot, then one of the alternatives,
    then the end of [s]. *)
Fixpoint testExtension_i (alternatives : list string) (s : string) : bool :=
  match s with
  | EmptyString => false
  | String c s' =>
      (Ascii.eqb c "." && existsb (fun a => equals_i a s') alternatives)
      || testExtension_i alternatives s'
  end.

(** Predicates on whole strings. *)
Fixpoint allDigits (s : string) : bool :=
  match s with
  | EmptyString => true
  | String c s' => isDigit c && allDigits s'
  end.

Fixpoint allWhiteSpace (s : string) : bool :=
  match s with
  | EmptyString => true
  | String c s' => isWhiteSpace c && allWhiteSpace s'
  end.

(** The text is on one line. *)
Fixpoint singleLine (s : string) : bool :=
  match s with
  | EmptyString => true
  | String c s' => negb (isLineTerminator c) && singleLine s'
  end.

(** [Array.prototype.join] on an array of strings. *)
Fixpoint join (sep : string) (xs : list string) : string :=
  match xs with
  | [] => EmptyString
  | [x] => x
  | x :: rest => x ++ sep ++ join sep rest
  end.

(** Outcome of [await fetch(url)] followed by the calls the code makes on the
    response.  The promise either rejects, or resolves to a response with an
    [ok] flag, a numeric status and a body on which [json()] resolves or
    rejects. *)
Record Response (A : Type) : Type := {
  ok : bool;
  http_status : nat;
  body : JsError + A
}.
Arguments ok {A} r.
Arguments http_status {A} r.
Arguments body {A} r.

Inductive Fetch (A : Type) : Type :=
| Rejected (e : JsError)
| Resolved (r : Response A).
Arguments Rejected {A} e.
Arguments Resolved {A} r.

(** What the machine does, in order. *)
Inductive Event : Type :=
| GetStatus (jobId : string)
| GetResult (jobId : string)
| OnProgress (progress : Z) (msg : string)
| Delay (ms : Z)
| ConsoleError (label : string) (e : JsError).

(** The number of status requests in a trace. *)
Fixpoint statusRequests (tr : list Event) : nat :=
  match tr with
  | [] => 0
  | GetStatus _ :: rest => S (statusRequests rest)
  | _ :: rest => statusRequests rest
  end.

(** ** Sequential machine for the asynchronous code

    [St] is the JSON type of a status response, [Res] of a result response and
    [U] the state owned by the caller (callback state, component state). *)

Section Runtime.

Context {St Res U : Type}.

(** The remote backend: the n-th request to each endpoint (counted from 0)
    gets the n-th outcome. *)
Record Backend : Type := {
  statusEndpoint : nat -> Fetch St;
  resultEndpoint : nat -> Fetch Res
}.

Record Machine : Type := {
  statusCalls : nat;
  resultCalls : nat;
  trace : list Event;
  user : U
}.

Definition start (u : U) : Machine :=
  {| statusCalls := 0; resultCalls := 0; trace := []; user := u |}.

(** Computations that may throw and that change the machine. *)
Definition M (A : Type) : Type := Machine -> (JsError + A) * Machine.

Definition ret {A} (a : A) : M A := fun m => (inr a, m).
Definition throw {A} (e : JsError) : M A := fun m => (inl e, m).
Definition bind {A B} (c : M A) (k : A -> M B) : M B :=
  fun m => match c m with
           | (inr a, m') => k a m'
           | (inl e, m') => (inl e, m')
           end.

Definition emit (e : Event) : M unit :=
  fun m => (inr tt, {| statusCalls := statusCalls m;
                       resultCalls := resultCalls m;
                       trace := trace m ++ [e];
                       user := user m |}).

Definition modify (f : U -> U) : M unit :=
  fun m => (inr tt, {| statusCalls := statusCalls m;
                       resultCalls := resultCalls m;
                       trace := trace m;
                       user := f (user m) |}).

(** [await fetch(`.../status/${jobId}`)] *)
Definition fetchStatus (backend : Backend) (jobId : string) : M (Response St) :=
  fun m =>
    let m' := {| statusCalls := S (statusCalls m);
                 resultCalls := resultCalls m;
                 trace := trace m ++ [GetStatus jobId];
                 user := user m |} in
    match statusEndpoint backend (statusCalls m) with
    | Rejected e => (inl e, m')
    | Resolved r => (inr r, m')
    end.

(** [await fetch(`.../result/${jobId}`)] *)
Definition fetchResult (backend : Backend) (jobId : string) : M (Response Res) :=
  fun m =>
    let m' := {| statusCalls := statusCalls m;
                 resultCalls := S (resultCalls m);
                 trace := trace m ++ [GetResult jobId];
                 user := user m |} in
    match resultEndpoint backend (resultCalls m) with
    | Rejected e => (inl e, m')
    | Resolved r => (inr r, m')
    end.

(** [await response.json()] *)
Definition json {A} (r : Response A) : M A :=
  match body r with
  | inl e => throw e
  | inr a => ret a
  end.

(** [await new Promise(resolve => setTimeout(resolve, ms))] *)
Definition delay (ms : Z) : M unit := emit (Delay ms).

End Runtime.

Arguments Backend : clear implicits.
Arguments Machine : clear implicits.
Arguments M : clear implicits.

Declare Scope js_scope.
Delimit Scope js_scope with js.
Notation "x <- c ;; k" := (bind c (fun x => k))
  (at level 61, c at next level, right associativity) : js_scope.
Notation "c ;;; k" := (bind c (fun _ => k))
  (at level 61, right associativity) : js_scope.
Open Scope js_scope.

(** ** What a backend answers *)

(** The n-th status request is answered with a 2xx response whose JSON body
    is [st]. *)
Definition reports {St Res : Type} (backend : Backend St Res) (n : nat) (st : St) : Prop :=
  exists r, statusEndpoint backend n = Resolved r /\ ok r = true /\ body r = inr st.

(** The n-th result request is answered with a 2xx response whose JSON body
    is [res]. *)
Definition delivers {St Res : Type} (backend : Backend St Res) (n : nat) (res : Res) : Prop :=
  exists r, resultEndpoint backend n = Resolved r /\ ok r = true /\ body r = inr res.

(** The n-th status request fails in transit: [fetch] rejects, or the
    response is not 2xx. *)
Definition statusFails {St Res : Type} (backend : Backend St Res) (n : nat) (e : JsError) : Prop :=
  statusEndpoint backend n = Rejected e \/
  exists r, statusEndpoint backend n = Resolved r /\ ok r = false /\
            e = Error ("Status check failed: " ++ decimal (http_status r)).

(** The counter of status requests agrees with the trace. *)
Definition coherent {U : Type} (m : Machine U) : Prop :=
  statusRequests (trace m) = statusCalls m.

(** ** Scripted backends *)

Definition okResponse {A : Type} (a : A) : Response A :=
  {| ok := true; http_status := 200; body := inr a |}.

(** A backend that answers the status requests from a script and, once the
    script is used up, with [afterwards]. *)
Definition scripted {St Res : Type} (script : list (Fetch St)) (afterwards : Fetch St)
           (results : nat -> Fetch Res) : Backend St Res :=
  {| statusEndpoint := fun n => nth n script afterwards;
     resultEndpoint := results |}.

Definition networkFailure {A : Type} : Fetch A :=
  Rejected (Error "Failed to fetch").

(** ** TranscriptService *)

Module TranscriptService.

Section Poller.

(** [ProcessingResult] is opaque to the poller. *)
Context {ProcessingResult : Type}.
(** State owned by the caller's progress callback. *)
Context {U : Type}.

Record ProcessingStatus : Type := {
  job_id : string;
  status : string;
  progress : Z;
  status_message : string;
  result : option ProcessingResult
}.

Abbreviation Mach := (Machine U).
Abbreviation Comp := (M U).

Variable backend : Backend ProcessingStatus ProcessingResult.

(** [if (onProgress) { onProgress(status.progress, status.message); }]
    The callback acts on the caller's state and returns normally. *)
Definition callProgress (onProgress : option (Z -> string -> U -> U))
           (p : Z) (msg : string) : Comp unit :=
  match onProgress with
  | None => ret tt
  | Some f => emit (OnProgress p msg) ;;; modify (f p msg)
  end.

(** The machine once the status request of a pass has been answered and the
    progress callback has run. *)
Definition afterReport (jobId : string)
           (onProgress : option (Z -> string -> U -> U))
           (m : Mach) (st : ProcessingStatus) : Mach :=
  snd (callProgress onProgress (progress st) (status_message st)
         {| statusCalls := S (statusCalls m);
            resultCalls := resultCalls m;
            trace := trace m ++ [GetStatus jobId];
            user := user m |}).

Definition maxAttempts : nat := 120.

Definition timeoutError : JsError :=
  Error "Processing timeout. Please try again with a shorter audio file.".

Definition processingFailed (msg : string) : JsError :=
  Error ("Processing failed: " ++ msg).

(** How one pass through the [try] block ends when it does not throw:
    [return] from the function, or fall out of the block into the next
    iteration (after [attempts++]). *)
Inductive Pass : Type :=
| Return (r : ProcessingResult)
| Next.

(** The [try] block of the loop body. *)
Definition tryBlock (jobId : string)
           (onProgress : option (Z -> string -> U -> U)) : Comp Pass :=
  statusResponse <- fetchStatus backend jobId ;;
  if negb (ok statusResponse) then
    throw (Error ("Status check failed: " ++ decimal (http_status statusResponse)))
  else
    st <- json statusResponse ;;
    callProgress onProgress (progress st) (status_message st) ;;;
    if status st =? "completed" then
      match result st with
      | Some r => ret (Return r)
      | None =>
          resultResponse <- fetchResult backend jobId ;;
          if negb (ok resultResponse) then
            throw (Error ("Result fetch failed: " ++ decimal (http_status resultResponse)))
          else
            r <- json resultResponse ;;
            ret (Return r)
      end
    else if status st =? "failed" then
      throw (processingFailed (status_message st))
    else
      delay 5000 ;;;
      ret Next.

(** [while (attempts < maxAttempts) { try {...} catch (error) {...} }]
    followed by the final [throw].  [None] means the fuel ran out before
    the loop ended. *)
Fixpoint pollLoop (fuel : nat) (jobId : string)
         (onProgress : option (Z -> string -> U -> U))
         (attempts : nat) (m : Mach)
  : option ((JsError + ProcessingResult) * Mach) :=
  match fuel with
  | O => None
  | S fuel' =>
      if (attempts <? maxAttempts)%nat then
        match tryBlock jobId onProgress m with
        | (inr (Return r), m1) => Some (inr r, m1)
        | (inr Next, m1) => pollLoop fuel' jobId onProgress (S attempts) m1
        | (inl error, m1) =>
            let m2 := snd (emit (ConsoleError "Polling error:" error) m1) in
            if (attempts <? 3)%nat then
              pollLoop fuel' jobId onProgress (S attempts)
                       (snd (delay 2000 m2))
            else
              Some (inl error, m2)
        end
      else
        Some (inl timeoutError, m)
  end.

Definition pollForResults (jobId : string)
           (onProgress : option (Z -> string -> U -> U)) (u : U)
  : option ((JsError + ProcessingResult) * Mach) :=
  pollLoop (S maxAttempts) jobId onProgress 0 (start u).

End Poller.

Arguments ProcessingStatus : clear implicits.

(** The class [[.!?]]. *)
Definition isTerminator (c : ascii) : bool :=
  Ascii.eqb c "." || Ascii.eqb c "!" || Ascii.eqb c "?".

(** [transcript.split(/[.!?]+/)]: the pieces between maximal runs of
    terminators; a run at either end of the text leaves an empty piece
    there. *)
Fixpoint splitSentences (s : string) : list string :=
  match s with
  | EmptyString => [EmptyString]
  | String c s' =>
      if isTerminator c then
        match s' with
        | String c' _ =>
            if isTerminator c' then splitSentences s'
            else EmptyString :: splitSentences s'
        | EmptyString => EmptyString :: splitSentences s'
        end
      else
        match splitSentences s' with
        | piece :: pieces => String c piece :: pieces
        | [] => [String c EmptyString]
        end
  end.

(** [s => s.trim().length > 0] *)
Definition nonBlank (s : string) : bool :=
  (0 <? String.length (trim s))%nat.

Definition sentencesOf (transcript : string) : list string :=
  filter nonBlank (splitSentences transcript).

(** An index past the end of an array reads [undefined], which [join]
    renders as the empty string. *)
Definition generateSummary (transcript : string) : string :=
  let sentences := sentencesOf transcript in
  if (List.length sentences <=? 3)%nat then transcript
  else
    join ". " [ nth 0 sentences EmptyString;
                nth (List.length sentences / 2) sentences EmptyString;
                nth (List.length sentences - 1) sentences EmptyString ]
    ++ ".".

Fixpoint noTerminator (s : string) : bool :=
  match s with
  | EmptyString => true
  | String c s' => negb (isTerminator c) && noTerminator s'
  end.

Fixpoint allTerminators (s : string) : bool :=
  match s with
  | EmptyString => true
  | String c s' => isTerminator c && allTerminators s'
  end.

Definition startsWithTerminator (s : string) : bool :=
  match s with
  | EmptyString => false
  | String c _ => isTerminator c
  end.

(** Splitting a text at its maximal non-empty runs of terminators: the
    pieces are the stretches without terminators, in order, and each
    separator is a whole run. *)
Inductive SplitAtTerminators : string -> list string -> Prop :=
| split_last (piece : string) :
    noTerminator piece = true ->
    SplitAtTerminators piece [piece]
| split_more (piece run rest : string) (pieces : list string) :
    noTerminator piece = true ->
    run <> "" ->
    allTerminators run = true ->
    startsWithTerminator rest = false ->
    SplitAtTerminators rest pieces ->
    SplitAtTerminators (piece ++ run ++ rest) (piece :: pieces).

End TranscriptService.

(** ** Inline poll loops of the image and document skills *)

(** The parsed status JSON; the components read it untyped. *)
Record StatusData : Type := {
  sd_status : string;
  sd_progress : Z;
  sd_message : string
}.

(** How one pass through a [while (true)] body ends when it does not throw. *)
Inductive Turn : Type :=
| Break
| Again.

(** State of a [while (true)] loop after a number of passes: still inside
    the loop, or left it (by [break] or by a throw). *)
Inductive Loop (U : Type) : Type :=
| Polling (m : Machine U)
| Left (c : JsError + unit) (m : Machine U).
Arguments Polling {U} m.
Arguments Left {U} c m.

Module ImageAnalysis.

Section Component.

Context {ImageAnalysisResult : Type}.

(** The [useState] cells the loop writes. *)
Record View : Type := {
  progress : Z;
  result : option ImageAnalysisResult;
  activeTab : nat
}.

Abbreviation Comp := (M View).

Definition setProgress (p : Z) : Comp unit :=
  modify (fun v => {| progress := p; result := result v; activeTab := activeTab v |}).
Definition setResult (r : ImageAnalysisResult) : Comp unit :=
  modify (fun v => {| progress := progress v; result := Some r; activeTab := activeTab v |}).
Definition setActiveTab (t : nat) : Comp unit :=
  modify (fun v => {| progress := progress v; result := result v; activeTab := t |}).

Variable backend : Backend StatusData ImageAnalysisResult.

(** Body of [while (true)] in [processImage]. *)
Definition pollBody (job_id : string) : Comp Turn :=
  statusResponse <- fetchStatus backend job_id ;;
  statusData <- json statusResponse ;;
  setProgress (sd_progress statusData) ;;;
  if sd_status statusData =? "completed" then
    resultResponse <- fetchResult backend job_id ;;
    analysisResult <- json resultResponse ;;
    setResult analysisResult ;;;
    setActiveTab 0 ;;;
    ret Break
  else if sd_status statusData =? "failed" then
    throw (Error (sd_message statusData))
  else
    delay 2000 ;;;
    ret Again.

(** The loop, run for at most [passes] passes. *)
Fixpoint pollLoop (passes : nat) (job_id : string) (m : Machine View) : Loop View :=
  match passes with
  | O => Polling m
  | S n =>
      match pollBody job_id m with
      | (inl e, m1) => Left (inl e) m1
      | (inr Break, m1) => Left (inr tt) m1
      | (inr Again, m1) => pollLoop n job_id m1
      end
  end.

End Component.

Arguments View : clear implicits.

End ImageAnalysis.

Module DocumentSummarization.

Section Component.

Context {DocumentSummaryResult : Type}.

(** The [useState] cells the loop writes. *)
Record View : Type := {
  progress : Z;
  result : option DocumentSummaryResult;
  activeTab : nat
}.

Abbreviation Comp := (M View).

Definition setProgress (p : Z) : Comp unit :=
  modify (fun v => {| progress := p; result := result v; activeTab := activeTab v |}).
Definition setResult (r : DocumentSummaryResult) : Comp unit :=
  modify (fun v => {| progress := progress v; result := Some r; activeTab := activeTab v |}).
Definition setActiveTab (t : nat) : Comp unit :=
  modify (fun v => {| progress := progress v; result := result v; activeTab := t |}).

Variable backend : Backend StatusData DocumentSummaryResult.

(** Body of [while (true)] in [processDocument]. *)
Definition pollBody (jobId : string) : Comp Turn :=
  statusResponse <- fetchStatus backend jobId ;;
  statusData <- json statusResponse ;;
  setProgress (sd_progress statusData) ;;;
  if sd_status statusData =? "completed" then
    resultResponse <- fetchResult backend jobId ;;
    summaryResult <- json resultResponse ;;
    setResult summaryResult ;;;
    setActiveTab 0 ;;;
    ret Break
  else if sd_status statusData =? "failed" then
    throw (Error (sd_message statusData))
  else
    delay 2000 ;;;
    ret Again.

(** The loop, run for at most [passes] passes. *)
Fixpoint pollLoop (passes : nat) (jobId : string) (m : Machine View) : Loop View :=
  match passes with
  | O => Polling m
  | S n =>
      match pollBody jobId m with
      | (inl e, m1) => Left (inl e) m1
      | (inr Break, m1) => Left (inr tt) m1
      | (inr Again, m1) => pollLoop n jobId m1
      end
  end.

End Component.

Arguments View : clear implicits.

End DocumentSummarization.

(** ** Upload components *)

(** The fields of a browser [File] that validation reads. *)
Record File : Type := {
  name : string;
  type : string;
  size : N
}.

(** State of an upload component: its [error] cell and the files it has
    handed to the [onFileSelect] callback, oldest first. *)
Record Uploader : Type := {
  error : option string;
  selected : list File
}.

(** [validTypes.includes(file.type)] *)
Definition includes (xs : list string) (x : string) : bool :=
  existsb (String.eqb x) xs.

Module AudioUpload.

Definition validTypes : list string :=
  ["audio/mp3"; "audio/wav"; "audio/m4a"; "audio/mpeg"; "audio/ogg"].

Definition maxSize : N := 50 * 1024 * 1024.

Definition extensions : list string := ["mp3"; "wav"; "m4a"; "ogg"].

(** Returns the boolean result and the value passed to [setError]. *)
Definition validateFile (file : File) : bool * option string :=
  if negb (includes validTypes (type file))
     && negb (testExtension_i extensions (name file))
  then (false, Some "Please upload a valid audio file (MP3, WAV, M4A, OGG)")
  else if (maxSize <? size file)%N
  then (false, Some "File size must be less than 50MB")
  else (true, None).

Definition handleFile (file : File) (u : Uploader) : Uploader :=
  let (valid, err) := validateFile file in
  {| error := err;
     selected := if valid then selected u ++ [file] else selected u |}.

End AudioUpload.

Module ImageUpload.

Definition validTypes : list string :=
  ["image/jpeg"; "image/jpg"; "image/png"; "image/gif"; "image/bmp"].

Definition maxSize : N := 50 * 1024 * 1024.

Definition extensions : list string := ["jpg"; "jpeg"; "png"; "gif"; "bmp"].

(** Returns the boolean result and the value passed to [setError]. *)
Definition validateFile (file : File) : bool * option string :=
  if negb (includes validTypes (type file))
     && negb (testExtension_i extensions (name file))
  then (false, Some "Please upload a valid image file (JPG, PNG, GIF, BMP)")
  else if (maxSize <? size file)%N
  then (false, Some "File size must be less than 50MB")
  else (true, None).

Definition handleFile (file : File) (u : Uploader) : Uploader :=
  let (valid, err) := validateFile file in
  {| error := err;
     selected := if valid then selected u ++ [file] else selected u |}.

End ImageUpload.

Module DocumentUpload.

Definition validTypes : list string :=
  ["application/pdf"; "application/msword";
   "application/vnd.openxmlformats-officedocument.wordprocessingml.document";
   "text/plain"].

Definition maxSize : N := 50 * 1024 * 1024.

(** Returns the boolean result and the value passed to [setError]. *)
Definition validateFile (file : File) : bool * option string :=
  let fileExtension := toLowerCase (name file) in
  let isValidExtension :=
    endsWith ".pdf" fileExtension ||
    endsWith ".doc" fileExtension ||
    endsWith ".docx" fileExtension ||
    endsWith ".txt" fileExtension in
  if negb (includes validTypes (type file)) && negb isValidExtension
  then (false, Some "Please upload a valid document file (PDF, DOC, DOCX, TXT)")
  else if (maxSize <? size file)%N
  then (false, Some "File size must be less than 50MB")
  else (true, None).

Definition handleFile (file : File) (u : Uploader) : Uploader :=
  let (valid, err) := validateFile file in
  {| error := err;
     selected := if valid then selected u ++ [file] else selected u |}.

End DocumentUpload.

(** The name ends in a dot followed by an extension which, in lower case, is
    one of [exts]. *)
Definition hasExtensionIn (exts : list string) (name : string) : Prop :=
  exists stem ext, name = stem ++ "." ++ ext /\ In (toLowerCase ext) exts.

(** The allow-lists as the specification words them. *)
Module Documented.

Definition audio : list string := ["mp3"; "wav"; "m4a"; "ogg"].
Definition images : list string := ["jpeg"; "png"; "gif"; "bmp"].
Definition documents : list string := ["pdf"; "doc"; "docx"; "txt"].

Definition maxSize : N := 50 * 1024 * 1024.

(** The media type names one of the listed formats after its slash. *)
Definition typeListed (formats : list string) (mime : string) : Prop :=
  exists family format, mime = family ++ "/" ++ format /\ In format formats.

Definition accepts (formats : list string) (f : File) : Prop :=
  (typeListed formats (type f) \/ hasExtensionIn formats (name f)) /\
  (size f <= maxSize)%N.

End Documented.

(** ** DiarizationService *)

Module DiarizationService.

Record DiarizedSegment : Type := {
  speaker : string;
  text : string;
  timestamp : string
}.

(** An element of the array built by [parseTranscriptSegments]. *)
Record Segment : Type := {
  seg_text : string;
  index : nat
}.

(** The object returned by [determineSpeaker]. *)
Record SpeakerInfo : Type := {
  info_speaker : string;
  cleanedText : string
}.

Definition newline : ascii := ascii_of_nat 10.

(** [transcript.split('\n\n')] *)
Fixpoint splitParagraphs (s : string) : list string :=
  match s with
  | EmptyString => [EmptyString]
  | String c s' =>
      match s' with
      | String c' s'' =>
          if Ascii.eqb c newline && Ascii.eqb c' newline
          then EmptyString :: splitParagraphs s''
          else match splitParagraphs s' with
               | piece :: pieces => String c piece :: pieces
               | [] => [String c EmptyString]
               end
      | EmptyString => [String c EmptyString]
      end
  end.

(** [lines.map((line, index) => ...)], counting from [start]. *)
Fixpoint mapIndexed {A B : Type} (f : A -> nat -> B) (start : nat) (xs : list A) : list B :=
  match xs with
  | [] => []
  | x :: rest => f x start :: mapIndexed f (S start) rest
  end.

Definition parseTranscriptSegments (transcript : string) : list Segment :=
  let lines := filter (fun line => (0 <? String.length (trim line))%nat)
                      (splitParagraphs transcript) in
  mapIndexed (fun line index => {| seg_text := trim line; index := index |}) 0 lines.

(** [s] without the prefix [p], when it starts with it. *)
Fixpoint stripPrefix (p s : string) : option string :=
  match p, s with
  | EmptyString, _ => Some s
  | String a p', String b s' => if Ascii.eqb a b then stripPrefix p' s' else None
  | String _ _, EmptyString => None
  end.

(** The longest run of digits at the start of [s], and what follows it. *)
Fixpoint spanDigits (s : string) : string * string :=
  match s with
  | String c s' =>
      if isDigit c then let (ds, rest) := spanDigits s' in (String c ds, rest)
      else (EmptyString, s)
  | EmptyString => (EmptyString, EmptyString)
  end.

(** The longest run of characters other than line terminators at the start
    of [s]: what a greedy [.+] or [.*] takes there. *)
Fixpoint dotRun (s : string) : string :=
  match s with
  | String c s' => if isLineTerminator c then EmptyString else String c (dotRun s')
  | EmptyString => EmptyString
  end.

(** [(.+)] at the start of [s]: the captured group, when there is one. *)
Definition dotPlus (s : string) : option string :=
  match dotRun s with
  | EmptyString => None
  | g => Some g
  end.

(** [\s*(.+)] at the start of [s], with the backtracking of the greedy star:
    take one more white-space character when the rest can still match,
    otherwise stop and let [(.+)] start here. *)
Fixpoint spacesThenDotPlus (s : string) : option string :=
  match s with
  | String c s' =>
      if isWhiteSpace c then
        match spacesThenDotPlus s' with
        | Some g => Some g
        | None => dotPlus s
        end
      else dotPlus s
  | EmptyString => None
  end.

(** [text.match(/^(Speaker \d+):\s*(.+)/)]: groups 1 and 2 of the match.
    After the longest run of digits the next character must be the colon;
    a shorter run would be followed by a digit, so giving digits back never
    helps. *)
Definition speakerMatch (text : string) : option (string * string) :=
  match stripPrefix "Speaker " text with
  | None => None
  | Some afterWord =>
      match spanDigits afterWord with
      | (EmptyString, _) => None
      | (ds, String c afterColon) =>
          if Ascii.eqb c ":" then
            match spacesThenDotPlus afterColon with
            | Some g => Some ("Speaker " ++ ds, g)
            | None => None
            end
          else None
      | (_, EmptyString) => None
      end
  end.

(** The texts that [/^(Speaker \d+):\s*(.+)/] matches with the given digits
    in its first group, said without the matcher: the word, at least one
    digit, a colon, any white space, then at least one character that is
    not a line terminator. *)
Definition labelledWith (digits text : string) : Prop :=
  exists ws c rest,
    text = "Speaker " ++ digits ++ ":" ++ ws ++ String c rest /\
    digits <> "" /\ allDigits digits = true /\
    allWhiteSpace ws = true /\ isLineTerminator c = false.

Definition customerServicePatterns : list string :=
  [ "thank you for calling";
    "how can I help";
    "let me check";
    "I can see";
    "I'll make sure";
    "is there anything else" ].

Definition customerPatterns : list string :=
  [ "I'm having an issue";
    "I placed an order";
    "can you tell me";
    "that's very generous";
    "thank you so much";
    "no, that covers everything" ].

Definition determineSpeaker (text : string) (index : nat) : SpeakerInfo :=
  match speakerMatch text with
  | Some (label, rest) => {| info_speaker := label; cleanedText := rest |}
  | None =>
      let isCustomerService := existsb (fun pattern => test_i pattern text) customerServicePatterns in
      let isCustomer := existsb (fun pattern => test_i pattern text) customerPatterns in
      let speaker :=
        if isCustomerService then "Speaker 1"
        else if isCustomer then "Speaker 2"
        else if (index mod 2 =? 0)%nat then "Speaker 1" else "Speaker 2" in
      {| info_speaker := speaker; cleanedText := text |}
  end.

Section Clock.

(** The host's clock and locale: [new Date('2024-01-01T10:00:00').getTime()]
    and [new Date(ms).toLocaleTimeString('en-US', {...})]. *)
Variable baseTime : Z.
Variable toLocaleTimeString : Z -> string.

Definition generateTimestamp (index : nat) : string :=
  let segmentDuration := 15%Z in
  toLocaleTimeString (baseTime + Z.of_nat index * segmentDuration * 1000)%Z.

Definition identifySpeakers (segments : list Segment) : list DiarizedSegment :=
  map (fun segment =>
         let speakerInfo := determineSpeaker (seg_text segment) (index segment) in
         {| speaker := info_speaker speakerInfo;
            text := cleanedText speakerInfo;
            timestamp := generateTimestamp (index segment) |})
      segments.

Definition diarizeTranscript (transcript : string) : list DiarizedSegment :=
  let segments := parseTranscriptSegments transcript in
  identifySpeakers segments.

End Clock.

End DiarizationService.


Module Scenario.

Import TranscriptService.

(** Results are represented by their transcript text here. *)
Definition report (st : string) (p : Z) (msg : string) (r : option string)
  : Fetch (ProcessingStatus string) :=
  Resolved (okResponse {| job_id := "job-1"; status := st; progress := p;
                          status_message := msg; result := r |}).

(** The job is reported failed on the first poll and completed on the
    second. *)
Definition failedThenCompleted : Backend (ProcessingStatus string) string :=
  scripted [ report "failed" 0 "bad audio" None;
             report "completed" 100 "done" (Some "hello world") ]
           networkFailure (fun _ => networkFailure).

(** The job is reported failed on every poll. *)
Definition alwaysFailed : Backend (ProcessingStatus string) string :=
  scripted [] (report "failed" 0 "bad audio" None) (fun _ => networkFailure).

(** Three successful polls, one network failure, then the job completes. *)
Definition lateNetworkFailure : Backend (ProcessingStatus string) string :=
  scripted [ report "pending" 0 "queued" None;
             report "pending" 10 "queued" None;
             report "pending" 20 "queued" None;
             networkFailure ]
           (report "completed" 100 "done" (Some "hello world"))
           (fun _ => networkFailure).

(** Two polls find the job pending, the third finds it completed with the
    result inline. *)
Definition pendingPendingCompleted : Backend (ProcessingStatus string) string :=
  scripted [ report "pending" 10 "queued" None;
             report "pending" 50 "transcribing" None;
             report "completed" 100 "done" (Some "hello world") ]
           networkFailure (fun _ => networkFailure).

(** The job is reported as processing on every poll. *)
Definition stillProcessing : Backend (ProcessingStatus string) string :=
  scripted [] (report "processing" 50 "working" None) (fun _ => networkFailure).

(** A progress callback that keeps a log, latest call first. *)
Definition logProgress (p : Z) (msg : string) (log : list (Z * string)) : list (Z * string) :=
  (p, msg) :: log.

(** A job that stays in progress for ever. *)
Definition alwaysProcessing (Res : Type) : Backend StatusData Res :=
  scripted []
           (Resolved (okResponse {| sd_status := "processing"; sd_progress := 50;
                                    sd_message := "working" |}))
           (fun _ => networkFailure).

End Scenario.


(** ** Measures on traces *)

(** The time slept, in milliseconds. *)
Fixpoint totalDelay (tr : list Event) : Z :=
  match tr with
  | [] => 0%Z
  | Delay ms :: rest => (ms + totalDelay rest)%Z
  | _ :: rest => totalDelay rest
  end.

(** The number of calls of the progress callback. *)
Fixpoint progressCalls (tr : list Event) : nat :=
  match tr with
  | [] => 0
  | OnProgress _ _ :: rest => S (progressCalls rest)
  | _ :: rest => progressCalls rest
  end.

Module Scenario2.

Import TranscriptService.

(** Two status requests fail in transit, the third finds the job completed
    with its result inline. *)
Definition flakyStart : Backend (ProcessingStatus string) string :=
  scripted [ networkFailure;
             Resolved {| ok := false; http_status := 502; body := inl (Error "Bad Gateway") |};
             Scenario.report "completed" 100 "done" (Some "hello world") ]
           networkFailure (fun _ => networkFailure).

(** The backend is unreachable. *)
Definition unreachable : Backend (ProcessingStatus string) string :=
  scripted [] networkFailure (fun _ => networkFailure).

End Scenario2.

(** ** TranscriptService: upload and the public entry points *)

(** The JSON answered to a submission: the job id on success, possibly a
    [detail] on failure. *)
Record UploadJson : Type := {
  up_job_id : string;
  up_detail : option string
}.

Module TranscriptCalls.

Section Calls.

(** JavaScript numbers of the payload; none is inspected here. *)
Context {Number : Type}.

(** [formatTimestamp] computes on floating-point seconds and is taken as
    given. *)
Variable formatTimestamp : Number -> string.

(** An element of [ProcessingResult.diarization]. *)
Record Utterance : Type := {
  u_speaker : string;
  u_text : string;
  start_time : Number;
  end_time : Number;
  confidence : option Number
}.

Record ProcessingResult : Type := {
  transcript : string;
  diarization : list Utterance;
  summary : string;
  duration : Number;
  num_speakers : Number;
  language : option string;
  processing_time : Number;
  model_info : list (string * string)
}.

(** What [analyzeConversation] resolves to. *)
Record Analysis : Type := {
  a_transcript : string;
  a_diarization : list DiarizationService.DiarizedSegment;
  a_summary : string
}.

(** [uploadFile], given the outcome of its POST. *)
Definition uploadFile (upload : Fetch UploadJson) : JsError + string :=
  match upload with
  | Rejected e => inl e
  | Resolved response =>
      if negb (ok response) then
        let detail :=
          match body response with
          | inr errorData => up_detail errorData
          | inl _ => None
          end in
        let fallback := "HTTP error! status: " ++ decimal (http_status response) in
        inl (Error match detail with
                   | Some d => if d =? "" then fallback else d
                   | None => fallback
                   end)
      else
        match body response with
        | inl e => inl e
        | inr data => inr (up_job_id data)
        end
  end.

Definition analysisFailed : JsError :=
  Error "Failed to analyze conversation. Please try again.".

Definition transcriptionFailed : JsError :=
  Error "Failed to transcribe audio. Please try again.".

(** The [map] of [analyzeConversation]. *)
Definition toFrontend (result : ProcessingResult) : Analysis :=
  {| a_transcript := transcript result;
     a_diarization :=
       map (fun segment =>
              {| DiarizationService.speaker := u_speaker segment;
                 DiarizationService.text := u_text segment;
                 DiarizationService.timestamp := formatTimestamp (start_time segment) |})
           (diarization result);
     a_summary := summary result |}.

Variable backend : Backend (TranscriptService.ProcessingStatus ProcessingResult) ProcessingResult.

Definition analyzeConversation (upload : Fetch UploadJson)
  : option ((JsError + Analysis) * Machine unit) :=
  match uploadFile upload with
  | inl error =>
      Some (inl analysisFailed,
            snd (emit (ConsoleError "Analysis error:" error) (start tt)))
  | inr jobId =>
      match TranscriptService.pollForResults backend jobId None tt with
      | None => None
      | Some (inl error, m) =>
          Some (inl analysisFailed, snd (emit (ConsoleError "Analysis error:" error) m))
      | Some (inr result, m) => Some (inr (toFrontend result), m)
      end
  end.

Definition transcribeAudio (upload : Fetch UploadJson)
  : option ((JsError + string) * Machine unit) :=
  match uploadFile upload with
  | inl error =>
      Some (inl transcriptionFailed,
            snd (emit (ConsoleError "Transcription error:" error) (start tt)))
  | inr jobId =>
      match TranscriptService.pollForResults backend jobId None tt with
      | None => None
      | Some (inl error, m) =>
          Some (inl transcriptionFailed,
                snd (emit (ConsoleError "Transcription error:" error) m))
      | Some (inr result, m) => Some (inr (transcript result), m)
      end
  end.

End Calls.

Arguments Utterance : clear implicits.
Arguments ProcessingResult : clear implicits.

(** [healthCheck] and [isBackendAvailable], given the outcome of their GET:
    the [ok] flag, or [false] when the request fails or times out. *)
Definition healthCheck (probe : Fetch unit) : bool :=
  match probe with
  | Rejected _ => false
  | Resolved response => ok response
  end.

Definition isBackendAvailable (probe : Fetch unit) : bool :=
  match probe with
  | Rejected _ => false
  | Resolved response => ok response
  end.

Definition mockParagraphs : list string :=
  [ "Speaker 1: Hello, thank you for calling our customer service. How can I help you today?";
    "Speaker 2: Hi, I'm having an issue with my recent order. I placed an order last week but haven't received any shipping confirmation yet.";
    "Speaker 1: I'm sorry to hear about that. Let me look into your order for you. Can you please provide me with your order number?";
    "Speaker 2: Sure, it's order number 12345. I placed it on Monday and paid extra for expedited shipping.";
    "Speaker 1: Thank you for that information. Let me check our system... I can see your order here. It looks like there was a delay in processing due to inventory issues, but I can confirm that your order shipped yesterday. You should receive a tracking email within the next hour.";
    "Speaker 2: Oh, that's a relief! Thank you for checking. Can you tell me when I should expect to receive it?";
    "Speaker 1: Based on the expedited shipping you selected, you should receive your order by tomorrow afternoon. I'll also make sure to apply a 10% discount to your next order as an apology for the confusion.";
    "Speaker 2: That's very generous, thank you so much for your help! I really appreciate the excellent customer service.";
    "Speaker 1: You're very welcome! Is there anything else I can help you with today?";
    "Speaker 2: No, that covers everything. Thank you again and have a great day!";
    "Speaker 1: Thank you, you too! Take care!" ].

Definition blankLine : string :=
  String DiarizationService.newline (String DiarizationService.newline "").

(** The text returned by [mockTranscribeAudio]: its paragraphs with a blank
    line between them. *)
Definition mockTranscript : string := join blankLine mockParagraphs.

End TranscriptCalls.

(** ** ConversationAnalysis *)

Module ConversationAnalysis.

Section Component.

Context {Number : Type}.
Variable formatTimestamp : Number -> string.
Variable baseTime : Z.
Variable toLocaleTimeString : Z -> string.

(** The [useState] cells of the component that [processAudio] and
    [handleFileSelect] touch. *)
Record View : Type := {
  audioFile : option File;
  loading : bool;
  progress : Z;
  result : option TranscriptCalls.Analysis;
  error : option string;
  activeTab : nat
}.

Definition setAudioFile (f : option File) (v : View) : View :=
  {| audioFile := f; loading := loading v; progress := progress v;
     result := result v; error := error v; activeTab := activeTab v |}.
Definition setLoading (b : bool) (v : View) : View :=
  {| audioFile := audioFile v; loading := b; progress := progress v;
     result := result v; error := error v; activeTab := activeTab v |}.
Definition setProgress (p : Z) (v : View) : View :=
  {| audioFile := audioFile v; loading := loading v; progress := p;
     result := result v; error := error v; activeTab := activeTab v |}.
Definition setResult (r : option TranscriptCalls.Analysis) (v : View) : View :=
  {| audioFile := audioFile v; loading := loading v; progress := progress v;
     result := r; error := error v; activeTab := activeTab v |}.
Definition setError (e : option string) (v : View) : View :=
  {| audioFile := audioFile v; loading := loading v; progress := progress v;
     result := result v; error := e; activeTab := activeTab v |}.
Definition setActiveTab (t : nat) (v : View) : View :=
  {| audioFile := audioFile v; loading := loading v; progress := progress v;
     result := result v; error := error v; activeTab := t |}.

Definition handleFileSelect (file : File) (v : View) : View :=
  setError None (setResult None (setAudioFile (Some file) v)).

(** The fallback branch of [processAudio]: the mock transcript, diarized
    and summarized in the browser. *)
Definition demoAnalysis : TranscriptCalls.Analysis :=
  let transcript := TranscriptCalls.mockTranscript in
  let diarization :=
    DiarizationService.diarizeTranscript baseTime toLocaleTimeString transcript in
  let summary := TranscriptService.generateSummary transcript in
  {| TranscriptCalls.a_transcript := transcript;
     TranscriptCalls.a_diarization := diarization;
     TranscriptCalls.a_summary := summary |}.

(** [processAudio], given the outcomes of the availability probe and of the
    upload, and the backend that answers the poll.  It returns the view it
    leaves and the trace of the requests, sleeps and console errors. *)
Definition processAudio (probe : Fetch unit) (upload : Fetch UploadJson)
           (backend : Backend (TranscriptService.ProcessingStatus
                                 (TranscriptCalls.ProcessingResult Number))
                              (TranscriptCalls.ProcessingResult Number))
           (v : View) : option (View * list Event) :=
  match audioFile v with
  | None => Some (v, [])
  | Some _ =>
      let v1 := setError None (setProgress 0 (setLoading true v)) in
      let finally (v' : View) := setProgress 0 (setLoading false v') in
      if TranscriptCalls.isBackendAvailable probe then
        let v2 := setProgress 10 v1 in
        match TranscriptCalls.analyzeConversation formatTimestamp backend upload with
        | None => None
        | Some (inl err, m) =>
            Some (finally (setError (Some (message err)) v2), trace m)
        | Some (inr analysisResult, m) =>
            Some (finally (setActiveTab 0
                             (setResult (Some analysisResult) (setProgress 100 v2))),
                  trace m)
        end
      else
        let v2 := setProgress 30 v1 in
        let v3 := setProgress 70 v2 in
        let v4 := setProgress 90 v3 in
        Some (finally (setActiveTab 0
                         (setResult (Some demoAnalysis) (setProgress 100 v4))),
              [Delay 2000; Delay 1500])
  end.

End Component.

Arguments View : clear implicits.

End ConversationAnalysis.

(** A backend of the audio skill that cannot be reached. *)
Definition unreachableAudio :
  Backend (TranscriptService.ProcessingStatus (TranscriptCalls.ProcessingResult nat))
          (TranscriptCalls.ProcessingResult nat) :=
  scripted [] networkFailure (fun _ => networkFailure).

(** ** The drop zone of the upload components

    The three upload components share these handlers word for word; they
    differ in the [handleFile] they call. *)

Section DropZone.

Variable handleFile : File -> Uploader -> Uploader.

Record Zone : Type := {
  isDragOver : bool;
  uploader : Uploader
}.

Definition handleDragOver (z : Zone) : Zone :=
  {| isDragOver := true; uploader := uploader z |}.

Definition handleDragLeave (z : Zone) : Zone :=
  {| isDragOver := false; uploader := uploader z |}.

(** [files] is [Array.from(e.dataTransfer.files)]. *)
Definition handleDrop (files : list File) (z : Zone) : Zone :=
  {| isDragOver := false;
     uploader := match files with
                 | file :: _ => handleFile file (uploader z)
                 | [] => uploader z
                 end |}.

(** [files] is [e.target.files], which may be null. *)
Definition handleFileInput (files : option (list File)) (z : Zone) : Zone :=
  match files with
  | Some (file :: _) =>
      {| isDragOver := isDragOver z; uploader := handleFile file (uploader z) |}
  | _ => z
  end.

End DropZone.

(** The file a drop considers: the first one, if any. *)
Definition considered (files : list File) : list File :=
  match files with
  | file :: _ => [file]
  | [] => []
  end.

(** ** What a backend answers to the components that do not check [ok] *)

(** The n-th status request is answered, with whatever HTTP status, by a
    body that parses to [sd]. *)
Definition answers {St Res : Type} (backend : Backend St Res) (n : nat) (sd : St) : Prop :=
  exists r, statusEndpoint backend n = Resolved r /\ body r = inr sd.

(** The n-th status request is lost: [fetch] rejects or the body does not
    parse. *)
Definition statusLost {St Res : Type} (backend : Backend St Res) (n : nat) (e : JsError)
  : Prop :=
  statusEndpoint backend n = Rejected e \/
  exists r, statusEndpoint backend n = Resolved r /\ body r = inl e.

(** The n-th result request is answered by a body that parses to [res]. *)
Definition resultAnswers {St Res : Type} (backend : Backend St Res) (n : nat) (res : Res)
  : Prop :=
  exists r, resultEndpoint backend n = Resolved r /\ body r = inr res.

(** The job is neither completed nor failed. *)
Definition inProgress (sd : StatusData) : bool :=
  negb (sd_status sd =? "completed") && negb (sd_status sd =? "failed").

(** ** ImageAnalysis: [processImage] *)

Module ImageAnalysisComponent.

Section Component.

Context {ImageAnalysisResult : Type}.

Abbreviation View := (ImageAnalysis.View ImageAnalysisResult).

(** The [useState] cells that [processImage] touches: the selected file,
    the loading flag, the error, and the cells written by the poll loop. *)
Record Screen : Type := {
  imageFile : option File;
  loading : bool;
  error : option string;
  view : View
}.

Definition withProgress (p : Z) (v : View) : View :=
  {| ImageAnalysis.progress := p;
     ImageAnalysis.result := ImageAnalysis.result v;
     ImageAnalysis.activeTab := ImageAnalysis.activeTab v |}.

(** [processImage] after a number of passes of its poll loop: still inside
    the loop, or returned, leaving a screen. *)
Inductive Run : Type :=
| StillPolling (m : Machine View)
| Finished (s : Screen) (m : Machine View).

Variable backend : Backend StatusData ImageAnalysisResult.

(** [processImage], given the outcome of the upload.  [catch] stores the
    message of the error, [finally] clears the loading flag and the
    progress. *)
Definition processImage (upload : Fetch UploadJson) (passes : nat) (s : Screen) : Run :=
  match imageFile s with
  | None => Finished s (start (view s))
  | Some _ =>
      let view0 := withProgress 0 (view s) in
      let caught (msg : string) (m : Machine View) :=
        Finished {| imageFile := imageFile s; loading := false;
                    error := Some msg; view := withProgress 0 (user m) |} m in
      match upload with
      | Rejected e => caught (message e) (start view0)
      | Resolved uploadResponse =>
          if negb (ok uploadResponse) then
            caught "Failed to upload image" (start view0)
          else
            match body uploadResponse with
            | inl e => caught (message e) (start view0)
            | inr data =>
                match ImageAnalysis.pollLoop backend passes (up_job_id data)
                                             (start view0) with
                | Polling m => StillPolling m
                | Left (inl e) m => caught (message e) m
                | Left (inr _) m =>
                    Finished {| imageFile := imageFile s; loading := false;
                                error := None; view := withProgress 0 (user m) |} m
                end
            end
      end
  end.

(** [handleFileSelect]: the new file is stored and the result and the
    error are cleared.  (The preview it also requests is read later, by a
    [FileReader] callback, into a cell that [processImage] never reads.) *)
Definition handleFileSelect (file : File) (s : Screen) : Screen :=
  {| imageFile := Some file;
     loading := loading s;
     error := None;
     view := {| ImageAnalysis.progress := ImageAnalysis.progress (view s);
                ImageAnalysis.result := None;
                ImageAnalysis.activeTab := ImageAnalysis.activeTab (view s) |} |}.

End Component.

Arguments Screen : clear implicits.
Arguments Run : clear implicits.

End ImageAnalysisComponent.

(** ** DocumentSummarization: [processDocument] *)

Module DocumentSummarizationComponent.

Section Component.

Context {DocumentSummaryResult : Type}.

Abbreviation View := (DocumentSummarization.View DocumentSummaryResult).

Inductive Mode : Type := FileMode | UrlMode.

(** What was submitted to the backend. *)
Inductive Submission : Type :=
| UploadDocument (file : File)
| SummarizeUrl (url : string).

Record Screen : Type := {
  documentFile : option File;
  url : string;
  mode : Mode;
  loading : bool;
  error : option string;
  view : View
}.

Definition withProgress (p : Z) (v : View) : View :=
  {| DocumentSummarization.progress := p;
     DocumentSummarization.result := DocumentSummarization.result v;
     DocumentSummarization.activeTab := DocumentSummarization.activeTab v |}.

Inductive Run : Type :=
| StillPolling (sent : Submission) (m : Machine View)
| Finished (sent : option Submission) (s : Screen) (m : Machine View).

Variable backend : Backend StatusData DocumentSummaryResult.

(** [if (!documentFile && !url) return;] *)
Definition nothingToDo (s : Screen) : bool :=
  match documentFile s with
  | None => url s =? ""
  | Some _ => false
  end.

(** [processDocument], given the outcomes of the two submissions it may
    make: the upload of the file and the URL request. *)
Definition processDocument (upload summarize : Fetch UploadJson) (passes : nat)
           (s : Screen) : Run :=
  if nothingToDo s then Finished None s (start (view s))
  else
    let view0 := withProgress 0 (view s) in
    let caught (sent : Submission) (msg : string) (m : Machine View) :=
      Finished (Some sent)
               {| documentFile := documentFile s; url := url s; mode := mode s;
                  loading := false; error := Some msg;
                  view := withProgress 0 (user m) |} m in
    let '(sent, response, refused) :=
      match mode s, documentFile s with
      | FileMode, Some file => (UploadDocument file, upload, "Failed to upload document")
      | _, _ => (SummarizeUrl (url s), summarize, "Failed to process URL")
      end in
    match response with
    | Rejected e => caught sent (message e) (start view0)
    | Resolved submitted =>
        if negb (ok submitted) then caught sent refused (start view0)
        else
          match body submitted with
          | inl e => caught sent (message e) (start view0)
          | inr data =>
              match DocumentSummarization.pollLoop backend passes (up_job_id data)
                                                   (start view0) with
              | Polling m => StillPolling sent m
              | Left (inl e) m => caught sent (message e) m
              | Left (inr _) m =>
                  Finished (Some sent)
                           {| documentFile := documentFile s; url := url s;
                              mode := mode s; loading := false; error := None;
                              view := withProgress 0 (user m) |} m
              end
          end
    end.

(** [handleFileSelect]: the new document is stored, the result and the
    error are cleared, and the component switches to file mode. *)
Definition handleFileSelect (file : File) (s : Screen) : Screen :=
  {| documentFile := Some file;
     url := url s;
     mode := FileMode;
     loading := loading s;
     error := None;
     view := {| DocumentSummarization.progress := DocumentSummarization.progress (view s);
                DocumentSummarization.result := None;
                DocumentSummarization.activeTab :=
                  DocumentSummarization.activeTab (view s) |} |}.

End Component.

Arguments Screen : clear implicits.
Arguments Run : clear implicits.

End DocumentSummarizationComponent.

Module Scenario3.

Definition status (st : string) (p : Z) (msg : string) : Fetch StatusData :=
  Resolved (okResponse {| sd_status := st; sd_progress := p; sd_message := msg |}).

(** An image job: two polls in progress, then failed. *)
Definition failsLate : Backend StatusData string :=
  scripted [ status "pending" 0 "queued"; status "processing" 40 "captioning";
             status "failed" 40 "unsupported image" ]
           networkFailure (fun _ => networkFailure).

(** Two polls in progress, then the connection drops; the job would have
    completed. *)
Definition dropsLate : Backend StatusData string :=
  scripted [ status "pending" 0 "queued"; status "processing" 40 "captioning";
             networkFailure ]
           (status "completed" 100 "done")
           (fun _ => Resolved (okResponse "a cat on a sofa")).

(** Two polls in progress, then completed. *)
Definition completesLate : Backend StatusData string :=
  scripted [ status "pending" 0 "queued"; status "processing" 40 "captioning";
             status "completed" 100 "done" ]
           networkFailure
           (fun _ => Resolved (okResponse "a cat on a sofa")).

Definition blankImage : ImageAnalysis.View string :=
  {| ImageAnalysis.progress := 0; ImageAnalysis.result := None;
     ImageAnalysis.activeTab := 2 |}.

Definition blankDocument : DocumentSummarization.View string :=
  {| DocumentSummarization.progress := 0; DocumentSummarization.result := None;
     DocumentSummarization.activeTab := 2 |}.

Definition accepted (id : string) : Fetch UploadJson :=
  Resolved (okResponse {| up_job_id := id; up_detail := None |}).

Definition tooLarge : Response UploadJson :=
  {| ok := false; http_status := 413;
     body := inr {| up_job_id := ""; up_detail := Some "File too large" |} |}.

Definition refused : Fetch UploadJson := Resolved tooLarge.

(** A screen with a picture selected and an earlier error showing. *)
Definition imageScreen : ImageAnalysisComponent.Screen string :=
  {| ImageAnalysisComponent.imageFile :=
       Some {| name := "cat.png"; type := "image/png"; size := 2048 |};
     ImageAnalysisComponent.loading := false;
     ImageAnalysisComponent.error := Some "Failed to upload image";
     ImageAnalysisComponent.view := blankImage |}.

(** A screen in URL mode with a document still selected from before. *)
Definition documentScreen : DocumentSummarizationComponent.Screen string :=
  {| DocumentSummarizationComponent.documentFile :=
       Some {| name := "notes.pdf"; type := "application/pdf"; size := 4096 |};
     DocumentSummarizationComponent.url := "https://example.com/a.html";
     DocumentSummarizationComponent.mode := DocumentSummarizationComponent.UrlMode;
     DocumentSummarizationComponent.loading := false;
     DocumentSummarizationComponent.error := None;
     DocumentSummarizationComponent.view := blankDocument |}.

End Scenario3.

(** * Properties *)

(** ** The poll loop of TranscriptService *)

Section PollerFacts.

Import TranscriptService.

Context {R U : Type}.
Variable backend : Backend (ProcessingStatus R) R.
Variable jobId : string.
Variable onProgress : option (Z -> string -> U -> U).

Lemma callProgress_runs (p : Z) (msg : string) (m : Machine U) :
  exists m', callProgress onProgress p msg m = (inr tt, m') /\
             statusCalls m' = statusCalls m /\
             resultCalls m' = resultCalls m.
Proof.
  destruct onProgress as [f|]; cbn;
    (eexists; split; [reflexivity|split; reflexivity]).
Qed.

(** Every pass through the [try] block issues exactly one status request. *)
Lemma tryBlock_statusCalls (m : Machine U) :
  statusCalls (snd (tryBlock backend jobId onProgress m)) = S (statusCalls m).
Proof.
  unfold tryBlock, bind, fetchStatus.
  destruct (statusEndpoint backend (statusCalls m)) as [e|r]; [reflexivity|].
  destruct (ok r); cbn [negb]; [|reflexivity].
  unfold json. destruct (body r) as [e|st]; [reflexivity|]. cbn [ret].
  destruct (callProgress_runs (progress st) (status_message st)
              {| statusCalls := S (statusCalls m); resultCalls := resultCalls m;
                 trace := trace m ++ [GetStatus jobId]; user := user m |})
    as (m1 & -> & Hs & _). cbn in Hs.
  destruct (status st =? "completed").
  - destruct (result st); [exact Hs|].
    unfold fetchResult.
    destruct (resultEndpoint backend (resultCalls m1)) as [e|rr]; [exact Hs|].
    destruct (ok rr); cbn [negb]; [|exact Hs].
    destruct (body rr); exact Hs.
  - destruct (status st =? "failed"); exact Hs.
Qed.

(** A pass on a job that is neither completed nor failed: one request, the
    progress callback, five seconds of sleep, and on to the next pass. *)
Lemma tryBlock_in_progress (m : Machine U) (st : ProcessingStatus R) :
  reports backend (statusCalls m) st ->
  (status st =? "completed") = false ->
  (status st =? "failed") = false ->
  tryBlock backend jobId onProgress m =
  (inr Next,
   snd (delay 5000
          (snd (callProgress onProgress (progress st) (status_message st)
                  {| statusCalls := S (statusCalls m);
                     resultCalls := resultCalls m;
                     trace := trace m ++ [GetStatus jobId];
                     user := user m |})))).
Proof.
  intros (r & Hr & Hok & Hb) Hc Hf.
  unfold tryBlock, bind, fetchStatus, json.
  rewrite Hr, Hok, Hb. cbn [negb ret].
  destruct (callProgress_runs (progress st) (status_message st)
              {| statusCalls := S (statusCalls m); resultCalls := resultCalls m;
                 trace := trace m ++ [GetStatus jobId]; user := user m |})
    as (m1 & -> & _).
  rewrite Hc, Hf. reflexivity.
Qed.

(** A pass on a failed job throws the processing error. *)
Lemma tryBlock_failed (m : Machine U) (st : ProcessingStatus R) :
  reports backend (statusCalls m) st ->
  status st = "failed" ->
  fst (tryBlock backend jobId onProgress m) = inl (processingFailed (status_message st)).
Proof.
  intros (r & Hr & Hok & Hb) Hf.
  unfold tryBlock, bind, fetchStatus, json.
  rewrite Hr, Hok, Hb. cbn [negb ret].
  destruct (callProgress_runs (progress st) (status_message st)
              {| statusCalls := S (statusCalls m); resultCalls := resultCalls m;
                 trace := trace m ++ [GetStatus jobId]; user := user m |})
    as (m1 & -> & _).
  rewrite Hf. reflexivity.
Qed.

(** A pass whose status request fails in transit throws that failure. *)
Lemma tryBlock_statusFails (m : Machine U) (e : JsError) :
  statusFails backend (statusCalls m) e ->
  tryBlock backend jobId onProgress m =
  (inl e, {| statusCalls := S (statusCalls m);
             resultCalls := resultCalls m;
             trace := trace m ++ [GetStatus jobId];
             user := user m |}).
Proof.
  intros [Hr | (r & Hr & Hok & ->)];
    unfold tryBlock, bind, fetchStatus; rewrite Hr; [reflexivity|].
  rewrite Hok. reflexivity.
Qed.

(** The loop ends within [maxAttempts] passes and never issues more status
    requests than it has attempts left. *)
Lemma pollLoop_terminates (fuel attempts : nat) (m : Machine U) :
  maxAttempts - attempts < fuel ->
  exists out m',
    pollLoop backend fuel jobId onProgress attempts m = Some (out, m') /\
    statusCalls m' <= statusCalls m + (maxAttempts - attempts).
Proof.
  revert attempts m.
  induction fuel as [|fuel IH]; intros attempts m Hfuel.
  - lia.
  - cbn [pollLoop].
    destruct (attempts <? maxAttempts)%nat eqn:Hlt.
    + apply Nat.ltb_lt in Hlt.
      pose proof (tryBlock_statusCalls m) as Hs.
      destruct (tryBlock backend jobId onProgress m) as [[e|[r|]] m1]; cbn [snd] in Hs.
      * destruct (attempts <? 3)%nat.
        -- destruct (IH (S attempts)
                        (snd (delay 2000 (snd (emit (ConsoleError "Polling error:" e) m1)))))
             as (out & m' & Hrun & Hb); [lia|].
           exists out, m'. split; [exact Hrun|].
           cbn [snd delay emit statusCalls] in Hb. lia.
        -- eexists _, _. split; [reflexivity|].
           cbn [snd emit statusCalls]. lia.
      * eexists _, _. split; [reflexivity|]. lia.
      * destruct (IH (S attempts) m1) as (out & m' & Hrun & Hb); [lia|].
        exists out, m'. split; [exact Hrun|]. lia.
    + eexists _, _. split; [reflexivity|]. lia.
Qed.

(** [pollForResults] always settles, after at most 120 status requests. *)
Lemma pollForResults_bounded (u : U) :
  exists out m',
    pollForResults backend jobId onProgress u = Some (out, m') /\
    statusCalls m' <= maxAttempts.
Proof.
  unfold pollForResults.
  destruct (pollLoop_terminates (S maxAttempts) 0 (start u)) as (out & m' & Hrun & Hb);
    [lia|].
  exists out, m'. split; [exact Hrun|].
  cbn [start statusCalls] in Hb. lia.
Qed.


Lemma afterReport_calls (m : Machine U) (st : ProcessingStatus R) :
  statusCalls (afterReport jobId onProgress m st) = S (statusCalls m) /\
  resultCalls (afterReport jobId onProgress m st) = resultCalls m.
Proof.
  unfold afterReport.
  destruct (callProgress_runs (progress st) (status_message st)
              {| statusCalls := S (statusCalls m); resultCalls := resultCalls m;
                 trace := trace m ++ [GetStatus jobId]; user := user m |})
    as (m1 & -> & Hs & Hr).
  split; assumption.
Qed.

(** One turn of the loop on a job still in progress. *)
Lemma pollLoop_in_progress (fuel attempts : nat) (m : Machine U) (st : ProcessingStatus R) :
  attempts < maxAttempts ->
  reports backend (statusCalls m) st ->
  (status st =? "completed") = false ->
  (status st =? "failed") = false ->
  pollLoop backend (S fuel) jobId onProgress attempts m =
  pollLoop backend fuel jobId onProgress (S attempts)
           (snd (delay 5000 (afterReport jobId onProgress m st))).
Proof.
  intros Hlt Hrep Hc Hf. cbn [pollLoop].
  apply Nat.ltb_lt in Hlt. rewrite Hlt.
  rewrite (tryBlock_in_progress m st Hrep Hc Hf). reflexivity.
Qed.

(** The last turn of the loop when the status response carries the result. *)
Lemma pollLoop_completed_inline (fuel attempts : nat) (m : Machine U)
      (st : ProcessingStatus R) (res : R) :
  attempts < maxAttempts ->
  reports backend (statusCalls m) st ->
  status st = "completed" ->
  result st = Some res ->
  pollLoop backend (S fuel) jobId onProgress attempts m =
  Some (inr res, afterReport jobId onProgress m st).
Proof.
  intros Hlt (r & Hr & Hok & Hb) Hc Hres. cbn [pollLoop].
  apply Nat.ltb_lt in Hlt. rewrite Hlt.
  unfold tryBlock, bind, fetchStatus, json, afterReport.
  rewrite Hr, Hok, Hb. cbn [negb ret].
  destruct (callProgress_runs (progress st) (status_message st)
              {| statusCalls := S (statusCalls m); resultCalls := resultCalls m;
                 trace := trace m ++ [GetStatus jobId]; user := user m |})
    as (m1 & -> & _).
  rewrite Hc, Hres. reflexivity.
Qed.

(** The last turn of the loop when the result has to be fetched. *)
Lemma pollLoop_completed_fetched (fuel attempts : nat) (m : Machine U)
      (st : ProcessingStatus R) (res : R) :
  attempts < maxAttempts ->
  reports backend (statusCalls m) st ->
  status st = "completed" ->
  result st = None ->
  delivers backend (resultCalls m) res ->
  pollLoop backend (S fuel) jobId onProgress attempts m =
  Some (inr res,
        {| statusCalls := statusCalls (afterReport jobId onProgress m st);
           resultCalls := S (resultCalls (afterReport jobId onProgress m st));
           trace := trace (afterReport jobId onProgress m st) ++ [GetResult jobId];
           user := user (afterReport jobId onProgress m st) |}).
Proof.
  intros Hlt (r & Hr & Hok & Hb) Hc Hres (rr & Hrr & Hrok & Hrb). cbn [pollLoop].
  apply Nat.ltb_lt in Hlt. rewrite Hlt.
  pose proof (afterReport_calls m st) as [_ Hcalls].
  unfold tryBlock, bind, fetchStatus, fetchResult, json, afterReport in *.
  rewrite Hr, Hok, Hb. cbn [negb ret].
  destruct (callProgress_runs (progress st) (status_message st)
              {| statusCalls := S (statusCalls m); resultCalls := resultCalls m;
                 trace := trace m ++ [GetStatus jobId]; user := user m |})
    as (m1 & Hcp & _).
  rewrite Hcp in *. cbn [snd] in *.
  rewrite Hc, Hres, String.eqb_refl. cbv beta iota.
  rewrite Hcalls, Hrr, Hrok, Hrb. reflexivity.
Qed.

(** When the catch block is reached with three or more attempts counted,
    the error leaves the function at once. *)
Lemma pollLoop_rethrows (fuel attempts : nat) (m : Machine U) (e : JsError) :
  3 <= attempts < maxAttempts ->
  fst (tryBlock backend jobId onProgress m) = inl e ->
  pollLoop backend (S fuel) jobId onProgress attempts m =
  Some (inl e, snd (emit (ConsoleError "Polling error:" e)
                         (snd (tryBlock backend jobId onProgress m)))).
Proof.
  intros [H3 Hlt] He. cbn [pollLoop].
  apply Nat.ltb_lt in Hlt. rewrite Hlt.
  destruct (tryBlock backend jobId onProgress m) as [c m1]. cbn [fst snd] in *.
  subst c.
  assert (H : (attempts <? 3)%nat = false) by (apply Nat.ltb_ge; exact H3).
  rewrite H. reflexivity.
Qed.

(** When the catch block is reached with fewer than three attempts counted,
    the error is logged and dropped, and the loop goes on after two
    seconds. *)
Lemma pollLoop_retries (fuel attempts : nat) (m : Machine U) (e : JsError) :
  attempts < 3 ->
  fst (tryBlock backend jobId onProgress m) = inl e ->
  pollLoop backend (S fuel) jobId onProgress attempts m =
  pollLoop backend fuel jobId onProgress (S attempts)
           (snd (delay 2000
                   (snd (emit (ConsoleError "Polling error:" e)
                              (snd (tryBlock backend jobId onProgress m)))))).
Proof.
  intros H3 He. cbn [pollLoop].
  assert (Hlt : (attempts <? maxAttempts)%nat = true)
    by (apply Nat.ltb_lt; unfold maxAttempts; lia).
  rewrite Hlt.
  destruct (tryBlock backend jobId onProgress m) as [c m1]. cbn [fst snd] in *.
  subst c.
  apply Nat.ltb_lt in H3. rewrite H3. reflexivity.
Qed.

Lemma statusRequests_app (a b : list Event) :
  statusRequests (a ++ b) = statusRequests a + statusRequests b.
Proof.
  induction a as [|e a IH]; cbn; [reflexivity|].
  destruct e; cbn; rewrite IH; reflexivity.
Qed.

Lemma callProgress_coherent (p : Z) (msg : string) (m : Machine U) :
  coherent m -> coherent (snd (callProgress onProgress p msg m)).
Proof.
  unfold coherent. destruct onProgress as [f|]; cbn; [|tauto].
  rewrite statusRequests_app. cbn. lia.
Qed.

Lemma tryBlock_coherent (m : Machine U) :
  coherent m -> coherent (snd (tryBlock backend jobId onProgress m)).
Proof.
  intros Hm.
  assert (H1 : coherent {| statusCalls := S (statusCalls m); resultCalls := resultCalls m;
                           trace := trace m ++ [GetStatus jobId]; user := user m |}).
  { unfold coherent in *. cbn. rewrite statusRequests_app, Hm. cbn. lia. }
  unfold tryBlock, bind, fetchStatus.
  destruct (statusEndpoint backend (statusCalls m)) as [e|r]; [exact H1|].
  destruct (ok r); cbn [negb]; [|exact H1].
  unfold json. destruct (body r) as [e|st]; [exact H1|]. cbn [ret].
  pose proof (callProgress_coherent (progress st) (status_message st) _ H1) as H2.
  destruct (callProgress onProgress (progress st) (status_message st) _) as [[e|[]] m1];
    cbn [snd] in H2; [exact H2|].
  assert (H3 : coherent {| statusCalls := statusCalls m1; resultCalls := S (resultCalls m1);
                           trace := trace m1 ++ [GetResult jobId]; user := user m1 |}).
  { unfold coherent in *. cbn. rewrite statusRequests_app, H2. cbn. lia. }
  destruct (status st =? "completed").
  - destruct (result st); [exact H2|].
    unfold fetchResult.
    destruct (resultEndpoint backend (resultCalls m1)) as [e|rr]; [exact H3|].
    destruct (ok rr); cbn [negb]; [|exact H3].
    destruct (body rr); exact H3.
  - destruct (status st =? "failed"); [exact H2|].
    unfold coherent in *. cbn. rewrite statusRequests_app, H2. cbn. lia.
Qed.

Lemma pollLoop_coherent (fuel attempts : nat) (m : Machine U)
      (out : JsError + R) (m' : Machine U) :
  coherent m ->
  pollLoop backend fuel jobId onProgress attempts m = Some (out, m') ->
  coherent m'.
Proof.
  revert attempts m. induction fuel as [|fuel IH]; intros attempts m Hm Hrun;
    cbn [pollLoop] in Hrun; [discriminate|].
  destruct (attempts <? maxAttempts)%nat.
  - pose proof (tryBlock_coherent m Hm) as H1.
    destruct (tryBlock backend jobId onProgress m) as [[e|[r|]] m1]; cbn [snd] in H1.
    + assert (H2 : coherent (snd (emit (ConsoleError "Polling error:" e) m1))).
      { unfold coherent in *. cbn. rewrite statusRequests_app, H1. cbn. lia. }
      destruct (attempts <? 3)%nat.
      * eapply IH; [|exact Hrun].
        unfold coherent in *. cbn. cbn in H2.
        rewrite statusRequests_app, H2. cbn. lia.
      * injection Hrun as _ <-. exact H2.
    + injection Hrun as _ <-. exact H1.
    + eapply IH; [exact H1 | exact Hrun].
  - injection Hrun as _ <-. exact Hm.
Qed.

(** From any point of the loop, a job that stays in progress uses up the
    remaining attempts, one status request each, and the loop times out. *)
Lemma pollLoop_exhausts (k fuel attempts : nat) (m : Machine U) :
  attempts + k = maxAttempts ->
  k < fuel ->
  (forall i, statusCalls m <= i < statusCalls m + k ->
             exists st, reports backend i st /\ status st = "processing") ->
  exists m',
    pollLoop backend fuel jobId onProgress attempts m = Some (inl timeoutError, m') /\
    statusCalls m' = statusCalls m + k /\
    resultCalls m' = resultCalls m.
Proof.
  revert fuel attempts m.
  induction k as [|k IH]; intros fuel attempts m Hsum Hfuel Hall;
    (destruct fuel as [|fuel]; [lia|]).
  - exists m. cbn [pollLoop].
    assert (H : (attempts <? maxAttempts)%nat = false) by (apply Nat.ltb_ge; lia).
    rewrite H. repeat split; lia.
  - destruct (Hall (statusCalls m)) as (st & Hrep & Hst); [lia|].
    rewrite (pollLoop_in_progress fuel attempts m st);
      [| lia | exact Hrep | rewrite Hst; reflexivity | rewrite Hst; reflexivity].
    pose proof (afterReport_calls m st) as [Hs Hr].
    destruct (IH fuel (S attempts) (snd (delay 5000 (afterReport jobId onProgress m st))))
      as (m' & Hrun & Hs' & Hr'); [lia | lia | |].
    + cbn [snd delay emit statusCalls]. rewrite Hs.
      intros i Hi. apply Hall. lia.
    + exists m'. cbn [snd delay emit statusCalls resultCalls] in Hs', Hr'.
      split; [exact Hrun|]. split; lia.
Qed.

(** A failed job met once three attempts have been counted ends the poll
    with the processing error that carries the backend's message. *)
Lemma pollLoop_failed_late (fuel attempts : nat) (m : Machine U) (st : ProcessingStatus R) :
  3 <= attempts < maxAttempts ->
  reports backend (statusCalls m) st ->
  status st = "failed" ->
  exists m',
    pollLoop backend (S fuel) jobId onProgress attempts m =
    Some (inl (processingFailed (status_message st)), m').
Proof.
  intros Hatt Hrep Hf.
  rewrite (pollLoop_rethrows fuel attempts m _ Hatt (tryBlock_failed m st Hrep Hf)).
  eexists. reflexivity.
Qed.

(** A failed job met earlier is polled again two seconds later. *)
Lemma pollLoop_failed_early (fuel attempts : nat) (m : Machine U) (st : ProcessingStatus R) :
  attempts < 3 ->
  reports backend (statusCalls m) st ->
  status st = "failed" ->
  exists m',
    pollLoop backend (S fuel) jobId onProgress attempts m =
    pollLoop backend fuel jobId onProgress (S attempts) m' /\
    statusCalls m' = S (statusCalls m).
Proof.
  intros Hatt Hrep Hf.
  rewrite (pollLoop_retries fuel attempts m _ Hatt (tryBlock_failed m st Hrep Hf)).
  eexists. split; [reflexivity|].
  cbn [snd delay emit statusCalls]. apply tryBlock_statusCalls.
Qed.

(** A network failure during one of the first three attempts is followed by
    a two-second delay and a new attempt. *)
Lemma pollLoop_network_failure_early (fuel attempts : nat) (m : Machine U) (e : JsError) :
  attempts < 3 ->
  statusFails backend (statusCalls m) e ->
  pollLoop backend (S fuel) jobId onProgress attempts m =
  pollLoop backend fuel jobId onProgress (S attempts)
           {| statusCalls := S (statusCalls m);
              resultCalls := resultCalls m;
              trace := trace m ++ [GetStatus jobId; ConsoleError "Polling error:" e;
                                   Delay 2000];
              user := user m |}.
Proof.
  intros Hatt Hfail.
  rewrite (pollLoop_retries fuel attempts m e Hatt);
    rewrite (tryBlock_statusFails m e Hfail); [|reflexivity].
  cbn [snd delay emit statusCalls resultCalls trace user].
  rewrite <- !app_assoc. reflexivity.
Qed.

(** A network failure after three counted attempts leaves the function at
    once. *)
Lemma pollLoop_network_failure_late (fuel attempts : nat) (m : Machine U) (e : JsError) :
  3 <= attempts < maxAttempts ->
  statusFails backend (statusCalls m) e ->
  pollLoop backend (S fuel) jobId onProgress attempts m =
  Some (inl e,
        {| statusCalls := S (statusCalls m);
           resultCalls := resultCalls m;
           trace := trace m ++ [GetStatus jobId; ConsoleError "Polling error:" e];
           user := user m |}).
Proof.
  intros Hatt Hfail.
  rewrite (pollLoop_rethrows fuel attempts m e Hatt);
    rewrite (tryBlock_statusFails m e Hfail); [|reflexivity].
  cbn [snd emit statusCalls resultCalls trace user].
  rewrite <- !app_assoc. reflexivity.
Qed.

End PollerFacts.

(** ** Inline poll loops of the image and document skills *)

Lemma scripted_nil_status {St Res : Type} (d : Fetch St) (results : nat -> Fetch Res) (n : nat) :
  statusEndpoint (scripted [] d results) n = d.
Proof.
  destruct n; reflexivity.
Qed.

Lemma ImageAnalysis_pollLoop_processing {Res : Type} (n : nat) (job_id : string)
      (m : Machine (ImageAnalysis.View Res)) :
  exists m',
    ImageAnalysis.pollLoop (Scenario.alwaysProcessing Res) n job_id m = Polling m' /\
    statusCalls m' = statusCalls m + n.
Proof.
  revert m. induction n as [|n IH]; intros m.
  - exists m. split; [reflexivity|lia].
  - cbn [ImageAnalysis.pollLoop].
    unfold ImageAnalysis.pollBody, bind, fetchStatus, Scenario.alwaysProcessing.
    rewrite scripted_nil_status. cbn.
    match goal with
    | |- context [ImageAnalysis.pollLoop _ n job_id ?m1] =>
        destruct (IH m1) as (m' & Hrun & Hs)
    end.
    exists m'. split; [exact Hrun|]. cbn in Hs. lia.
Qed.

Lemma DocumentSummarization_pollLoop_processing {Res : Type} (n : nat) (jobId : string)
      (m : Machine (DocumentSummarization.View Res)) :
  exists m',
    DocumentSummarization.pollLoop (Scenario.alwaysProcessing Res) n jobId m = Polling m' /\
    statusCalls m' = statusCalls m + n.
Proof.
  revert m. induction n as [|n IH]; intros m.
  - exists m. split; [reflexivity|lia].
  - cbn [DocumentSummarization.pollLoop].
    unfold DocumentSummarization.pollBody, bind, fetchStatus, Scenario.alwaysProcessing.
    rewrite scripted_nil_status. cbn.
    match goal with
    | |- context [DocumentSummarization.pollLoop _ n jobId ?m1] =>
        destruct (IH m1) as (m' & Hrun & Hs)
    end.
    exists m'. split; [exact Hrun|]. cbn in Hs. lia.
Qed.

(** ** Claims about the pollers *)

(** C1.  On the status sequence [failed "bad audio", completed] the poller
    does not fail: the processing error thrown inside the [try] block is
    caught by the loop's own [catch], logged, and, fewer than three attempts
    having been counted, dropped; the second poll then returns the result. *)
Theorem failed_status_is_retried :
  TranscriptService.pollForResults Scenario.failedThenCompleted "job-1" None tt =
  Some (inr "hello world",
        {| statusCalls := 2;
           resultCalls := 0;
           trace := [ GetStatus "job-1";
                      ConsoleError "Polling error:" (Error "Processing failed: bad audio");
                      Delay 2000;
                      GetStatus "job-1" ];
           user := tt |}).
Proof.
  vm_compute. reflexivity.
Qed.

(** When the job is reported failed on every poll, the error does leave the
    function, on the fourth status request and after three two-second
    delays. *)
Example always_failed_fails_on_fourth_poll :
  option_map (fun r => (fst r, statusCalls (snd r)))
    (TranscriptService.pollForResults Scenario.alwaysFailed "job-1" None tt) =
  Some (inl (Error "Processing failed: bad audio"), 4).
Proof.
  vm_compute. reflexivity.
Qed.

(** C2.  After three successful polls a network failure on the fourth status
    request leaves [pollForResults] at once: no two-second delay, no further
    request, although the job would have completed on the next poll. *)
Theorem late_network_failure_not_retried :
  TranscriptService.pollForResults Scenario.lateNetworkFailure "job-1" None tt =
  Some (inl (Error "Failed to fetch"),
        {| statusCalls := 4;
           resultCalls := 0;
           trace := [ GetStatus "job-1"; Delay 5000;
                      GetStatus "job-1"; Delay 5000;
                      GetStatus "job-1"; Delay 5000;
                      GetStatus "job-1";
                      ConsoleError "Polling error:" (Error "Failed to fetch") ];
           user := tt |}).
Proof.
  vm_compute. reflexivity.
Qed.

(** C3.  When each of the first 120 status requests is answered with status
    "processing", [pollForResults] issues exactly 120 status requests (its
    trace holds 120 of them), no result request, and fails with the timeout
    error. *)
Theorem timeout_after_120_processing :
  forall (R U : Type) (backend : Backend (TranscriptService.ProcessingStatus R) R)
         (jobId : string) (onProgress : option (Z -> string -> U -> U)) (u : U),
    (forall i, i < 120 ->
               exists st, reports backend i st /\
                          TranscriptService.status st = "processing") ->
    exists m,
      TranscriptService.pollForResults backend jobId onProgress u =
        Some (inl TranscriptService.timeoutError, m) /\
      statusCalls m = 120 /\
      statusRequests (trace m) = 120 /\
      resultCalls m = 0.
Proof.
  intros R U backend jobId onProgress u Hall.
  unfold TranscriptService.pollForResults.
  destruct (pollLoop_exhausts backend jobId onProgress
              TranscriptService.maxAttempts (S TranscriptService.maxAttempts) 0 (start u))
    as (m & Hrun & Hs & Hr).
  - reflexivity.
  - lia.
  - intros i Hi. apply Hall. cbn [start statusCalls] in Hi.
    unfold TranscriptService.maxAttempts in Hi. lia.
  - exists m. split; [exact Hrun|]. split; [exact Hs|]. split; [|exact Hr].
    transitivity (statusCalls m); [|exact Hs].
    exact (pollLoop_coherent backend jobId onProgress _ _ (start u) _ m eq_refl Hrun).
Qed.

(** C4.  The poll loops of [processImage] and [processDocument] have no
    attempt bound: on a job that stays in progress they are still polling
    after any number [n] of passes, having issued [n] status requests. *)
Theorem inline_poll_loops_unbounded :
  forall (Res : Type) (n : nat) (jobId : string)
         (image : ImageAnalysis.View Res) (document : DocumentSummarization.View Res),
    (exists m, ImageAnalysis.pollLoop (Scenario.alwaysProcessing Res) n jobId (start image)
               = Polling m /\ statusCalls m = n) /\
    (exists m, DocumentSummarization.pollLoop (Scenario.alwaysProcessing Res) n jobId (start document)
               = Polling m /\ statusCalls m = n).
Proof.
  intros Res n jobId image document. split.
  - destruct (ImageAnalysis_pollLoop_processing n jobId (start image)) as (m & Hrun & Hs).
    exists m. split; [exact Hrun | exact Hs].
  - destruct (DocumentSummarization_pollLoop_processing n jobId (start document))
      as (m & Hrun & Hs).
    exists m. split; [exact Hrun | exact Hs].
Qed.

(** C5.  On the status sequence [pending, pending, completed], with a
    progress callback supplied and the result available (inline on the
    completed response, or from the result endpoint), [pollForResults]
    calls the callback once for each pending response with that response's
    progress and message, then once more for the completed response, and
    returns the result after exactly three status requests. *)
Theorem pending_pending_completed :
  forall (R U : Type) (backend : Backend (TranscriptService.ProcessingStatus R) R)
         (jobId : string) (f : Z -> string -> U -> U) (u : U)
         (s1 s2 s3 : TranscriptService.ProcessingStatus R) (res : R),
    reports backend 0 s1 -> TranscriptService.status s1 = "pending" ->
    reports backend 1 s2 -> TranscriptService.status s2 = "pending" ->
    reports backend 2 s3 -> TranscriptService.status s3 = "completed" ->
    (TranscriptService.result s3 = Some res \/
     (TranscriptService.result s3 = None /\ delivers backend 0 res)) ->
    exists m,
      TranscriptService.pollForResults backend jobId (Some f) u = Some (inr res, m) /\
      statusCalls m = 3 /\
      trace m =
        ([ GetStatus jobId;
          OnProgress (TranscriptService.progress s1) (TranscriptService.status_message s1);
          Delay 5000;
          GetStatus jobId;
          OnProgress (TranscriptService.progress s2) (TranscriptService.status_message s2);
          Delay 5000;
          GetStatus jobId;
          OnProgress (TranscriptService.progress s3) (TranscriptService.status_message s3) ]
        ++ match TranscriptService.result s3 with
           | Some _ => []
           | None => [GetResult jobId]
           end)%list /\
      user m =
        f (TranscriptService.progress s3) (TranscriptService.status_message s3)
          (f (TranscriptService.progress s2) (TranscriptService.status_message s2)
             (f (TranscriptService.progress s1) (TranscriptService.status_message s1) u)).
Proof.
  intros R U backend jobId f u s1 s2 s3 res H1 P1 H2 P2 H3 P3 Hres.
  unfold TranscriptService.pollForResults.
  change TranscriptService.maxAttempts with 120.
  rewrite (pollLoop_in_progress backend jobId (Some f) _ 0 (start u) s1);
    [| unfold TranscriptService.maxAttempts; lia | exact H1
     | rewrite P1; reflexivity | rewrite P1; reflexivity].
  rewrite (pollLoop_in_progress backend jobId (Some f) _ 1 _ s2);
    [| unfold TranscriptService.maxAttempts; lia | exact H2
     | rewrite P2; reflexivity | rewrite P2; reflexivity].
  destruct Hres as [Hin | [Hnone Hdel]].
  - rewrite (pollLoop_completed_inline backend jobId (Some f) _ 2 _ s3 res);
      [| unfold TranscriptService.maxAttempts; lia | exact H3 | exact P3 | exact Hin].
    eexists. split; [reflexivity|]. rewrite Hin.
    repeat split; reflexivity.
  - rewrite (pollLoop_completed_fetched backend jobId (Some f) _ 2 _ s3 res);
      [| unfold TranscriptService.maxAttempts; lia | exact H3 | exact P3 | exact Hnone
       | exact Hdel].
    eexists. split; [reflexivity|]. rewrite Hnone.
    repeat split; reflexivity.
Qed.

Lemma timeout_after_120_processing_witness :
  (forall i, i < 120 ->
             exists st, reports Scenario.stillProcessing i st /\
                        TranscriptService.status st = "processing") /\
  exists m,
    TranscriptService.pollForResults Scenario.stillProcessing "job-1"
      (Some Scenario.logProgress) [] =
      Some (inl TranscriptService.timeoutError, m) /\
    statusCalls m = 120 /\
    statusRequests (trace m) = 120 /\
    resultCalls m = 0.
Proof.
  assert (H : forall i, i < 120 ->
                        exists st, reports Scenario.stillProcessing i st /\
                                   TranscriptService.status st = "processing").
  { intros i _. eexists.
    split; [eexists; split; [apply scripted_nil_status | split; reflexivity]
           | reflexivity]. }
  split; [exact H|].
  exact (timeout_after_120_processing string (list (Z * string))
           Scenario.stillProcessing "job-1" (Some Scenario.logProgress) [] H).
Defined.

Lemma pending_pending_completed_witness :
  exists m,
    TranscriptService.pollForResults Scenario.pendingPendingCompleted "job-1"
      (Some Scenario.logProgress) [] = Some (inr "hello world", m) /\
    statusCalls m = 3 /\
    trace m =
      [ GetStatus "job-1"; OnProgress 10 "queued"; Delay 5000;
        GetStatus "job-1"; OnProgress 50 "transcribing"; Delay 5000;
        GetStatus "job-1"; OnProgress 100 "done" ] /\
    user m = [ (100%Z, "done"); (50%Z, "transcribing"); (10%Z, "queued") ].
Proof.
  refine (pending_pending_completed string (list (Z * string))
            Scenario.pendingPendingCompleted "job-1" Scenario.logProgress []
            {| TranscriptService.job_id := "job-1"; TranscriptService.status := "pending";
               TranscriptService.progress := 10; TranscriptService.status_message := "queued";
               TranscriptService.result := None |}
            {| TranscriptService.job_id := "job-1"; TranscriptService.status := "pending";
               TranscriptService.progress := 50;
               TranscriptService.status_message := "transcribing";
               TranscriptService.result := None |}
            {| TranscriptService.job_id := "job-1"; TranscriptService.status := "completed";
               TranscriptService.progress := 100; TranscriptService.status_message := "done";
               TranscriptService.result := Some "hello world" |}
            "hello world" _ _ _ _ _ _ _);
    try reflexivity;
    try (eexists; split; [reflexivity|split; reflexivity]).
  left. reflexivity.
Defined.

(** ** Upload validation *)


Section StringFacts.

Lemma append_assoc (a b c : string) :
  (a ++ b) ++ c = a ++ (b ++ c).
Proof.
  induction a as [|x a IH]; cbn; [reflexivity|].
  rewrite IH. reflexivity.
Qed.

Lemma toLowerCase_app (a b : string) :
  toLowerCase (a ++ b) = toLowerCase a ++ toLowerCase b.
Proof.
  induction a as [|c a IH]; cbn; [reflexivity|].
  rewrite IH. reflexivity.
Qed.

Lemma toLowerCase_split (a b s : string) :
  toLowerCase s = a ++ b ->
  exists a' b', s = a' ++ b' /\ toLowerCase a' = a /\ toLowerCase b' = b.
Proof.
  revert s. induction a as [|c a IH]; intros s H.
  - exists "", s. repeat split. exact H.
  - destruct s as [|d s]; cbn in H; [discriminate|].
    injection H as Hc Hs.
    destruct (IH s Hs) as (a' & b' & -> & Ha & Hb).
    exists (String d a'), b'. cbn. rewrite Hc, Ha. repeat split. exact Hb.
Qed.

Lemma lowerChar_dot (c : ascii) :
  lowerChar c = "."%char -> c = "."%char.
Proof.
  destruct c as [[] [] [] [] [] [] [] []]; vm_compute; intros H;
    first [reflexivity | discriminate H].
Qed.

Lemma equals_i_spec (a s : string) :
  equals_i a s = true <-> toLowerCase a = toLowerCase s.
Proof.
  revert s. induction a as [|c a IH]; intros [|d s]; cbn;
    try (split; [discriminate | discriminate]).
  - split; reflexivity.
  - unfold eqChar_i. rewrite andb_true_iff, Ascii.eqb_eq, IH.
    split.
    + intros [-> ->]. reflexivity.
    + intros H. injection H as -> ->. split; reflexivity.
Qed.

Lemma app_dot_not_empty (stem ext : string) :
  stem ++ "." ++ ext <> "".
Proof.
  destruct stem; discriminate.
Qed.

Lemma testExtension_i_spec (alts : list string) (s : string) :
  testExtension_i alts s = true <->
  exists stem ext a,
    s = stem ++ "." ++ ext /\ In a alts /\ toLowerCase a = toLowerCase ext.
Proof.
  induction s as [|c s IH]; cbn [testExtension_i].
  - split; [discriminate|].
    intros (stem & ext & a & H & _). symmetry in H.
    exfalso. exact (app_dot_not_empty _ _ H).
  - rewrite orb_true_iff, andb_true_iff, Ascii.eqb_eq, existsb_exists, IH.
    split.
    + intros [[-> (a & Hin & Heq)] | (stem & ext & a & -> & Hin & Heq)].
      * exists "", s, a. apply equals_i_spec in Heq. repeat split; assumption.
      * exists (String c stem), ext, a. repeat split; assumption.
    + intros (stem & ext & a & H & Hin & Heq).
      destruct stem as [|d stem]; cbn in H; injection H as -> ->.
      * left. split; [reflexivity|]. exists a. split; [exact Hin|].
        apply equals_i_spec. exact Heq.
      * right. exists stem, ext, a. repeat split; assumption.
Qed.

(** For alternatives written in lower case, the regular expression tests
    exactly whether the name has one of them as its extension. *)
Lemma testExtension_i_hasExtensionIn (alts : list string) (s : string) :
  Forall (fun a => toLowerCase a = a) alts ->
  testExtension_i alts s = true <-> hasExtensionIn alts s.
Proof.
  intros Hlow. rewrite testExtension_i_spec. unfold hasExtensionIn.
  rewrite Forall_forall in Hlow.
  split.
  - intros (stem & ext & a & -> & Hin & Heq).
    exists stem, ext. split; [reflexivity|].
    rewrite <- Heq, (Hlow a Hin). exact Hin.
  - intros (stem & ext & -> & Hin).
    exists stem, ext, (toLowerCase ext). repeat split; [exact Hin|].
    exact (Hlow _ Hin).
Qed.

Lemma endsWith_spec (p s : string) :
  endsWith p s = true <-> exists stem, s = stem ++ p.
Proof.
  induction s as [|c s IH]; cbn [endsWith].
  - rewrite orb_false_r, String.eqb_eq. split.
    + intros <-. exists "". reflexivity.
    + intros ([|d stem] & H); cbn in H; [exact H | discriminate].
  - rewrite orb_true_iff, String.eqb_eq, IH. split.
    + intros [<- | (stem & ->)].
      * exists "". reflexivity.
      * exists (String c stem). reflexivity.
    + intros ([|d stem] & H); cbn in H.
      * left. exact H.
      * injection H as -> ->. right. exists stem. reflexivity.
Qed.

(** [name.toLowerCase().endsWith('.' + e)] for a lower-case [e]. *)
Lemma endsWith_lower_extension (e name : string) :
  endsWith ("." ++ e) (toLowerCase name) = true <->
  exists stem ext, name = stem ++ "." ++ ext /\ toLowerCase ext = e.
Proof.
  rewrite endsWith_spec. split.
  - intros (stem0 & H).
    destruct (toLowerCase_split _ _ _ H) as (stem & tail & -> & _ & Htail).
    destruct tail as [|c ext]; cbn in Htail; [discriminate|].
    injection Htail as Hc He. apply lowerChar_dot in Hc. subst c.
    exists stem, ext. split; [reflexivity | exact He].
  - intros (stem & ext & -> & <-).
    exists (toLowerCase stem). rewrite toLowerCase_app. reflexivity.
Qed.

End StringFacts.

Section UploadFacts.

Lemma includes_spec (xs : list string) (x : string) :
  includes xs x = true <-> In x xs.
Proof.
  unfold includes. rewrite existsb_exists. split.
  - intros (y & Hin & Heq). apply String.eqb_eq in Heq. subst y. exact Hin.
  - intros Hin. exists x. split; [exact Hin | apply String.eqb_refl].
Qed.

(** The two early returns of [validateFile], read as one condition. *)
Lemma validate_shape (typeOk extOk tooBig : bool) (e1 e2 : option string) :
  fst (if negb typeOk && negb extOk then (false, e1)
       else if tooBig then (false, e2) else (true, None)) = true <->
  (typeOk = true \/ extOk = true) /\ tooBig = false.
Proof.
  destruct typeOk, extOk, tooBig; cbn; intuition congruence.
Qed.

Lemma document_extension_spec (name : string) :
  endsWith ".pdf" (toLowerCase name) || endsWith ".doc" (toLowerCase name)
  || endsWith ".docx" (toLowerCase name) || endsWith ".txt" (toLowerCase name) = true <->
  hasExtensionIn ["pdf"; "doc"; "docx"; "txt"] name.
Proof.
  change ".pdf" with ("." ++ "pdf"). change ".doc" with ("." ++ "doc").
  change ".docx" with ("." ++ "docx"). change ".txt" with ("." ++ "txt").
  rewrite !orb_true_iff, !endsWith_lower_extension. unfold hasExtensionIn.
  split.
  - intros [[[H|H]|H]|H]; destruct H as (stem & ext & -> & He);
      exists stem, ext; (split; [reflexivity|]); rewrite He; cbn; tauto.
  - intros (stem & ext & -> & Hin). cbn in Hin.
    destruct Hin as [H|[H|[H|[H|[]]]]]; symmetry in H.
    + left. left. left. exists stem, ext. split; [reflexivity | exact H].
    + left. left. right. exists stem, ext. split; [reflexivity | exact H].
    + left. right. exists stem, ext. split; [reflexivity | exact H].
    + right. exists stem, ext. split; [reflexivity | exact H].
Qed.

Lemma audio_accepts (f : File) :
  fst (AudioUpload.validateFile f) = true <->
  (In (type f) AudioUpload.validTypes \/ hasExtensionIn AudioUpload.extensions (name f)) /\
  (size f <= AudioUpload.maxSize)%N.
Proof.
  unfold AudioUpload.validateFile.
  rewrite validate_shape, includes_spec, N.ltb_ge.
  rewrite testExtension_i_hasExtensionIn; [reflexivity|].
  repeat constructor.
Qed.

Lemma image_accepts (f : File) :
  fst (ImageUpload.validateFile f) = true <->
  (In (type f) ImageUpload.validTypes \/ hasExtensionIn ImageUpload.extensions (name f)) /\
  (size f <= ImageUpload.maxSize)%N.
Proof.
  unfold ImageUpload.validateFile.
  rewrite validate_shape, includes_spec, N.ltb_ge.
  rewrite testExtension_i_hasExtensionIn; [reflexivity|].
  repeat constructor.
Qed.

Lemma document_accepts (f : File) :
  fst (DocumentUpload.validateFile f) = true <->
  (In (type f) DocumentUpload.validTypes \/
   hasExtensionIn ["pdf"; "doc"; "docx"; "txt"] (name f)) /\
  (size f <= DocumentUpload.maxSize)%N.
Proof.
  unfold DocumentUpload.validateFile. cbv zeta.
  rewrite validate_shape, includes_spec, N.ltb_ge, document_extension_spec.
  reflexivity.
Qed.

End UploadFacts.

(** C6, as amended.  Each uploader accepts a file exactly when its media
    type is one of the component's [validTypes] or its name ends, whatever
    the letter case, in a dot and one of the component's extensions, and
    its size is at most 50MB.  The lists in the code are the documented
    ones plus the media type audio/mpeg for audio and the spelling jpg
    (media type image/jpg) for images.  A file over 50MB is never handed to
    [onFileSelect], which is the only way a file reaches the code that
    uploads it. *)
Theorem uploaders_accept_exactly :
  forall f : File,
    (fst (AudioUpload.validateFile f) = true <->
     (In (type f) ["audio/mp3"; "audio/wav"; "audio/m4a"; "audio/mpeg"; "audio/ogg"] \/
      hasExtensionIn ["mp3"; "wav"; "m4a"; "ogg"] (name f)) /\
     (size f <= 50 * 1024 * 1024)%N) /\
    (fst (ImageUpload.validateFile f) = true <->
     (In (type f) ["image/jpeg"; "image/jpg"; "image/png"; "image/gif"; "image/bmp"] \/
      hasExtensionIn ["jpg"; "jpeg"; "png"; "gif"; "bmp"] (name f)) /\
     (size f <= 50 * 1024 * 1024)%N) /\
    (fst (DocumentUpload.validateFile f) = true <->
     (In (type f)
         ["application/pdf"; "application/msword";
          "application/vnd.openxmlformats-officedocument.wordprocessingml.document";
          "text/plain"] \/
      hasExtensionIn ["pdf"; "doc"; "docx"; "txt"] (name f)) /\
     (size f <= 50 * 1024 * 1024)%N) /\
    ((50 * 1024 * 1024 < size f)%N ->
     forall u : Uploader,
       selected (AudioUpload.handleFile f u) = selected u /\
       selected (ImageUpload.handleFile f u) = selected u /\
       selected (DocumentUpload.handleFile f u) = selected u).
Proof.
  intros f.
  split; [exact (audio_accepts f)|].
  split; [exact (image_accepts f)|].
  split; [exact (document_accepts f)|].
  intros Hbig u.
  assert (Ha : fst (AudioUpload.validateFile f) = false).
  { destruct (fst (AudioUpload.validateFile f)) eqn:E; [|reflexivity].
    apply audio_accepts in E. unfold AudioUpload.maxSize in E. lia. }
  assert (Hi : fst (ImageUpload.validateFile f) = false).
  { destruct (fst (ImageUpload.validateFile f)) eqn:E; [|reflexivity].
    apply image_accepts in E. unfold ImageUpload.maxSize in E. lia. }
  assert (Hd : fst (DocumentUpload.validateFile f) = false).
  { destruct (fst (DocumentUpload.validateFile f)) eqn:E; [|reflexivity].
    apply document_accepts in E. unfold DocumentUpload.maxSize in E. lia. }
  unfold AudioUpload.handleFile, ImageUpload.handleFile, DocumentUpload.handleFile.
  destruct (AudioUpload.validateFile f) as [va ea].
  destruct (ImageUpload.validateFile f) as [vi ei].
  destruct (DocumentUpload.validateFile f) as [vd ed].
  cbn [fst] in Ha, Hi, Hd. subst va vi vd. cbn [selected].
  repeat split.
Qed.

Lemma uploaders_accept_exactly_witness :
  fst (AudioUpload.validateFile {| name := "interview.MP3"; type := ""; size := 1024 |}) = true
  /\ selected (ImageUpload.handleFile
                {| name := "scan.png"; type := "image/png"; size := 52428801 |}
                {| error := None; selected := [] |}) = [].
Proof.
  pose proof (uploaders_accept_exactly
                {| name := "interview.MP3"; type := ""; size := 1024 |}) as (Haudio & _).
  pose proof (uploaders_accept_exactly
                {| name := "scan.png"; type := "image/png"; size := 52428801 |})
    as (_ & _ & _ & Hbig).
  split.
  - apply Haudio. split; [|vm_compute; discriminate].
    right. exists "interview", "MP3". split; [reflexivity|].
    vm_compute. left. reflexivity.
  - apply Hbig. reflexivity.
Defined.

(** C6, as stated, fails: the image uploader accepts a file named
    photo.jpg that carries no media type, and neither a media type nor the
    extension jpg is among jpeg, png, gif, bmp. *)
Lemma jpg_is_accepted_off_list :
  ~ (forall f : File,
       (fst (AudioUpload.validateFile f) = true <-> Documented.accepts Documented.audio f) /\
       (fst (ImageUpload.validateFile f) = true <-> Documented.accepts Documented.images f) /\
       (fst (DocumentUpload.validateFile f) = true <->
        Documented.accepts Documented.documents f)).
Proof.
  intros H.
  destruct (H {| name := "photo.jpg"; type := ""; size := 1 |}) as (_ & [Himg _] & _).
  destruct (Himg eq_refl) as [[Htype | Hext] _].
  - destruct Htype as (family & format & Hmime & _). cbn in Hmime.
    destruct family; discriminate.
  - apply (testExtension_i_hasExtensionIn Documented.images) in Hext;
      [discriminate | repeat constructor].
Qed.

(** ** Diarization *)


Section DiarizationFacts.

Import DiarizationService.

Lemma stripPrefix_spec (p s r : string) :
  stripPrefix p s = Some r -> s = p ++ r.
Proof.
  revert s. induction p as [|a p IH]; intros [|b s] H; cbn in H.
  - injection H as <-. reflexivity.
  - injection H as <-. reflexivity.
  - discriminate.
  - destruct (Ascii.eqb a b) eqn:E; [|discriminate].
    apply Ascii.eqb_eq in E. subst b. cbn. f_equal. apply IH. exact H.
Qed.

Lemma stripPrefix_app (p r : string) :
  stripPrefix p (p ++ r) = Some r.
Proof.
  induction p as [|a p IH]; cbn.
  - destruct r; reflexivity.
  - rewrite Ascii.eqb_refl. exact IH.
Qed.

Lemma spanDigits_spec (s ds rest : string) :
  spanDigits s = (ds, rest) -> s = ds ++ rest /\ allDigits ds = true.
Proof.
  revert ds rest. induction s as [|c s IH]; intros ds rest H; cbn in H.
  - injection H as <- <-. split; reflexivity.
  - destruct (isDigit c) eqn:Ec.
    + destruct (spanDigits s) as [ds' rest'].
      injection H as <- <-.
      destruct (IH ds' rest' eq_refl) as [-> Hd].
      split; [reflexivity|]. cbn. rewrite Ec. exact Hd.
    + injection H as <- <-. split; reflexivity.
Qed.

Lemma spanDigits_app (ds rest : string) (c : ascii) :
  allDigits ds = true -> isDigit c = false ->
  spanDigits (ds ++ String c rest) = (ds, String c rest).
Proof.
  intros Hd Hc. induction ds as [|d ds IH]; cbn.
  - rewrite Hc. reflexivity.
  - cbn in Hd. apply andb_true_iff in Hd as [Hd1 Hd2].
    rewrite Hd1, (IH Hd2). reflexivity.
Qed.

(** What a successful match of the speaker-label expression says about the
    text. *)
Lemma speakerMatch_Some (text label g : string) :
  speakerMatch text = Some (label, g) ->
  exists ds rest,
    text = "Speaker " ++ ds ++ ":" ++ rest /\
    ds <> "" /\ allDigits ds = true /\
    label = "Speaker " ++ ds /\
    spacesThenDotPlus rest = Some g.
Proof.
  unfold speakerMatch. intros H.
  destruct (stripPrefix "Speaker " text) as [afterWord|] eqn:Hp; [|discriminate].
  apply stripPrefix_spec in Hp.
  destruct (spanDigits afterWord) as [ds rest1] eqn:Hd.
  apply spanDigits_spec in Hd as [-> Hdig].
  destruct ds as [|d ds]; [discriminate|].
  destruct rest1 as [|c afterColon]; [discriminate|].
  destruct (Ascii.eqb c ":") eqn:Ec; [|discriminate].
  apply Ascii.eqb_eq in Ec. subst c.
  destruct (spacesThenDotPlus afterColon) as [g'|] eqn:Hs; [|discriminate].
  injection H as <- <-.
  exists (String d ds), afterColon.
  repeat split; [exact Hp | discriminate | exact Hdig | exact Hs].
Qed.

Lemma dotRun_singleLine (s : string) :
  singleLine s = true -> dotRun s = s.
Proof.
  induction s as [|c s IH]; cbn; [reflexivity|].
  intros H. apply andb_true_iff in H as [Hc Hs].
  apply negb_true_iff in Hc. rewrite Hc, (IH Hs). reflexivity.
Qed.

Lemma spacesThenDotPlus_skips (ws : string) (c : ascii) (rest : string) :
  allWhiteSpace ws = true ->
  isWhiteSpace c = false ->
  spacesThenDotPlus (ws ++ String c rest) = dotPlus (String c rest).
Proof.
  intros Hws Hc. induction ws as [|w ws IH]; cbn [append spacesThenDotPlus].
  - rewrite Hc. reflexivity.
  - cbn in Hws. apply andb_true_iff in Hws as [Hw Hws].
    rewrite Hw, (IH Hws).
    assert (Hlt : isLineTerminator c = false).
    { destruct (isLineTerminator c) eqn:E; [|reflexivity].
      unfold isLineTerminator, isWhiteSpace in *.
      apply orb_true_iff in E as [E|E]; apply Nat.eqb_eq in E; rewrite E in Hc;
        discriminate. }
    unfold dotPlus. cbn [dotRun]. rewrite Hlt. reflexivity.
Qed.

(** A labelled segment whose text lies on the label's line: the label is
    returned verbatim and the text is what follows the colon and the white
    space after it. *)
Lemma determineSpeaker_labelled_single_line
      (ds ws : string) (c : ascii) (rest : string) (index : nat) :
  ds <> "" -> allDigits ds = true ->
  allWhiteSpace ws = true ->
  isWhiteSpace c = false ->
  singleLine rest = true ->
  determineSpeaker ("Speaker " ++ ds ++ ":" ++ ws ++ String c rest) index =
  {| info_speaker := "Speaker " ++ ds; cleanedText := String c rest |}.
Proof.
  intros Hne Hd Hws Hc Hline.
  unfold determineSpeaker, speakerMatch.
  rewrite stripPrefix_app.
  change (":" ++ ws ++ String c rest) with (String ":" (ws ++ String c rest)).
  rewrite (spanDigits_app ds _ ":" Hd eq_refl).
  destruct ds as [|d ds]; [contradiction|].
  rewrite Ascii.eqb_refl, (spacesThenDotPlus_skips ws c rest Hws Hc).
  assert (Hlt : isLineTerminator c = false).
  { destruct (isLineTerminator c) eqn:E; [|reflexivity].
    unfold isLineTerminator, isWhiteSpace in *.
    apply orb_true_iff in E as [E|E]; apply Nat.eqb_eq in E; rewrite E in Hc;
      discriminate. }
  unfold dotPlus. cbn [dotRun]. rewrite Hlt, (dotRun_singleLine rest Hline).
  reflexivity.
Qed.

Lemma mapIndexed_nth_error {A B : Type} (f : A -> nat -> B) (start : nat)
      (xs : list A) (i : nat) :
  nth_error (mapIndexed f start xs) i =
  option_map (fun x => f x (start + i)) (nth_error xs i).
Proof.
  revert start i. induction xs as [|x xs IH]; intros start [|i]; cbn;
    try reflexivity.
  - rewrite Nat.add_0_r. reflexivity.
  - rewrite IH. rewrite Nat.add_succ_r. reflexivity.
Qed.

(** The [index] field of a segment is its position in the array. *)
Lemma parseTranscriptSegments_index (transcript : string) (i : nat) (seg : Segment) :
  nth_error (parseTranscriptSegments transcript) i = Some seg ->
  index seg = i.
Proof.
  unfold parseTranscriptSegments. rewrite mapIndexed_nth_error.
  destruct (nth_error _ i) as [line|]; cbn; [|discriminate].
  intros H. injection H as <-. reflexivity.
Qed.

Lemma parity_even (i : nat) :
  (i mod 2 =? 0)%nat = Nat.even i.
Proof.
  destruct (Nat.even i) eqn:E.
  - apply Nat.even_spec in E. destruct E as [k ->].
    apply Nat.eqb_eq. rewrite Nat.mul_comm. apply Nat.Div0.mod_mul.
  - apply Nat.eqb_neq. intros H.
    apply Nat.Div0.mod_divides in H. destruct H as [k ->].
    rewrite Nat.even_mul in E. discriminate.
Qed.

End DiarizationFacts.

Section LabelFacts.

Import DiarizationService.

Lemma dotRun_spec (s : string) :
  exists tail,
    s = dotRun s ++ tail /\
    singleLine (dotRun s) = true /\
    match tail with
    | EmptyString => True
    | String c _ => isLineTerminator c = true
    end.
Proof.
  induction s as [|c s (tail & Hs & Hline & Htail)]; cbn [dotRun].
  - exists "". repeat split.
  - destruct (isLineTerminator c) eqn:Hc.
    + exists (String c s). repeat split. exact Hc.
    + exists tail. cbn [append singleLine]. rewrite Hc, <- Hs. repeat split; assumption.
Qed.

Lemma spacesThenDotPlus_spec (s g : string) :
  spacesThenDotPlus s = Some g ->
  exists ws tail,
    s = ws ++ g ++ tail /\
    allWhiteSpace ws = true /\
    g <> "" /\ singleLine g = true /\
    match tail with
    | EmptyString => True
    | String c _ => isLineTerminator c = true
    end.
Proof.
  assert (Hdot : forall s g, dotPlus s = Some g ->
                             exists tail, s = g ++ tail /\ g <> "" /\ singleLine g = true /\
                                          match tail with
                                          | EmptyString => True
                                          | String c _ => isLineTerminator c = true
                                          end).
  { clear. intros s g H. unfold dotPlus in H.
    destruct (dotRun_spec s) as (tail & Hs & Hline & Htail).
    destruct (dotRun s) as [|c r] eqn:Hr; [discriminate|].
    injection H as <-. exists tail. repeat split; try assumption. discriminate. }
  revert g. induction s as [|c s IH]; intros g H; cbn [spacesThenDotPlus] in H;
    [discriminate|].
  destruct (isWhiteSpace c) eqn:Hc.
  - destruct (spacesThenDotPlus s) as [g'|] eqn:Hs.
    + injection H as <-.
      destruct (IH g' eq_refl) as (ws & tail & -> & Hws & Hrest).
      exists (String c ws), tail. cbn [append allWhiteSpace]. rewrite Hc, Hws.
      split; [reflexivity|]. split; [reflexivity | exact Hrest].
    + apply Hdot in H as (tail & Hs' & Hrest).
      exists "", tail. split; [exact Hs'|]. split; [reflexivity | exact Hrest].
  - apply Hdot in H as (tail & Hs' & Hrest).
    exists "", tail. split; [exact Hs'|]. split; [reflexivity | exact Hrest].
Qed.

(** White space and then a character that is not a line terminator: the
    rest of the label expression matches. *)
Lemma spacesThenDotPlus_matches (ws : string) (c : ascii) (rest : string) :
  allWhiteSpace ws = true ->
  isLineTerminator c = false ->
  exists g, spacesThenDotPlus (ws ++ String c rest) = Some g.
Proof.
  intros Hws Hc.
  assert (Hdot : exists g, dotPlus (String c rest) = Some g).
  { unfold dotPlus. cbn [dotRun]. rewrite Hc. eexists. reflexivity. }
  induction ws as [|w ws IH]; cbn [append spacesThenDotPlus].
  - destruct (isWhiteSpace c); [|exact Hdot].
    destruct (spacesThenDotPlus rest) as [g|]; [exists g; reflexivity | exact Hdot].
  - cbn [allWhiteSpace] in Hws. apply andb_true_iff in Hws as [Hw Hws].
    rewrite Hw. destruct (IH Hws) as [g ->]. exists g. reflexivity.
Qed.

(** The matcher finds every text that the label expression matches ... *)
Lemma labelledWith_speakerMatch (digits text : string) :
  labelledWith digits text ->
  exists kept, speakerMatch text = Some ("Speaker " ++ digits, kept).
Proof.
  intros (ws & c & rest & -> & Hne & Hd & Hws & Hc).
  unfold speakerMatch. rewrite stripPrefix_app.
  change (":" ++ ws ++ String c rest) with (String ":" (ws ++ String c rest)).
  rewrite (spanDigits_app digits _ ":" Hd eq_refl).
  destruct digits as [|d ds]; [contradiction|].
  rewrite Ascii.eqb_refl.
  destruct (spacesThenDotPlus_matches ws c rest Hws Hc) as [g ->].
  exists g. reflexivity.
Qed.

(** ... and nothing else. *)
Lemma speakerMatch_labelledWith (text label kept : string) :
  speakerMatch text = Some (label, kept) ->
  exists digits, label = "Speaker " ++ digits /\ labelledWith digits text.
Proof.
  intros Hm.
  apply speakerMatch_Some in Hm as (ds & rest & -> & Hne & Hd & -> & Hrest).
  apply spacesThenDotPlus_spec in Hrest as (ws & tail & -> & Hws & Hk & Hline & _).
  destruct kept as [|c kept]; [contradiction|].
  cbn [singleLine] in Hline. apply andb_true_iff in Hline as [Hc _].
  apply negb_true_iff in Hc.
  exists ds. split; [reflexivity|].
  exists ws, c, (kept ++ tail). repeat split; assumption.
Qed.

End LabelFacts.

(** C7.  A labelled segment that runs over more than one line loses
    everything after its first line, because [.] stops at a line
    terminator; and a segment that consists of the label alone is not
    recognised as labelled at all, because [(.+)] needs a character: at an
    odd position it is given to "Speaker 2" with the label left in the
    text. *)
Theorem labelled_segment_text_lost :
  forall (baseTime : Z) (toLocaleTimeString : Z -> string),
    DiarizationService.diarizeTranscript baseTime toLocaleTimeString
      ("Speaker 1: Hello" ++ String DiarizationService.newline "world") =
    [ {| DiarizationService.speaker := "Speaker 1";
         DiarizationService.text := "Hello";
         DiarizationService.timestamp :=
           DiarizationService.generateTimestamp baseTime toLocaleTimeString 0 |} ]
    /\
    DiarizationService.diarizeTranscript baseTime toLocaleTimeString
      ("Speaker 2: Hi"
         ++ String DiarizationService.newline (String DiarizationService.newline "Speaker 1:")) =
    [ {| DiarizationService.speaker := "Speaker 2";
         DiarizationService.text := "Hi";
         DiarizationService.timestamp :=
           DiarizationService.generateTimestamp baseTime toLocaleTimeString 0 |};
      {| DiarizationService.speaker := "Speaker 2";
         DiarizationService.text := "Speaker 1:";
         DiarizationService.timestamp :=
           DiarizationService.generateTimestamp baseTime toLocaleTimeString 1 |} ].
Proof.
  intros baseTime toLocaleTimeString. split; reflexivity.
Qed.

(** C8.  A segment without an explicit speaker label that matches none of
    the service-agent patterns and none of the customer patterns is
    attributed by the parity of its position: "Speaker 1" at even
    positions, "Speaker 2" at odd ones; its text is kept as it is. *)
Theorem unlabelled_segments_follow_parity :
  forall (baseTime : Z) (toLocaleTimeString : Z -> string)
         (transcript : string) (i : nat) (seg : DiarizationService.Segment),
    nth_error (DiarizationService.parseTranscriptSegments transcript) i = Some seg ->
    DiarizationService.speakerMatch (DiarizationService.seg_text seg) = None ->
    (forall p, In p DiarizationService.customerServicePatterns ->
               test_i p (DiarizationService.seg_text seg) = false) ->
    (forall p, In p DiarizationService.customerPatterns ->
               test_i p (DiarizationService.seg_text seg) = false) ->
    exists out,
      nth_error (DiarizationService.diarizeTranscript baseTime toLocaleTimeString transcript) i
        = Some out /\
      DiarizationService.speaker out = (if Nat.even i then "Speaker 1" else "Speaker 2") /\
      DiarizationService.text out = DiarizationService.seg_text seg.
Proof.
  intros baseTime fmt transcript i seg Hseg Hlabel Hcs Hc.
  unfold DiarizationService.diarizeTranscript, DiarizationService.identifySpeakers.
  rewrite nth_error_map, Hseg. cbn [option_map].
  eexists. split; [reflexivity|].
  cbn [DiarizationService.speaker DiarizationService.text].
  unfold DiarizationService.determineSpeaker. rewrite Hlabel.
  assert (E1 : existsb (fun pattern => test_i pattern (DiarizationService.seg_text seg))
                       DiarizationService.customerServicePatterns = false).
  { apply not_true_is_false. intros H. apply existsb_exists in H as (p & Hin & Hp).
    rewrite (Hcs p Hin) in Hp. discriminate. }
  assert (E2 : existsb (fun pattern => test_i pattern (DiarizationService.seg_text seg))
                       DiarizationService.customerPatterns = false).
  { apply not_true_is_false. intros H. apply existsb_exists in H as (p & Hin & Hp).
    rewrite (Hc p Hin) in Hp. discriminate. }
  rewrite E1, E2.
  cbn [DiarizationService.info_speaker DiarizationService.cleanedText].
  rewrite (parseTranscriptSegments_index transcript i seg Hseg), parity_even.
  split; reflexivity.
Qed.

Lemma unlabelled_segments_follow_parity_witness :
  exists out,
    nth_error (DiarizationService.diarizeTranscript 0 (fun _ => "10:00:00")
                 ("Good morning"
                    ++ String DiarizationService.newline
                         (String DiarizationService.newline "Good morning to you"))) 1
      = Some out /\
    DiarizationService.speaker out = "Speaker 2" /\
    DiarizationService.text out = "Good morning to you".
Proof.
  refine (unlabelled_segments_follow_parity 0 (fun _ => "10:00:00")
            ("Good morning"
               ++ String DiarizationService.newline
                    (String DiarizationService.newline "Good morning to you"))
            1
            {| DiarizationService.seg_text := "Good morning to you";
               DiarizationService.index := 1 |}
            eq_refl eq_refl _ _);
    intros p Hin; cbn in Hin;
    repeat (destruct Hin as [<- | Hin]; [reflexivity|]); contradiction.
Defined.

(** C9, as amended.  The segment returned at a position is made from the
    segment parsed at that position.  When the parsed text is
    "Speaker <digits>:" followed by optional white space and then at least
    one character that is not a line break, the speaker is the label,
    "Speaker <digits>", whatever the digits are; in every other case, a
    bare label such as "Speaker 3:" included, the speaker is "Speaker 1"
    or "Speaker 2".  One of the two cases always applies. *)
Theorem speaker_is_the_label_or_one_or_two :
  forall (baseTime : Z) (toLocaleTimeString : Z -> string)
         (transcript : string) (i : nat) (out : DiarizationService.DiarizedSegment),
    nth_error (DiarizationService.diarizeTranscript baseTime toLocaleTimeString transcript) i
    = Some out ->
    exists seg,
      nth_error (DiarizationService.parseTranscriptSegments transcript) i = Some seg /\
      (forall digits,
          DiarizationService.labelledWith digits (DiarizationService.seg_text seg) ->
          DiarizationService.speaker out = "Speaker " ++ digits) /\
      ((forall digits,
           ~ DiarizationService.labelledWith digits (DiarizationService.seg_text seg)) ->
       DiarizationService.speaker out = "Speaker 1" \/
       DiarizationService.speaker out = "Speaker 2") /\
      ((exists digits,
           DiarizationService.labelledWith digits (DiarizationService.seg_text seg)) \/
       (forall digits,
           ~ DiarizationService.labelledWith digits (DiarizationService.seg_text seg))).
Proof.
  intros baseTime fmt transcript i out Hout.
  unfold DiarizationService.diarizeTranscript, DiarizationService.identifySpeakers in Hout.
  rewrite nth_error_map in Hout.
  destruct (nth_error (DiarizationService.parseTranscriptSegments transcript) i)
    as [seg|]; cbn [option_map] in Hout; [|discriminate].
  injection Hout as <-. exists seg. split; [reflexivity|].
  cbn [DiarizationService.speaker].
  unfold DiarizationService.determineSpeaker.
  destruct (DiarizationService.speakerMatch (DiarizationService.seg_text seg))
    as [[label kept]|] eqn:Hm.
  - destruct (speakerMatch_labelledWith _ _ _ Hm) as (ds & -> & Hl).
    split; [|split].
    + intros digits Hd. apply labelledWith_speakerMatch in Hd as [kept' Hd].
      rewrite Hd in Hm. injection Hm as Hlabel _.
      cbn [DiarizationService.info_speaker]. rewrite Hlabel. reflexivity.
    + intros Hno. destruct (Hno ds Hl).
    + left. exists ds. exact Hl.
  - assert (Hno : forall digits,
               ~ DiarizationService.labelledWith digits (DiarizationService.seg_text seg)).
    { intros digits Hd. apply labelledWith_speakerMatch in Hd as [kept Hd].
      rewrite Hd in Hm. discriminate. }
    split; [|split].
    + intros digits Hd. destruct (Hno digits Hd).
    + intros _. cbn [DiarizationService.info_speaker].
      destruct (existsb _ DiarizationService.customerServicePatterns); [left; reflexivity|].
      destruct (existsb _ DiarizationService.customerPatterns); [right; reflexivity|].
      destruct (_ =? 0)%nat; [left | right]; reflexivity.
    + right. exact Hno.
Qed.

Lemma speaker_is_the_label_or_one_or_two_witness :
  nth_error (DiarizationService.diarizeTranscript 0 (fun _ => "10:00:00")
               ("Speaker 3: hello"
                  ++ String DiarizationService.newline
                       (String DiarizationService.newline "Speaker 3:"))) 1
  = Some {| DiarizationService.speaker := "Speaker 2";
            DiarizationService.text := "Speaker 3:";
            DiarizationService.timestamp := "10:00:00" |}
  /\
  exists seg,
    nth_error (DiarizationService.parseTranscriptSegments
                 ("Speaker 3: hello"
                    ++ String DiarizationService.newline
                         (String DiarizationService.newline "Speaker 3:"))) 1
    = Some seg /\
    (forall digits,
        DiarizationService.labelledWith digits (DiarizationService.seg_text seg) ->
        "Speaker 2" = "Speaker " ++ digits) /\
    ((forall digits,
         ~ DiarizationService.labelledWith digits (DiarizationService.seg_text seg)) ->
     "Speaker 2" = "Speaker 1" \/ "Speaker 2" = "Speaker 2") /\
    ((exists digits,
         DiarizationService.labelledWith digits (DiarizationService.seg_text seg)) \/
     (forall digits,
         ~ DiarizationService.labelledWith digits (DiarizationService.seg_text seg))).
Proof.
  split; [reflexivity|].
  exact (speaker_is_the_label_or_one_or_two
           0 (fun _ => "10:00:00")
           ("Speaker 3: hello"
              ++ String DiarizationService.newline
                   (String DiarizationService.newline "Speaker 3:"))
           1
           {| DiarizationService.speaker := "Speaker 2";
              DiarizationService.text := "Speaker 3:";
              DiarizationService.timestamp := "10:00:00" |}
           eq_refl).
Defined.

(** C9, as stated, fails: a segment labelled "Speaker 3:" is returned with
    speaker "Speaker 3". *)
Lemma speaker_three_is_returned :
  ~ (forall (baseTime : Z) (toLocaleTimeString : Z -> string)
            (transcript : string) (out : DiarizationService.DiarizedSegment),
        In out (DiarizationService.diarizeTranscript baseTime toLocaleTimeString transcript) ->
        DiarizationService.speaker out = "Speaker 1" \/
        DiarizationService.speaker out = "Speaker 2").
Proof.
  intros H.
  destruct (H 0%Z (fun _ => "10:00:00") "Speaker 3: hello"
              {| DiarizationService.speaker := "Speaker 3";
                 DiarizationService.text := "hello";
                 DiarizationService.timestamp := "10:00:00" |}
              (or_introl eq_refl)) as [E|E];
    discriminate E.
Qed.

(** ** Fallback summary *)


Section SummaryFacts.

Import TranscriptService.

Lemma split_starting_with_terminator (s : string) (ps : list string) :
  startsWithTerminator s = true ->
  SplitAtTerminators s ps ->
  exists run rest pieces,
    s = run ++ rest /\ ps = "" :: pieces /\
    run <> "" /\ allTerminators run = true /\
    startsWithTerminator rest = false /\
    SplitAtTerminators rest pieces.
Proof.
  intros Hs H. destruct H as [piece Hp | piece run rest pieces Hp Hne Hrun Hrest Hsplit].
  - destruct piece as [|c piece]; cbn in *; [discriminate|].
    rewrite Hs in Hp. discriminate.
  - destruct piece as [|c piece]; cbn in *.
    + exists run, rest, pieces. repeat split; assumption.
    + rewrite Hs in Hp. discriminate.
Qed.

Lemma split_prepend_plain (c : ascii) (s : string) (ps : list string) :
  isTerminator c = false ->
  SplitAtTerminators s ps ->
  exists piece pieces,
    ps = piece :: pieces /\ SplitAtTerminators (String c s) (String c piece :: pieces).
Proof.
  intros Hc H. destruct H as [piece Hp | piece run rest pieces Hp Hne Hrun Hrest Hsplit].
  - exists piece, []. split; [reflexivity|].
    apply split_last. cbn. rewrite Hc. exact Hp.
  - exists piece, pieces. split; [reflexivity|].
    change (String c (piece ++ run ++ rest)) with (String c piece ++ run ++ rest).
    apply split_more; try assumption. cbn. rewrite Hc. exact Hp.
Qed.

(** [splitSentences] splits at the maximal runs of terminators. *)
Lemma splitSentences_splits (s : string) :
  SplitAtTerminators s (splitSentences s).
Proof.
  induction s as [|c s IH]; cbn [splitSentences].
  - apply split_last. reflexivity.
  - destruct (isTerminator c) eqn:Hc.
    + destruct s as [|c' s'].
      * change (String c "") with ("" ++ String c "" ++ "").
        apply split_more; try reflexivity; [discriminate | | apply split_last; reflexivity].
        cbn. rewrite Hc. reflexivity.
      * destruct (isTerminator c') eqn:Hc'.
        -- destruct (split_starting_with_terminator (String c' s') _ Hc' IH)
             as (run & rest & pieces & Hs & Hps & Hne & Hrun & Hrest & Hsplit).
           rewrite Hps, Hs.
           change (String c (run ++ rest)) with ("" ++ String c run ++ rest).
           apply split_more; try assumption; try reflexivity; [discriminate|].
           cbn. rewrite Hc. exact Hrun.
        -- change (String c (String c' s')) with ("" ++ String c "" ++ String c' s').
           apply split_more; try reflexivity; [discriminate | | exact Hc' | exact IH].
           cbn. rewrite Hc. reflexivity.
    + destruct (split_prepend_plain c s _ Hc IH) as (piece & pieces & Hps & Hsplit).
      rewrite Hps. exact Hsplit.
Qed.

Lemma sentencesOf_nonBlank (transcript sentence : string) :
  In sentence (sentencesOf transcript) -> nonBlank sentence = true.
Proof.
  unfold sentencesOf. intros H. apply filter_In in H. apply H.
Qed.

Lemma join_three (sep a b c : string) :
  join sep [a; b; c] = a ++ sep ++ b ++ sep ++ c.
Proof.
  reflexivity.
Qed.

Lemma nth_error_nth_default (xs : list string) (i : nat) :
  i < List.length xs -> nth_error xs i = Some (nth i xs "").
Proof.
  intros H. apply nth_error_nth'. exact H.
Qed.

End SummaryFacts.

(** C10.  With [sentences] the pieces of the transcript between runs of
    [.], [!] and [?] that are not blank (non-empty once trimmed), and [n]
    their number: for [n <= 3] the summary is the transcript itself; for
    [n > 3] it is the first sentence, the one at index [n / 2] and the last
    one, joined with ". " and closed with ".". *)
Theorem generateSummary_first_middle_last :
  forall transcript : string,
    let sentences :=
      filter (fun s => (0 <? String.length (trim s))%nat)
             (TranscriptService.splitSentences transcript) in
    let n := List.length sentences in
    TranscriptService.SplitAtTerminators transcript
      (TranscriptService.splitSentences transcript) /\
    (n <= 3 -> TranscriptService.generateSummary transcript = transcript) /\
    (3 < n ->
     exists first middle last,
       nth_error sentences 0 = Some first /\
       nth_error sentences (n / 2) = Some middle /\
       nth_error sentences (n - 1) = Some last /\
       TranscriptService.generateSummary transcript =
         first ++ ". " ++ middle ++ ". " ++ last ++ ".").
Proof.
  intros transcript sentences n.
  split; [apply splitSentences_splits|].
  unfold TranscriptService.generateSummary.
  change (TranscriptService.sentencesOf transcript) with sentences.
  fold n. split.
  - intros Hn. apply Nat.leb_le in Hn. rewrite Hn. reflexivity.
  - intros Hn.
    assert (Hb : (n <=? 3)%nat = false) by (apply Nat.leb_gt; exact Hn).
    rewrite Hb.
    exists (nth 0 sentences ""), (nth (n / 2) sentences ""), (nth (n - 1) sentences "").
    assert (Hhalf : n / 2 < n) by (apply Nat.div_lt; lia).
    repeat split; try (apply nth_error_nth_default; fold n; lia).
    rewrite join_three, !append_assoc. reflexivity.
Qed.

Lemma generateSummary_first_middle_last_witness :
  TranscriptService.generateSummary "One. Two! Three? Four. Five." = "One.  Three.  Five."
  /\ TranscriptService.generateSummary "One. Two. Three." = "One. Two. Three.".
Proof.
  destruct (generateSummary_first_middle_last "One. Two! Three? Four. Five.")
    as (_ & _ & Hlong).
  destruct (generateSummary_first_middle_last "One. Two. Three.") as (_ & Hshort & _).
  split.
  - destruct Hlong as (first & middle & last & H0 & H1 & H2 & Hsum).
    + vm_compute. repeat constructor.
    + vm_compute in H0, H1, H2.
      injection H0 as <-. injection H1 as <-. injection H2 as <-.
      exact Hsum.
  - apply Hshort. vm_compute. repeat constructor.
Defined.

(** * Further properties *)

(** ** More on the poll loop of TranscriptService *)

Lemma totalDelay_app (a b : list Event) :
  totalDelay (a ++ b) = (totalDelay a + totalDelay b)%Z.
Proof.
  induction a as [|e a IH]; cbn; [reflexivity|].
  destruct e; cbn; rewrite IH; lia.
Qed.

Lemma progressCalls_app (a b : list Event) :
  progressCalls (a ++ b) = progressCalls a + progressCalls b.
Proof.
  induction a as [|e a IH]; cbn; [reflexivity|].
  destruct e; cbn; rewrite IH; reflexivity.
Qed.

Lemma statusRequests_append (a b : list Event) :
  statusRequests (a ++ b) = statusRequests a + statusRequests b.
Proof.
  induction a as [|e a IH]; cbn; [reflexivity|].
  destruct e; cbn; rewrite IH; reflexivity.
Qed.

(** Case analysis of one pass through the [try] block, following its
    control flow. *)
Ltac tidy_pass :=
  cbv beta iota; cbn [fst snd negb statusCalls resultCalls trace user].

Ltac pass_cases backend onProgress m :=
  cbv beta iota delta [TranscriptService.tryBlock bind fetchStatus fetchResult json
    TranscriptService.callProgress delay emit modify ret throw];
  destruct (statusEndpoint backend (statusCalls m)) as [?e|?r] eqn:?Hstatus;
    tidy_pass;
  [| destruct (ok _) eqn:?Hok; tidy_pass;
     [ destruct (body _) as [?e|?st] eqn:?Hbody; tidy_pass;
       [| (tryif is_var onProgress then destruct onProgress as [?f|] else idtac);
          tidy_pass;
          ( destruct (TranscriptService.status _ =? "completed") eqn:?Hcompleted;
            tidy_pass;
            [ destruct (TranscriptService.result _) as [?res|] eqn:?Hinline;
              tidy_pass;
              [| destruct (resultEndpoint backend _) as [?e|?rr] eqn:?Hfetch;
                 tidy_pass;
                 [| destruct (ok rr) eqn:?Hrok; tidy_pass;
                    [ destruct (body rr) as [?e|?res] eqn:?Hrbody; tidy_pass |] ] ]
            | destruct (TranscriptService.status _ =? "failed") eqn:?Hfailed;
              tidy_pass ] ) ]
     |] ].

Section PollerBudget.

Import TranscriptService.

Context {R U : Type}.
Variable backend : Backend (ProcessingStatus R) R.
Variable jobId : string.
Variable onProgress : option (Z -> string -> U -> U).

(** What one pass adds to the machine: one status request, at most one
    result request, at most one progress call, and five seconds of sleep
    exactly when the loop goes on. *)
Lemma tryBlock_budget (m : Machine U) :
  let out := tryBlock backend jobId onProgress m in
  statusCalls (snd out) = S (statusCalls m) /\
  resultCalls (snd out) <= S (resultCalls m) /\
  progressCalls (trace (snd out)) <= S (progressCalls (trace m)) /\
  statusRequests (trace (snd out)) = S (statusRequests (trace m)) /\
  (onProgress = None -> progressCalls (trace (snd out)) = progressCalls (trace m)) /\
  (fst out = inr Next -> resultCalls (snd out) = resultCalls m) /\
  totalDelay (trace (snd out)) =
    (totalDelay (trace m) + match fst out with inr Next => 5000 | _ => 0 end)%Z.
Proof.
  cbv zeta.
  pass_cases backend onProgress m;
    cbn [statusCalls resultCalls trace user];
    rewrite ?progressCalls_app, ?statusRequests_append, ?totalDelay_app;
    cbn [progressCalls statusRequests totalDelay];
    (repeat split; try lia; try discriminate; try reflexivity).
Qed.

(** Sleep, requests and callbacks of the whole loop, counted from any state
    of it. *)
Lemma pollLoop_budget (fuel attempts : nat) (m : Machine U)
      (out : JsError + R) (m' : Machine U) :
  pollLoop backend fuel jobId onProgress attempts m = Some (out, m') ->
  statusCalls m <= statusCalls m' <= statusCalls m + (maxAttempts - attempts) /\
  resultCalls m' + statusCalls m <= resultCalls m + statusCalls m' /\
  progressCalls (trace m') + statusCalls m <= progressCalls (trace m) + statusCalls m' /\
  statusRequests (trace m') + statusCalls m = statusRequests (trace m) + statusCalls m' /\
  (onProgress = None -> progressCalls (trace m') = progressCalls (trace m)) /\
  resultCalls m' <= resultCalls m + (3 - attempts) + 1 /\
  (totalDelay (trace m') <=
   totalDelay (trace m) + 5000 * Z.of_nat (maxAttempts - attempts))%Z.
Proof.
  revert attempts m. induction fuel as [|fuel IH]; intros attempts m Hrun;
    cbn [pollLoop] in Hrun; [discriminate|].
  destruct (attempts <? maxAttempts)%nat eqn:Hlt.
  - apply Nat.ltb_lt in Hlt.
    pose proof (tryBlock_budget m) as (Hs & Hr & Hp & Hq & Hn & Hx & Hd). cbv zeta in *.
    destruct (tryBlock backend jobId onProgress m) as [[e|[r|]] m1];
      cbn [fst snd] in *.
    + destruct (attempts <? 3)%nat eqn:H3.
      * apply Nat.ltb_lt in H3.
        apply IH in Hrun as (Is & Ir & Ip & Iq & In' & Ix & Id).
        cbn [snd delay emit statusCalls resultCalls trace] in *.
        rewrite ?progressCalls_app, ?statusRequests_append, ?totalDelay_app in *.
        cbn [progressCalls statusRequests totalDelay] in *.
        repeat split; try lia.
        intros Hnone. rewrite (In' Hnone), <- (Hn Hnone). lia.
      * injection Hrun as _ <-.
        cbn [snd emit statusCalls resultCalls trace].
        rewrite ?progressCalls_app, ?statusRequests_append, ?totalDelay_app.
        cbn [progressCalls statusRequests totalDelay].
        repeat split; try lia.
        intros Hnone. rewrite <- (Hn Hnone). lia.
    + injection Hrun as _ <-. repeat split; try lia. exact Hn.
    + apply IH in Hrun as (Is & Ir & Ip & Iq & In' & Ix & Id).
      specialize (Hx eq_refl).
      repeat split; try lia.
      intros Hnone. rewrite (In' Hnone). exact (Hn Hnone).
  - injection Hrun as _ <-. repeat split; try lia. 
Qed.

End PollerBudget.

(** Every pass that returns a result has read it from a job reported as
    completed: from the status response itself, or from a 2xx answer of the
    result endpoint. *)
Lemma tryBlock_return (R U : Type) (backend : Backend (TranscriptService.ProcessingStatus R) R)
      (jobId : string) (onProgress : option (Z -> string -> U -> U))
      (m m1 : Machine U) (res : R) :
  TranscriptService.tryBlock backend jobId onProgress m
    = (inr (TranscriptService.Return res), m1) ->
  exists st,
    reports backend (statusCalls m) st /\
    TranscriptService.status st = "completed" /\
    (TranscriptService.result st = Some res \/
     (TranscriptService.result st = None /\ delivers backend (resultCalls m) res)).
Proof.
  pass_cases backend onProgress m; intros H; try discriminate H;
    injection H as <- _;
    match goal with
    | Hc : (TranscriptService.status ?st =? "completed") = true |- _ =>
        apply String.eqb_eq in Hc; exists st
    end;
    (split; [eexists; split; [eassumption | split; assumption]|]);
    (split; [assumption|]);
    first [ left; assumption
          | right; split; [assumption|];
            eexists; split; [eassumption | split; assumption] ].
Qed.

Section PollerOutcomes.

Import TranscriptService.

Context {R U : Type}.
Variable backend : Backend (ProcessingStatus R) R.
Variable jobId : string.
Variable onProgress : option (Z -> string -> U -> U).

Lemma pollLoop_result_sound (fuel attempts : nat) (m m' : Machine U) (res : R) :
  pollLoop backend fuel jobId onProgress attempts m = Some (inr res, m') ->
  exists n st,
    statusCalls m <= n /\ S n = statusCalls m' /\
    reports backend n st /\
    status st = "completed" /\
    (result st = Some res \/
     (result st = None /\ exists k, delivers backend k res)).
Proof.
  revert attempts m. induction fuel as [|fuel IH]; intros attempts m Hrun;
    cbn [pollLoop] in Hrun; [discriminate|].
  destruct (attempts <? maxAttempts)%nat; [|discriminate].
  pose proof (tryBlock_statusCalls backend jobId onProgress m) as Hs.
  destruct (tryBlock backend jobId onProgress m) as [[e|[r|]] m1] eqn:Hpass;
    cbn [snd] in Hs.
  - destruct (attempts <? 3)%nat; [|discriminate].
    apply IH in Hrun as (n & st & Hn & Hlast & Hrest).
    cbn [snd delay emit statusCalls] in Hn.
    exists n, st. split; [lia|]. split; [exact Hlast | exact Hrest].
  - injection Hrun as <- <-.
    apply tryBlock_return in Hpass as (st & Hrep & Hc & Hres).
    exists (statusCalls m), st. split; [lia|]. split; [symmetry; exact Hs|].
    split; [exact Hrep|]. split; [exact Hc|].
    destruct Hres as [Hin | [Hnone Hdel]]; [left; exact Hin|].
    right. split; [exact Hnone|]. exists (resultCalls m). exact Hdel.
  - apply IH in Hrun as (n & st & Hn & Hlast & Hrest).
    exists n, st. split; [lia|]. split; [exact Hlast | exact Hrest].
Qed.

(** Status requests that fail in transit while fewer than three attempts
    have been counted are each followed by a new attempt. *)
Lemma pollLoop_initial_failures (k fuel attempts : nat) (m : Machine U) :
  attempts + k <= 3 ->
  (forall i, i < k -> exists e, statusFails backend (statusCalls m + i) e) ->
  exists m',
    pollLoop backend (k + fuel) jobId onProgress attempts m =
    pollLoop backend fuel jobId onProgress (attempts + k) m' /\
    statusCalls m' = statusCalls m + k /\
    resultCalls m' = resultCalls m /\
    user m' = user m /\
    totalDelay (trace m') = (totalDelay (trace m) + 2000 * Z.of_nat k)%Z.
Proof.
  revert attempts m. induction k as [|k IH]; intros attempts m Hk Hfail.
  - exists m. rewrite !Nat.add_0_r. repeat split. lia.
  - destruct (Hfail 0) as (e & He); [lia|]. rewrite Nat.add_0_r in He.
    cbn [Nat.add].
    rewrite (pollLoop_network_failure_early backend jobId onProgress _ attempts m e);
      [| lia | exact He].
    match goal with
    | |- context [pollLoop backend (k + fuel) jobId onProgress (S attempts) ?m1] =>
        destruct (IH (S attempts) m1) as (m' & Hrun & Hs & Hr & Hu & Hd)
    end.
    + lia.
    + intros i Hi. cbn [statusCalls].
      destruct (Hfail (S i)) as (e' & He'); [lia|].
      exists e'. replace (S (statusCalls m) + i) with (statusCalls m + S i) by lia.
      exact He'.
    + exists m'. rewrite Hrun.
      cbn [statusCalls resultCalls user trace] in Hs, Hr, Hu, Hd.
      rewrite totalDelay_app in Hd. cbn [totalDelay] in Hd.
      replace (attempts + S k) with (S attempts + k) by lia.
      repeat split; try lia. exact Hu.
Qed.

End PollerOutcomes.

(** X1.  [pollForResults] always settles, with a result or an error, after
    at most 120 status requests and at most 4 result requests; its trace
    holds exactly the status requests it has counted. *)
Theorem pollForResults_settles :
  forall (R U : Type) (backend : Backend (TranscriptService.ProcessingStatus R) R)
         (jobId : string) (onProgress : option (Z -> string -> U -> U)) (u : U),
    exists out m,
      TranscriptService.pollForResults backend jobId onProgress u = Some (out, m) /\
      statusCalls m <= 120 /\
      statusRequests (trace m) = statusCalls m /\
      resultCalls m <= 4.
Proof.
  intros R U backend jobId onProgress u.
  destruct (pollForResults_bounded backend jobId onProgress u) as (out & m & Hrun & Hb).
  exists out, m. split; [exact Hrun|].
  unfold TranscriptService.pollForResults in Hrun.
  apply pollLoop_budget in Hrun as (Hs & _ & _ & Hq & _ & Hr & _).
  cbn [start statusCalls resultCalls trace statusRequests] in *.
  unfold TranscriptService.maxAttempts in *. lia.
Qed.

(** X2.  [pollForResults] never sleeps for more than ten minutes in all
    (600000 ms), which is what the comment on [maxAttempts] promises. *)
Theorem pollForResults_sleeps_at_most_ten_minutes :
  forall (R U : Type) (backend : Backend (TranscriptService.ProcessingStatus R) R)
         (jobId : string) (onProgress : option (Z -> string -> U -> U)) (u : U)
         (out : JsError + R) (m : Machine U),
    TranscriptService.pollForResults backend jobId onProgress u = Some (out, m) ->
    (0 <= totalDelay (trace m) <= 600000)%Z.
Proof.
  intros R U backend jobId onProgress u out m Hrun.
  unfold TranscriptService.pollForResults in Hrun.
  pose proof Hrun as Hbudget.
  apply pollLoop_budget in Hbudget as (_ & _ & _ & _ & _ & _ & Hd).
  cbn [start trace totalDelay] in Hd. unfold TranscriptService.maxAttempts in Hd.
  split; [|lia].
  clear Hd. revert Hrun.
  generalize (S TranscriptService.maxAttempts) as fuel.
  assert (Hstart : (0 <= totalDelay (trace (start u)))%Z) by (cbn; lia).
  revert Hstart. generalize (start u) as m0. generalize 0 as attempts.
  intros attempts m0 Hm0 fuel. revert attempts m0 Hm0.
  induction fuel as [|fuel IH]; intros attempts m0 Hm0 Hrun;
    cbn [TranscriptService.pollLoop] in Hrun; [discriminate|].
  destruct (attempts <? TranscriptService.maxAttempts)%nat.
  - pose proof (tryBlock_budget backend jobId onProgress m0)
      as (_ & _ & _ & _ & _ & _ & Hd). cbv zeta in Hd.
    destruct (TranscriptService.tryBlock backend jobId onProgress m0) as [[e|[r|]] m1];
      cbn [fst snd] in *.
    + destruct (attempts <? 3)%nat.
      * apply IH in Hrun; [exact Hrun|].
        cbn [snd delay emit trace]. rewrite !totalDelay_app. cbn [totalDelay]. lia.
      * injection Hrun as _ <-. cbn [snd emit trace].
        rewrite totalDelay_app. cbn [totalDelay]. lia.
    + injection Hrun as _ <-. lia.
    + apply IH in Hrun; [exact Hrun | lia].
  - injection Hrun as _ <-. exact Hm0.
Qed.

Lemma pollForResults_sleeps_at_most_ten_minutes_witness :
  exists m,
    TranscriptService.pollForResults Scenario.stillProcessing "job-1" None tt
      = Some (inl TranscriptService.timeoutError, m) /\
    (0 <= totalDelay (trace m) <= 600000)%Z.
Proof.
  eexists. split; [vm_compute; reflexivity|].
  eapply (pollForResults_sleeps_at_most_ten_minutes string unit
            Scenario.stillProcessing "job-1" None tt).
  vm_compute. reflexivity.
Defined.

(** X3.  The progress callback is never called more often than the status
    endpoint is asked, and never when no callback was passed. *)
Theorem progress_calls_bounded_by_polls :
  forall (R U : Type) (backend : Backend (TranscriptService.ProcessingStatus R) R)
         (jobId : string) (onProgress : option (Z -> string -> U -> U)) (u : U)
         (out : JsError + R) (m : Machine U),
    TranscriptService.pollForResults backend jobId onProgress u = Some (out, m) ->
    progressCalls (trace m) <= statusRequests (trace m) /\
    (onProgress = None -> progressCalls (trace m) = 0 /\ user m = u).
Proof.
  intros R U backend jobId onProgress u out m Hrun.
  unfold TranscriptService.pollForResults in Hrun.
  pose proof Hrun as Hbudget.
  apply pollLoop_budget in Hbudget as (Hs & _ & Hp & Hq & Hn & _).
  cbn [start statusCalls trace progressCalls statusRequests] in *.
  split; [lia|].
  intros Hnone. split; [exact (Hn Hnone)|].
  subst onProgress. clear - Hrun. revert Hrun.
  generalize (S TranscriptService.maxAttempts) as fuel.
  change u with (user (start u)) at 2.
  generalize (start u) as m0. generalize 0 as attempts.
  intros attempts m0 fuel. revert attempts m0.
  induction fuel as [|fuel IH]; intros attempts m0 Hrun;
    cbn [TranscriptService.pollLoop] in Hrun; [discriminate|].
  destruct (attempts <? TranscriptService.maxAttempts)%nat.
  - assert (Hu : user (snd (TranscriptService.tryBlock backend jobId None m0)) = user m0).
    { pass_cases backend (@None (Z -> string -> U -> U)) m0; reflexivity. }
    destruct (TranscriptService.tryBlock backend jobId None m0) as [[e|[r|]] m1];
      cbn [fst snd] in *.
    + destruct (attempts <? 3)%nat.
      * apply IH in Hrun. cbn [snd delay emit user] in Hrun. congruence.
      * injection Hrun as _ <-. exact Hu.
    + injection Hrun as _ <-. exact Hu.
    + apply IH in Hrun. congruence.
  - injection Hrun as _ <-. reflexivity.
Qed.

Lemma progress_calls_bounded_by_polls_witness :
  exists m,
    TranscriptService.pollForResults Scenario.pendingPendingCompleted "job-1"
      (Some Scenario.logProgress) [] = Some (inr "hello world", m) /\
    progressCalls (trace m) <= statusRequests (trace m).
Proof.
  eexists. split; [vm_compute; reflexivity|].
  refine (proj1 (progress_calls_bounded_by_polls string (list (Z * string))
                   Scenario.pendingPendingCompleted "job-1"
                   (Some Scenario.logProgress) [] _ _ _)).
  vm_compute. reflexivity.
Defined.

(** X4.  A result returned by [pollForResults] was read from the backend:
    the last status request was answered 2xx with status "completed", and
    the result is the one inline in that response or, when none was inline,
    the body of a 2xx answer of the result endpoint. *)
Theorem pollForResults_result_comes_from_backend :
  forall (R U : Type) (backend : Backend (TranscriptService.ProcessingStatus R) R)
         (jobId : string) (onProgress : option (Z -> string -> U -> U)) (u : U)
         (res : R) (m : Machine U),
    TranscriptService.pollForResults backend jobId onProgress u = Some (inr res, m) ->
    exists n st,
      S n = statusCalls m /\
      reports backend n st /\
      TranscriptService.status st = "completed" /\
      (TranscriptService.result st = Some res \/
       (TranscriptService.result st = None /\ exists k, delivers backend k res)).
Proof.
  intros R U backend jobId onProgress u res m Hrun.
  unfold TranscriptService.pollForResults in Hrun.
  apply pollLoop_result_sound in Hrun as (n & st & _ & Hlast & Hrest).
  exists n, st. split; [exact Hlast | exact Hrest].
Qed.

Lemma pollForResults_result_comes_from_backend_witness :
  exists n st,
    S n = 3 /\
    reports Scenario.pendingPendingCompleted n st /\
    TranscriptService.status st = "completed" /\
    (TranscriptService.result st = Some "hello world" \/
     (TranscriptService.result st = None /\
      exists k, delivers Scenario.pendingPendingCompleted k "hello world")).
Proof.
  refine (pollForResults_result_comes_from_backend string (list (Z * string))
            Scenario.pendingPendingCompleted "job-1" (Some Scenario.logProgress) []
            "hello world"
            {| statusCalls := 3; resultCalls := 0;
               trace := [ GetStatus "job-1"; OnProgress 10 "queued"; Delay 5000;
                          GetStatus "job-1"; OnProgress 50 "transcribing"; Delay 5000;
                          GetStatus "job-1"; OnProgress 100 "done" ];
               user := [ (100%Z, "done"); (50%Z, "transcribing"); (10%Z, "queued") ] |}
            _).
  vm_compute. reflexivity.
Defined.

(** X5.  Up to three status requests that fail in transit at the start of
    the poll are tolerated: when the next response reports the job
    completed with its result inline, [pollForResults] returns that result,
    having slept two seconds after each failure. *)
Theorem initial_transit_failures_are_tolerated :
  forall (R U : Type) (backend : Backend (TranscriptService.ProcessingStatus R) R)
         (jobId : string) (onProgress : option (Z -> string -> U -> U)) (u : U)
         (k : nat) (st : TranscriptService.ProcessingStatus R) (res : R),
    k <= 3 ->
    (forall i, i < k -> exists e, statusFails backend i e) ->
    reports backend k st ->
    TranscriptService.status st = "completed" ->
    TranscriptService.result st = Some res ->
    exists m,
      TranscriptService.pollForResults backend jobId onProgress u = Some (inr res, m) /\
      statusCalls m = S k /\
      resultCalls m = 0 /\
      totalDelay (trace m) = (2000 * Z.of_nat k)%Z.
Proof.
  intros R U backend jobId onProgress u k st res Hk Hfail Hrep Hc Hres.
  unfold TranscriptService.pollForResults.
  destruct (pollLoop_initial_failures backend jobId onProgress k
              (S (TranscriptService.maxAttempts - k)) 0 (start u))
    as (m1 & Hrun & Hs & Hr & Hu & Hd); [lia | exact Hfail |].
  replace (S TranscriptService.maxAttempts)
    with (k + S (TranscriptService.maxAttempts - k))
    by (unfold TranscriptService.maxAttempts; lia).
  rewrite Hrun. cbn [Nat.add].
  cbn [start statusCalls resultCalls trace totalDelay] in Hs, Hr, Hd.
  rewrite (pollLoop_completed_inline backend jobId onProgress _ k m1 st res);
    [| unfold TranscriptService.maxAttempts; lia | rewrite Hs; exact Hrep
     | exact Hc | exact Hres].
  eexists. split; [reflexivity|].
  pose proof (afterReport_calls jobId onProgress m1 st) as [Hs' Hr'].
  rewrite Hs', Hr', Hs, Hr. repeat split.
  unfold TranscriptService.afterReport, TranscriptService.callProgress.
  destruct onProgress as [f|]; cbn [snd ret bind emit modify trace];
    rewrite ?totalDelay_app; cbn [totalDelay]; lia.
Qed.

Lemma initial_transit_failures_are_tolerated_witness :
  exists m,
    TranscriptService.pollForResults Scenario2.flakyStart "job-1" None tt
      = Some (inr "hello world", m) /\
    statusCalls m = 3 /\
    resultCalls m = 0 /\
    totalDelay (trace m) = 4000%Z.
Proof.
  refine (initial_transit_failures_are_tolerated string unit Scenario2.flakyStart
            "job-1" None tt 2
            {| TranscriptService.job_id := "job-1"; TranscriptService.status := "completed";
               TranscriptService.progress := 100; TranscriptService.status_message := "done";
               TranscriptService.result := Some "hello world" |}
            "hello world" _ _ _ eq_refl eq_refl).
  - lia.
  - intros i Hi.
    destruct i as [|[|i]]; [| | lia].
    + exists (Error "Failed to fetch"). left. reflexivity.
    + exists (Error "Status check failed: 502"). right.
      eexists. split; [reflexivity|]. split; reflexivity.
  - eexists. split; [reflexivity|]. split; reflexivity.
Defined.

(** X6.  When the first four status requests all fail in transit, the
    fourth failure is the error of [pollForResults]: three were retried,
    six seconds were slept, and no fifth request is made. *)
Theorem fourth_initial_failure_is_raised :
  forall (R U : Type) (backend : Backend (TranscriptService.ProcessingStatus R) R)
         (jobId : string) (onProgress : option (Z -> string -> U -> U)) (u : U)
         (e : JsError),
    (forall i, i < 3 -> exists e', statusFails backend i e') ->
    statusFails backend 3 e ->
    exists m,
      TranscriptService.pollForResults backend jobId onProgress u = Some (inl e, m) /\
      statusCalls m = 4 /\
      resultCalls m = 0 /\
      user m = u /\
      totalDelay (trace m) = 6000%Z.
Proof.
  intros R U backend jobId onProgress u e Hfail He.
  unfold TranscriptService.pollForResults.
  destruct (pollLoop_initial_failures backend jobId onProgress 3
              (S (TranscriptService.maxAttempts - 3)) 0 (start u))
    as (m1 & Hrun & Hs & Hr & Hu & Hd); [lia | exact Hfail |].
  change (S TranscriptService.maxAttempts)
    with (3 + S (TranscriptService.maxAttempts - 3)).
  rewrite Hrun. cbn [Nat.add].
  cbn [start statusCalls resultCalls trace totalDelay user] in Hs, Hr, Hd, Hu.
  rewrite (pollLoop_network_failure_late backend jobId onProgress _ 3 m1 e);
    [| unfold TranscriptService.maxAttempts; lia | rewrite Hs; exact He].
  eexists. split; [reflexivity|].
  cbn [statusCalls resultCalls user trace].
  rewrite totalDelay_app. cbn [totalDelay].
  repeat split; try lia. exact Hu.
Qed.

Lemma fourth_initial_failure_is_raised_witness :
  exists m,
    TranscriptService.pollForResults Scenario2.unreachable "job-1" None tt
      = Some (inl (Error "Failed to fetch"), m) /\
    statusCalls m = 4 /\
    resultCalls m = 0 /\
    user m = tt /\
    totalDelay (trace m) = 6000%Z.
Proof.
  refine (fourth_initial_failure_is_raised string unit Scenario2.unreachable
            "job-1" None tt (Error "Failed to fetch") _ _).
  - intros i _. exists (Error "Failed to fetch"). left. apply scripted_nil_status.
  - left. reflexivity.
Defined.

(** ** The entry points of TranscriptService and the audio component *)

Section CallFacts.

Context {Number : Type}.
Variable formatTimestamp : Number -> string.
Variable backend :
  Backend (TranscriptService.ProcessingStatus (TranscriptCalls.ProcessingResult Number))
          (TranscriptCalls.ProcessingResult Number).
Variable upload : Fetch UploadJson.

(** The two entry points differ only in what they keep of the result and in
    the message they fail with. *)
Lemma analyzeConversation_cases :
  (exists e,
      TranscriptCalls.uploadFile upload = inl e /\
      TranscriptCalls.analyzeConversation formatTimestamp backend upload =
      Some (inl TranscriptCalls.analysisFailed,
            {| statusCalls := 0; resultCalls := 0;
               trace := [ConsoleError "Analysis error:" e]; user := tt |}))
  \/
  (exists jobId e m,
      TranscriptCalls.uploadFile upload = inr jobId /\
      TranscriptService.pollForResults backend jobId None tt = Some (inl e, m) /\
      TranscriptCalls.analyzeConversation formatTimestamp backend upload =
      Some (inl TranscriptCalls.analysisFailed,
            snd (emit (ConsoleError "Analysis error:" e) m)))
  \/
  (exists jobId res m,
      TranscriptCalls.uploadFile upload = inr jobId /\
      TranscriptService.pollForResults backend jobId None tt = Some (inr res, m) /\
      TranscriptCalls.analyzeConversation formatTimestamp backend upload =
      Some (inr (TranscriptCalls.toFrontend formatTimestamp res), m)).
Proof.
  unfold TranscriptCalls.analyzeConversation.
  destruct (TranscriptCalls.uploadFile upload) as [e|jobId].
  - left. exists e. split; reflexivity.
  - destruct (pollForResults_bounded backend jobId None tt) as ([e|res] & m & Hrun & _);
      rewrite Hrun.
    + right. left. exists jobId, e, m. repeat split. exact Hrun.
    + right. right. exists jobId, res, m. repeat split. exact Hrun.
Qed.

End CallFacts.

(** X7.  [analyzeConversation] always settles.  It fails with one fixed
    message, whatever went wrong (upload, network, failed job, timeout), so
    no backend message reaches its caller; it succeeds exactly when the
    upload yields a job id and the poll of that job returns a result, and
    then hands on the transcript, the summary and one segment per
    utterance, in order, with speaker and text unchanged.  After a failed
    upload it asks the status endpoint nothing. *)
Theorem analyzeConversation_outcomes :
  forall (Number : Type) (formatTimestamp : Number -> string)
         (backend : Backend (TranscriptService.ProcessingStatus
                               (TranscriptCalls.ProcessingResult Number))
                            (TranscriptCalls.ProcessingResult Number))
         (upload : Fetch UploadJson),
    exists out m,
      TranscriptCalls.analyzeConversation formatTimestamp backend upload = Some (out, m) /\
      match out with
      | inl e =>
          e = Error "Failed to analyze conversation. Please try again." /\
          ((exists e', TranscriptCalls.uploadFile upload = inl e' /\
                       statusCalls m = 0 /\ resultCalls m = 0)
           \/
           (exists jobId e' m',
               TranscriptCalls.uploadFile upload = inr jobId /\
               TranscriptService.pollForResults backend jobId None tt = Some (inl e', m')))
      | inr analysis =>
          exists jobId res,
            TranscriptCalls.uploadFile upload = inr jobId /\
            TranscriptService.pollForResults backend jobId None tt = Some (inr res, m) /\
            TranscriptCalls.a_transcript analysis = TranscriptCalls.transcript res /\
            TranscriptCalls.a_summary analysis = TranscriptCalls.summary res /\
            map DiarizationService.speaker (TranscriptCalls.a_diarization analysis) =
              map TranscriptCalls.u_speaker (TranscriptCalls.diarization res) /\
            map DiarizationService.text (TranscriptCalls.a_diarization analysis) =
              map TranscriptCalls.u_text (TranscriptCalls.diarization res) /\
            map DiarizationService.timestamp (TranscriptCalls.a_diarization analysis) =
              map (fun u => formatTimestamp (TranscriptCalls.start_time u))
                  (TranscriptCalls.diarization res)
      end.
Proof.
  intros Number formatTimestamp backend upload.
  destruct (analyzeConversation_cases formatTimestamp backend upload)
    as [(e & Hup & Hrun) | [(jobId & e & m & Hup & Hpoll & Hrun)
                           | (jobId & res & m & Hup & Hpoll & Hrun)]];
    rewrite Hrun; eexists _, _; (split; [reflexivity|]); cbv beta iota.
  - split; [reflexivity|]. left. exists e. repeat split. exact Hup.
  - split; [reflexivity|]. right. exists jobId, e, m. split; assumption.
  - exists jobId, res. split; [exact Hup|]. split; [exact Hpoll|].
    unfold TranscriptCalls.toFrontend.
    cbn [TranscriptCalls.a_transcript TranscriptCalls.a_summary TranscriptCalls.a_diarization].
    rewrite !map_map. repeat split.
Qed.

(** X8.  [transcribeAudio] always settles, with the transcript of the
    polled result or with its one fixed message. *)
Theorem transcribeAudio_outcomes :
  forall (Number : Type)
         (backend : Backend (TranscriptService.ProcessingStatus
                               (TranscriptCalls.ProcessingResult Number))
                            (TranscriptCalls.ProcessingResult Number))
         (upload : Fetch UploadJson),
    exists out m,
      TranscriptCalls.transcribeAudio backend upload = Some (out, m) /\
      match out with
      | inl e => e = Error "Failed to transcribe audio. Please try again."
      | inr text =>
          exists jobId res,
            TranscriptCalls.uploadFile upload = inr jobId /\
            TranscriptService.pollForResults backend jobId None tt = Some (inr res, m) /\
            text = TranscriptCalls.transcript res
      end.
Proof.
  intros Number backend upload.
  unfold TranscriptCalls.transcribeAudio.
  destruct (TranscriptCalls.uploadFile upload) as [e|jobId].
  - eexists _, _. split; reflexivity.
  - destruct (pollForResults_bounded backend jobId None tt) as ([e|res] & m & Hrun & _);
      rewrite Hrun; eexists _, _; (split; [reflexivity|]); cbv beta iota.
    + reflexivity.
    + exists jobId, res. repeat split. exact Hrun.
Qed.

(** X9.  [processAudio] always settles.  Without a selected file it does
    nothing.  With one, it leaves the component not loading and with
    progress 0, and either shows a fresh result on the first tab with no
    error, or shows the one message of [analyzeConversation] and keeps the
    result and the tab it found. *)
Theorem processAudio_settles :
  forall (Number : Type) (formatTimestamp : Number -> string)
         (baseTime : Z) (toLocaleTimeString : Z -> string)
         (probe : Fetch unit) (upload : Fetch UploadJson)
         (backend : Backend (TranscriptService.ProcessingStatus
                               (TranscriptCalls.ProcessingResult Number))
                            (TranscriptCalls.ProcessingResult Number))
         (v : ConversationAnalysis.View),
    exists v' tr,
      ConversationAnalysis.processAudio formatTimestamp baseTime toLocaleTimeString
        probe upload backend v = Some (v', tr) /\
      match ConversationAnalysis.audioFile v with
      | None => v' = v /\ tr = []
      | Some file =>
          ConversationAnalysis.audioFile v' = Some file /\
          ConversationAnalysis.loading v' = false /\
          ConversationAnalysis.progress v' = 0%Z /\
          ((ConversationAnalysis.error v' = None /\
            (exists analysis, ConversationAnalysis.result v' = Some analysis) /\
            ConversationAnalysis.activeTab v' = 0)
           \/
           (ConversationAnalysis.error v' =
              Some "Failed to analyze conversation. Please try again." /\
            ConversationAnalysis.result v' = ConversationAnalysis.result v /\
            ConversationAnalysis.activeTab v' = ConversationAnalysis.activeTab v))
      end.
Proof.
  intros Number formatTimestamp baseTime toLocaleTimeString probe upload backend v.
  unfold ConversationAnalysis.processAudio.
  destruct (ConversationAnalysis.audioFile v) as [file|] eqn:Hfile.
  - cbv zeta.
    destruct (TranscriptCalls.isBackendAvailable probe).
    + destruct (analyzeConversation_cases formatTimestamp backend upload)
        as [(e & _ & Hrun) | [(jobId & e & m & _ & _ & Hrun)
                             | (jobId & res & m & _ & _ & Hrun)]];
        rewrite Hrun; eexists _, _; (split; [reflexivity|]);
        cbn; rewrite Hfile; repeat split; eauto.
    + eexists _, _. split; [reflexivity|].
      cbn. rewrite Hfile. repeat split. left. repeat split. eauto.
  - exists v, []. repeat split.
Qed.

(** X10.  When the availability probe fails or is answered non-2xx,
    [processAudio] never talks to the job endpoints and never fails: for
    any selected file it shows the same demo analysis.  That analysis has
    one segment per paragraph of the mock transcript, each paragraph being
    its segment's speaker, a colon, a space and its segment's text, and the
    speakers alternate from "Speaker 1". *)
Theorem processAudio_demo_mode :
  forall (Number : Type) (formatTimestamp : Number -> string)
         (baseTime : Z) (toLocaleTimeString : Z -> string)
         (probe : Fetch unit) (upload : Fetch UploadJson)
         (backend : Backend (TranscriptService.ProcessingStatus
                               (TranscriptCalls.ProcessingResult Number))
                            (TranscriptCalls.ProcessingResult Number))
         (v : ConversationAnalysis.View) (file : File),
    TranscriptCalls.isBackendAvailable probe = false ->
    ConversationAnalysis.audioFile v = Some file ->
    exists v' tr analysis,
      ConversationAnalysis.processAudio formatTimestamp baseTime toLocaleTimeString
        probe upload backend v = Some (v', tr) /\
      statusRequests tr = 0 /\
      ConversationAnalysis.error v' = None /\
      ConversationAnalysis.result v' = Some analysis /\
      analysis = ConversationAnalysis.demoAnalysis baseTime toLocaleTimeString /\
      TranscriptCalls.a_transcript analysis = TranscriptCalls.mockTranscript /\
      map (fun segment => DiarizationService.speaker segment ++ ": "
                            ++ DiarizationService.text segment)
          (TranscriptCalls.a_diarization analysis) = TranscriptCalls.mockParagraphs /\
      map DiarizationService.speaker (TranscriptCalls.a_diarization analysis) =
        [ "Speaker 1"; "Speaker 2"; "Speaker 1"; "Speaker 2"; "Speaker 1"; "Speaker 2";
          "Speaker 1"; "Speaker 2"; "Speaker 1"; "Speaker 2"; "Speaker 1" ].
Proof.
  intros Number formatTimestamp baseTime toLocaleTimeString probe upload backend v file
         Hprobe Hfile.
  unfold ConversationAnalysis.processAudio. rewrite Hfile, Hprobe. cbv zeta.
  eexists _, _, _. split; [reflexivity|].
  split; [reflexivity|]. split; [reflexivity|]. split; [reflexivity|].
  split; [reflexivity|]. split; [reflexivity|].
  split; vm_compute; reflexivity.
Qed.

Lemma processAudio_demo_mode_witness :
  exists v' tr analysis,
    ConversationAnalysis.processAudio (fun _ : nat => "00:00") 0 (fun _ => "10:00:00")
      networkFailure networkFailure unreachableAudio
      {| ConversationAnalysis.audioFile :=
           Some {| name := "call.mp3"; type := "audio/mpeg"; size := 1024 |};
         ConversationAnalysis.loading := false;
         ConversationAnalysis.progress := 0;
         ConversationAnalysis.result := None;
         ConversationAnalysis.error := None;
         ConversationAnalysis.activeTab := 2 |} = Some (v', tr) /\
    statusRequests tr = 0 /\
    ConversationAnalysis.error v' = None /\
    ConversationAnalysis.result v' = Some analysis /\
    List.length (TranscriptCalls.a_diarization analysis) = 11.
Proof.
  destruct (processAudio_demo_mode nat (fun _ : nat => "00:00") 0 (fun _ => "10:00:00")
              networkFailure networkFailure unreachableAudio
              {| ConversationAnalysis.audioFile :=
                   Some {| name := "call.mp3"; type := "audio/mpeg"; size := 1024 |};
                 ConversationAnalysis.loading := false;
                 ConversationAnalysis.progress := 0;
                 ConversationAnalysis.result := None;
                 ConversationAnalysis.error := None;
                 ConversationAnalysis.activeTab := 2 |}
              {| name := "call.mp3"; type := "audio/mpeg"; size := 1024 |}
              eq_refl eq_refl)
    as (v' & tr & analysis & Hrun & Hreq & Herr & Hres & _ & _ & _ & Hspeakers).
  exists v', tr, analysis. repeat split; try assumption.
  rewrite <- (length_map DiarizationService.speaker), Hspeakers. reflexivity.
Defined.

(** ** More on DiarizationService *)

Section TrimFacts.

Lemma trimEnd_keeps_head (c : ascii) (s : string) :
  isWhiteSpace c = false -> trimEnd (String c s) = String c (trimEnd s).
Proof.
  intros Hc. cbn [trimEnd]. destruct (trimEnd s); [rewrite Hc|]; reflexivity.
Qed.

Lemma trimEnd_idempotent (s : string) :
  trimEnd (trimEnd s) = trimEnd s.
Proof.
  induction s as [|c s IH]; [reflexivity|].
  cbn [trimEnd]. destruct (trimEnd s) as [|d t] eqn:Ht.
  - destruct (isWhiteSpace c) eqn:Hc; [reflexivity|].
    cbn [trimEnd]. rewrite Hc. reflexivity.
  - cbn [trimEnd] in IH |- *. fold (trimEnd t) in IH |- *.
    change (match trimEnd t with
            | "" => if isWhiteSpace d then "" else String d ""
            | String a s0 => String d (String a s0)
            end) with (trimEnd (String d t)) in IH |- *.
    rewrite IH. reflexivity.
Qed.

Lemma trimStart_head (s : string) :
  match trimStart s with
  | EmptyString => True
  | String c _ => isWhiteSpace c = false
  end.
Proof.
  induction s as [|c s IH]; cbn [trimStart]; [exact I|].
  destruct (isWhiteSpace c) eqn:Hc; [exact IH | exact Hc].
Qed.

(** A trimmed text is empty or starts with a character that is not white
    space. *)
Lemma trim_head (s : string) :
  match trim s with
  | EmptyString => True
  | String c _ => isWhiteSpace c = false
  end.
Proof.
  unfold trim. pose proof (trimStart_head s) as H.
  destruct (trimStart s) as [|c t]; [exact I|].
  rewrite (trimEnd_keeps_head c t H). exact H.
Qed.

Lemma trim_idempotent (s : string) :
  trim (trim s) = trim s.
Proof.
  pose proof (trim_head s) as H. unfold trim at 1.
  destruct (trim s) as [|c t] eqn:Ht; [reflexivity|].
  cbn [trimStart]. rewrite H. rewrite <- Ht. unfold trim. apply trimEnd_idempotent.
Qed.

Lemma trimStart_allWhiteSpace (s : string) :
  allWhiteSpace s = true -> trimStart s = "".
Proof.
  induction s as [|c s IH]; cbn; [reflexivity|].
  intros H. apply andb_true_iff in H as [Hc Hs]. rewrite Hc. exact (IH Hs).
Qed.

Lemma trim_allWhiteSpace (s : string) :
  allWhiteSpace s = true -> trim s = "".
Proof.
  intros H. unfold trim. rewrite (trimStart_allWhiteSpace s H). reflexivity.
Qed.

Lemma trimStart_not_allWhiteSpace (s : string) :
  allWhiteSpace s = false -> trimStart s <> "".
Proof.
  induction s as [|c s IH]; cbn; [discriminate|].
  destruct (isWhiteSpace c); cbn; [exact IH | discriminate].
Qed.

Lemma trim_not_allWhiteSpace (s : string) :
  allWhiteSpace s = false -> trim s <> "".
Proof.
  intros H. unfold trim.
  pose proof (trimStart_head s) as Hh.
  pose proof (trimStart_not_allWhiteSpace s H) as Hne.
  destruct (trimStart s) as [|c t]; [contradiction|].
  rewrite (trimEnd_keeps_head c t Hh). discriminate.
Qed.

(** A text is blank, in the sense of the filters of the code, exactly when
    it consists of white space. *)
Lemma blank_iff_allWhiteSpace (s : string) :
  (0 <? String.length (trim s))%nat = negb (allWhiteSpace s).
Proof.
  destruct (allWhiteSpace s) eqn:H; cbn [negb].
  - rewrite (trim_allWhiteSpace s H). reflexivity.
  - pose proof (trim_not_allWhiteSpace s H) as Hne.
    destruct (trim s); [contradiction | reflexivity].
Qed.

End TrimFacts.

Section ParagraphFacts.

Import DiarizationService.

Lemma splitParagraphs_step (c c' : ascii) (s : string) :
  splitParagraphs (String c (String c' s)) =
  if Ascii.eqb c newline && Ascii.eqb c' newline
  then EmptyString :: splitParagraphs s
  else match splitParagraphs (String c' s) with
       | piece :: pieces => String c piece :: pieces
       | [] => [String c EmptyString]
       end.
Proof.
  reflexivity.
Qed.

Lemma splitParagraphs_allWhiteSpace (s : string) :
  allWhiteSpace s = true ->
  Forall (fun piece => allWhiteSpace piece = true) (splitParagraphs s).
Proof.
  assert (H : forall n s, String.length s <= n -> allWhiteSpace s = true ->
                          Forall (fun piece => allWhiteSpace piece = true)
                                 (splitParagraphs s)).
  { clear s. induction n as [|n IH]; intros s Hlen Hws.
    - destruct s; [repeat constructor | cbn in Hlen; lia].
    - destruct s as [|c [|c' s'']]; [repeat constructor | |].
      + cbn [splitParagraphs]. repeat constructor. exact Hws.
      + rewrite splitParagraphs_step.
        cbn [allWhiteSpace] in Hws. apply andb_true_iff in Hws as [Hc Hws].
        destruct (Ascii.eqb c newline && Ascii.eqb c' newline).
        * constructor; [reflexivity|]. apply IH.
          -- cbn in Hlen. lia.
          -- cbn [allWhiteSpace] in Hws. apply andb_true_iff in Hws. apply Hws.
        * assert (Hrec : Forall (fun piece => allWhiteSpace piece = true)
                                (splitParagraphs (String c' s''))).
          { apply IH; [cbn in Hlen |- *; lia | exact Hws]. }
          destruct (splitParagraphs (String c' s'')) as [|piece pieces].
          -- repeat constructor. cbn [allWhiteSpace]. rewrite Hc. reflexivity.
          -- inversion Hrec as [|? ? Hp Hps]; subst.
             constructor; [|exact Hps]. cbn [allWhiteSpace]. rewrite Hc. exact Hp. }
  exact (H (String.length s) s (le_n _)).
Qed.

Lemma splitParagraphs_some_text (s : string) :
  allWhiteSpace s = false ->
  Exists (fun piece => allWhiteSpace piece = false) (splitParagraphs s).
Proof.
  assert (H : forall n s, String.length s <= n -> allWhiteSpace s = false ->
                          Exists (fun piece => allWhiteSpace piece = false)
                                 (splitParagraphs s)).
  { clear s. induction n as [|n IH]; intros s Hlen Hws.
    - destruct s; [discriminate | cbn in Hlen; lia].
    - destruct s as [|c [|c' s'']]; [discriminate | |].
      + cbn [splitParagraphs]. left. exact Hws.
      + rewrite splitParagraphs_step.
        destruct (Ascii.eqb c newline && Ascii.eqb c' newline) eqn:Hnn.
        * right. apply IH; [cbn in Hlen; lia|].
          apply andb_true_iff in Hnn as [H1 H2].
          apply Ascii.eqb_eq in H1, H2. subst c c'. exact Hws.
        * cbn [allWhiteSpace] in Hws.
          destruct (isWhiteSpace c) eqn:Hc.
          -- cbn [andb] in Hws.
             assert (Hrec : Exists (fun piece => allWhiteSpace piece = false)
                                   (splitParagraphs (String c' s''))).
             { apply IH; [cbn in Hlen |- *; lia | exact Hws]. }
             destruct (splitParagraphs (String c' s'')) as [|piece pieces];
               [inversion Hrec|].
             inversion Hrec as [? ? Hp | ? ? Hps]; subst.
             ++ left. cbn [allWhiteSpace]. rewrite Hc. exact Hp.
             ++ right. exact Hps.
          -- destruct (splitParagraphs (String c' s'')) as [|piece pieces];
               left; cbn [allWhiteSpace]; rewrite Hc; reflexivity. }
  exact (H (String.length s) s (le_n _)).
Qed.

Lemma mapIndexed_length {A B : Type} (f : A -> nat -> B) (start : nat) (xs : list A) :
  List.length (mapIndexed f start xs) = List.length xs.
Proof.
  revert start. induction xs as [|x xs IH]; intros start; cbn; [reflexivity|].
  rewrite IH. reflexivity.
Qed.

End ParagraphFacts.

(** X11.  The segments parsed from a transcript are numbered by position,
    from 0, and every segment text is non-empty and trimmed: trimming it
    again changes nothing and it does not begin with white space. *)
Theorem parsed_segments_are_trimmed_and_numbered :
  forall (transcript : string) (i : nat) (seg : DiarizationService.Segment),
    nth_error (DiarizationService.parseTranscriptSegments transcript) i = Some seg ->
    DiarizationService.index seg = i /\
    DiarizationService.seg_text seg <> "" /\
    trim (DiarizationService.seg_text seg) = DiarizationService.seg_text seg /\
    (exists c rest, DiarizationService.seg_text seg = String c rest /\
                    isWhiteSpace c = false).
Proof.
  intros transcript i seg Hseg.
  split; [exact (parseTranscriptSegments_index transcript i seg Hseg)|].
  unfold DiarizationService.parseTranscriptSegments in Hseg.
  rewrite mapIndexed_nth_error in Hseg.
  destruct (nth_error _ i) as [line|] eqn:Hline; [|discriminate].
  cbn in Hseg. injection Hseg as <-. cbn [DiarizationService.seg_text].
  apply nth_error_In, filter_In in Hline as [_ Hblank].
  pose proof (trim_head line) as Hhead.
  destruct (trim line) as [|c rest] eqn:Ht; [discriminate|].
  split; [discriminate|]. split.
  - rewrite <- Ht. apply trim_idempotent.
  - exists c, rest. split; [reflexivity | exact Hhead].
Qed.

Lemma parsed_segments_are_trimmed_and_numbered_witness :
  DiarizationService.index
    {| DiarizationService.seg_text := "second"; DiarizationService.index := 1 |} = 1 /\
  "second" <> "" /\
  trim "second" = "second" /\
  (exists c rest, "second" = String c rest /\ isWhiteSpace c = false).
Proof.
  exact (parsed_segments_are_trimmed_and_numbered
           ("  first " ++ TranscriptCalls.blankLine ++ TranscriptCalls.blankLine
              ++ " second" ++ String DiarizationService.newline "")
           1
           {| DiarizationService.seg_text := "second"; DiarizationService.index := 1 |}
           eq_refl).
Defined.

(** X12.  [diarizeTranscript] returns no segment exactly for a transcript
    that consists of white space (the empty one included); in general it
    returns one segment per paragraph that is not blank. *)
Theorem diarizeTranscript_empty_iff_blank :
  forall (baseTime : Z) (toLocaleTimeString : Z -> string) (transcript : string),
    (DiarizationService.diarizeTranscript baseTime toLocaleTimeString transcript = []
     <-> allWhiteSpace transcript = true) /\
    List.length (DiarizationService.diarizeTranscript baseTime toLocaleTimeString transcript)
    = List.length (filter (fun paragraph => negb (allWhiteSpace paragraph))
                          (DiarizationService.splitParagraphs transcript)).
Proof.
  intros baseTime fmt transcript.
  assert (Hlen :
    List.length (DiarizationService.diarizeTranscript baseTime fmt transcript)
    = List.length (filter (fun paragraph => negb (allWhiteSpace paragraph))
                          (DiarizationService.splitParagraphs transcript))).
  { unfold DiarizationService.diarizeTranscript, DiarizationService.identifySpeakers,
      DiarizationService.parseTranscriptSegments.
    rewrite length_map, mapIndexed_length. f_equal.
    apply filter_ext. intros line. apply blank_iff_allWhiteSpace. }
  split; [|exact Hlen].
  split.
  - intros Hnil. rewrite Hnil in Hlen. cbn in Hlen.
    destruct (allWhiteSpace transcript) eqn:Hws; [reflexivity|].
    apply splitParagraphs_some_text in Hws.
    apply Exists_exists in Hws as (piece & Hin & Hpiece).
    assert (Hf : In piece (filter (fun paragraph => negb (allWhiteSpace paragraph))
                                  (DiarizationService.splitParagraphs transcript))).
    { apply filter_In. split; [exact Hin|]. rewrite Hpiece. reflexivity. }
    destruct (filter _ _); [contradiction | discriminate].
  - intros Hws. apply length_zero_iff_nil. rewrite Hlen. clear Hlen.
    apply splitParagraphs_allWhiteSpace in Hws.
    induction Hws as [|piece pieces Hp _ IH]; [reflexivity|].
    cbn [filter]. rewrite Hp. exact IH.
Qed.

Section PhraseFacts.

Lemma startsWith_i_spec (p s : string) :
  startsWith_i p s = true <->
  exists mid post, s = mid ++ post /\ toLowerCase mid = toLowerCase p.
Proof.
  revert s. induction p as [|a p IH]; intros s.
  - cbn. split; [|reflexivity]. intros _. exists "", s. split; reflexivity.
  - destruct s as [|b s]; cbn [startsWith_i].
    + split; [discriminate|].
      intros (mid & post & Hs & Hm). destruct mid; cbn in *; discriminate.
    + unfold eqChar_i. rewrite andb_true_iff, Ascii.eqb_eq, IH. split.
      * intros [Hab (mid & post & -> & Hm)].
        exists (String b mid), post. cbn. rewrite Hm, Hab. split; reflexivity.
      * intros (mid & post & Hs & Hm).
        destruct mid as [|c mid]; cbn in Hm; [discriminate|].
        cbn in Hs. injection Hs as <- ->. injection Hm as Hc Hm.
        split; [symmetry; exact Hc|]. exists mid, post. split; [reflexivity | exact Hm].
Qed.

(** The phrase tests of the heuristic look for the phrase anywhere in the
    text, whatever the letter case. *)
Lemma test_i_spec (p s : string) :
  test_i p s = true <->
  exists pre mid post, s = pre ++ mid ++ post /\ toLowerCase mid = toLowerCase p.
Proof.
  induction s as [|c s IH].
  - cbn [test_i]. rewrite orb_false_r, startsWith_i_spec. split.
    + intros (mid & post & Hs & Hm). exists "", mid, post. split; assumption.
    + intros (pre & mid & post & Hs & Hm).
      destruct pre; cbn in Hs; [|discriminate].
      exists mid, post. split; assumption.
  - cbn [test_i]. rewrite orb_true_iff, startsWith_i_spec, IH. split.
    + intros [(mid & post & Hs & Hm) | (pre & mid & post & -> & Hm)].
      * exists "", mid, post. split; assumption.
      * exists (String c pre), mid, post. split; [reflexivity | exact Hm].
    + intros (pre & mid & post & Hs & Hm).
      destruct pre as [|d pre]; cbn in Hs.
      * left. exists mid, post. split; assumption.
      * injection Hs as <- ->. right. exists pre, mid, post. split; [reflexivity | exact Hm].
Qed.

End PhraseFacts.

(** X13.  For a segment without a speaker label, the position plays no
    part once a phrase is found: a text that contains one of the
    service-agent phrases, in any letter case, is given to "Speaker 1" even
    if it also contains a customer phrase; a text that contains a customer
    phrase and no service-agent phrase is given to "Speaker 2".  The text
    is returned unchanged. *)
Theorem phrases_decide_before_position :
  forall (text : string) (index : nat),
    DiarizationService.speakerMatch text = None ->
    ((exists phrase pre mid post,
         In phrase DiarizationService.customerServicePatterns /\
         text = pre ++ mid ++ post /\ toLowerCase mid = toLowerCase phrase) ->
     DiarizationService.determineSpeaker text index =
     {| DiarizationService.info_speaker := "Speaker 1";
        DiarizationService.cleanedText := text |})
    /\
    ((forall phrase pre mid post,
         In phrase DiarizationService.customerServicePatterns ->
         text = pre ++ mid ++ post -> toLowerCase mid <> toLowerCase phrase) ->
     (exists phrase pre mid post,
         In phrase DiarizationService.customerPatterns /\
         text = pre ++ mid ++ post /\ toLowerCase mid = toLowerCase phrase) ->
     DiarizationService.determineSpeaker text index =
     {| DiarizationService.info_speaker := "Speaker 2";
        DiarizationService.cleanedText := text |}).
Proof.
  intros text index Hlabel.
  unfold DiarizationService.determineSpeaker. rewrite Hlabel.
  split.
  - intros (phrase & pre & mid & post & Hin & Htext & Hmid).
    assert (E : existsb (fun pattern => test_i pattern text)
                        DiarizationService.customerServicePatterns = true).
    { apply existsb_exists. exists phrase. split; [exact Hin|].
      apply test_i_spec. exists pre, mid, post. split; assumption. }
    rewrite E. reflexivity.
  - intros Hnone (phrase & pre & mid & post & Hin & Htext & Hmid).
    assert (E1 : existsb (fun pattern => test_i pattern text)
                         DiarizationService.customerServicePatterns = false).
    { apply not_true_is_false. intros H.
      apply existsb_exists in H as (p & Hp & Ht).
      apply test_i_spec in Ht as (pre' & mid' & post' & Ht & Hm).
      exact (Hnone p pre' mid' post' Hp Ht Hm). }
    assert (E2 : existsb (fun pattern => test_i pattern text)
                         DiarizationService.customerPatterns = true).
    { apply existsb_exists. exists phrase. split; [exact Hin|].
      apply test_i_spec. exists pre, mid, post. split; assumption. }
    rewrite E1, E2. reflexivity.
Qed.

Lemma phrases_decide_before_position_witness :
  DiarizationService.determineSpeaker "Well, THANK YOU so much - let me check." 1 =
  {| DiarizationService.info_speaker := "Speaker 1";
     DiarizationService.cleanedText := "Well, THANK YOU so much - let me check." |}.
Proof.
  apply (proj1 (phrases_decide_before_position
                  "Well, THANK YOU so much - let me check." 1 eq_refl)).
  exists "let me check", "Well, THANK YOU so much - ", "let me check", ".".
  split; [cbn; tauto|]. split; reflexivity.
Defined.

(** X14.  When a segment is recognised as labelled, its text has the shape
    label, colon, white space, kept text, remainder, where the label is
    "Speaker " and at least one digit, the kept text is not empty and lies
    on one line, and the remainder is empty or starts at a line break.  The
    speaker returned is the label and the text returned is the kept
    text. *)
Theorem labelled_segment_shape :
  forall (text label kept : string) (index : nat),
    DiarizationService.speakerMatch text = Some (label, kept) ->
    DiarizationService.determineSpeaker text index =
      {| DiarizationService.info_speaker := label;
         DiarizationService.cleanedText := kept |} /\
    exists digits ws remainder,
      text = label ++ ":" ++ ws ++ kept ++ remainder /\
      label = "Speaker " ++ digits /\
      digits <> "" /\ allDigits digits = true /\
      allWhiteSpace ws = true /\
      kept <> "" /\ singleLine kept = true /\
      match remainder with
      | EmptyString => True
      | String c _ => isLineTerminator c = true
      end.
Proof.
  intros text label kept index Hm.
  split.
  - unfold DiarizationService.determineSpeaker. rewrite Hm. reflexivity.
  - apply speakerMatch_Some in Hm as (ds & rest & Htext & Hne & Hd & Hlabel & Hrest).
    apply spacesThenDotPlus_spec in Hrest as (ws & tail & -> & Hws & Hk & Hline & Htail).
    exists ds, ws, tail. subst label.
    split; [|repeat split; assumption].
    rewrite Htext. cbn. reflexivity.
Qed.

Lemma labelled_segment_shape_witness :
  DiarizationService.determineSpeaker
    ("Speaker 2:  Hi there" ++ String DiarizationService.newline "and more") 0 =
  {| DiarizationService.info_speaker := "Speaker 2";
     DiarizationService.cleanedText := "Hi there" |}.
Proof.
  exact (proj1 (labelled_segment_shape
                  ("Speaker 2:  Hi there" ++ String DiarizationService.newline "and more")
                  "Speaker 2" "Hi there" 0 eq_refl)).
Defined.

(** ** More on the fallback summary *)

Section SummaryMore.

Import TranscriptService.

Lemma append_empty_r (s : string) : s ++ "" = s.
Proof.
  induction s as [|c s IH]; cbn; [reflexivity|]. rewrite IH. reflexivity.
Qed.

Lemma split_pieces_plain (s : string) (ps : list string) :
  SplitAtTerminators s ps -> Forall (fun p => noTerminator p = true) ps.
Proof.
  induction 1; constructor; assumption || constructor.
Qed.

Lemma splitSentences_nonempty (s : string) :
  splitSentences s <> [].
Proof.
  pose proof (splitSentences_splits s) as H.
  destruct H; discriminate.
Qed.

(** A stretch without terminators in front of a text joins the first piece
    of that text. *)
Lemma splitSentences_plain_app (p rest : string) :
  noTerminator p = true ->
  splitSentences (p ++ rest) =
  match splitSentences rest with
  | piece :: pieces => (p ++ piece) :: pieces
  | [] => [p]
  end.
Proof.
  induction p as [|c p IH]; intros Hp.
  - cbn [append]. destruct (splitSentences rest) eqn:E; [|reflexivity].
    exfalso. exact (splitSentences_nonempty rest E).
  - cbn [noTerminator] in Hp. apply andb_true_iff in Hp as [Hc Hp].
    apply negb_true_iff in Hc.
    cbn [append splitSentences]. rewrite Hc, (IH Hp).
    destruct (splitSentences rest); reflexivity.
Qed.

(** The pieces of a text made of three plain stretches joined by ". " and
    closed by ".". *)
Lemma splitSentences_of_summary (a b c : string) :
  noTerminator a = true -> noTerminator b = true -> noTerminator c = true ->
  splitSentences (a ++ ". " ++ b ++ ". " ++ c ++ ".") = [a; " " ++ b; " " ++ c; ""].
Proof.
  intros Ha Hb Hc.
  assert (Hsp : forall x, noTerminator x = true -> noTerminator (" " ++ x) = true).
  { intros x Hx. cbn. exact Hx. }
  assert (Hend : splitSentences ((" " ++ c) ++ ".") = [" " ++ c; ""]).
  { rewrite (splitSentences_plain_app (" " ++ c) "." (Hsp c Hc)).
    change (splitSentences ".") with [""; ""]. cbv iota.
    rewrite append_empty_r. reflexivity. }
  assert (Hmid : splitSentences ((" " ++ b) ++ ". " ++ c ++ ".")
                 = [" " ++ b; " " ++ c; ""]).
  { rewrite (splitSentences_plain_app (" " ++ b) (". " ++ c ++ ".") (Hsp b Hb)).
    change (splitSentences (". " ++ c ++ "."))
      with ("" :: splitSentences ((" " ++ c) ++ ".")).
    rewrite Hend, append_empty_r. reflexivity. }
  rewrite (splitSentences_plain_app a (". " ++ b ++ ". " ++ c ++ ".") Ha).
  change (splitSentences (". " ++ b ++ ". " ++ c ++ "."))
    with ("" :: splitSentences ((" " ++ b) ++ ". " ++ c ++ ".")).
  rewrite Hmid, append_empty_r. reflexivity.
Qed.

Lemma sentencesOf_plain (transcript : string) (i : nat) (sentence : string) :
  nth_error (sentencesOf transcript) i = Some sentence ->
  noTerminator sentence = true.
Proof.
  intros H. apply nth_error_In in H. unfold sentencesOf in H.
  apply filter_In in H as [Hin _].
  pose proof (split_pieces_plain _ _ (splitSentences_splits transcript)) as Hall.
  rewrite Forall_forall in Hall. exact (Hall _ Hin).
Qed.

End SummaryMore.

(** X15.  Summarising a summary changes nothing: [generateSummary] is
    idempotent. *)
Theorem generateSummary_idempotent :
  forall transcript : string,
    TranscriptService.generateSummary (TranscriptService.generateSummary transcript)
    = TranscriptService.generateSummary transcript.
Proof.
  assert (Hshort : forall x,
             List.length (TranscriptService.sentencesOf x) <= 3 ->
             TranscriptService.generateSummary x = x).
  { intros x Hx. unfold TranscriptService.generateSummary.
    apply Nat.leb_le in Hx. rewrite Hx. reflexivity. }
  intros transcript.
  remember (TranscriptService.generateSummary transcript) as s eqn:Hs.
  unfold TranscriptService.generateSummary in Hs.
  set (sentences := TranscriptService.sentencesOf transcript) in Hs.
  destruct (List.length sentences <=? 3)%nat eqn:Hn.
  - subst s. apply Hshort. apply Nat.leb_le. exact Hn.
  - apply Nat.leb_gt in Hn.
    assert (Hhalf : List.length sentences / 2 < List.length sentences)
      by (apply Nat.div_lt; lia).
    assert (Hplain : forall i, i < List.length sentences ->
                               TranscriptService.noTerminator (nth i sentences "") = true).
    { intros i Hi. apply (sentencesOf_plain transcript i).
      apply nth_error_nth'. exact Hi. }
    rewrite join_three, !append_assoc in Hs.
    apply Hshort. subst s. unfold TranscriptService.sentencesOf.
    rewrite splitSentences_of_summary;
      [| apply Hplain; lia | apply Hplain; exact Hhalf | apply Hplain; lia].
    cbn [filter].
    change (TranscriptService.nonBlank "") with false. cbv iota.
    destruct (TranscriptService.nonBlank _), (TranscriptService.nonBlank _),
      (TranscriptService.nonBlank _); cbn [List.length]; lia.
Qed.

(** ** More on the upload components *)

Section MessageFacts.

(** The value passed to [setError], read off the two early returns. *)
Lemma validate_message (typeOk extOk tooBig : bool) (e1 e2 : string) :
  snd (if negb typeOk && negb extOk then (false, Some e1)
       else if tooBig then (false, Some e2) else (true, None)) =
  if orb typeOk extOk
  then if tooBig then Some e2 else None
  else Some e1.
Proof.
  destruct typeOk, extOk, tooBig; reflexivity.
Qed.

Lemma orb_false_of_not (a b : bool) (P Q : Prop) :
  (a = true <-> P) -> (b = true <-> Q) -> ~ (P \/ Q) -> orb a b = false.
Proof.
  intros Ha Hb Hn. destruct a, b; cbn; try reflexivity; exfalso; apply Hn;
    first [left; apply Ha; reflexivity | right; apply Hb; reflexivity].
Qed.

Lemma orb_true_of (a b : bool) (P Q : Prop) :
  (a = true <-> P) -> (b = true <-> Q) -> P \/ Q -> orb a b = true.
Proof.
  intros Ha Hb [H|H]; [apply Ha in H | apply Hb in H]; rewrite H;
    [reflexivity | apply orb_true_r].
Qed.

End MessageFacts.

(** X16.  What each uploader reports.  A file whose media type and
    extension are both off the component's lists gets the format message,
    also when it is too big as well; a file of a listed type or extension
    that exceeds 50MB gets the size message; an accepted file clears the
    message.  So the message is cleared exactly when the file is
    accepted. *)
Theorem uploaders_report :
  forall f : File,
    let audioListed :=
      In (type f) AudioUpload.validTypes \/ hasExtensionIn AudioUpload.extensions (name f) in
    let imageListed :=
      In (type f) ImageUpload.validTypes \/ hasExtensionIn ImageUpload.extensions (name f) in
    let documentListed :=
      In (type f) DocumentUpload.validTypes \/
      hasExtensionIn ["pdf"; "doc"; "docx"; "txt"] (name f) in
    let tooBig := (50 * 1024 * 1024 < size f)%N in
    ((~ audioListed ->
      snd (AudioUpload.validateFile f)
      = Some "Please upload a valid audio file (MP3, WAV, M4A, OGG)") /\
     (audioListed -> tooBig ->
      snd (AudioUpload.validateFile f) = Some "File size must be less than 50MB") /\
     (snd (AudioUpload.validateFile f) = None <-> fst (AudioUpload.validateFile f) = true))
    /\
    ((~ imageListed ->
      snd (ImageUpload.validateFile f)
      = Some "Please upload a valid image file (JPG, PNG, GIF, BMP)") /\
     (imageListed -> tooBig ->
      snd (ImageUpload.validateFile f) = Some "File size must be less than 50MB") /\
     (snd (ImageUpload.validateFile f) = None <-> fst (ImageUpload.validateFile f) = true))
    /\
    ((~ documentListed ->
      snd (DocumentUpload.validateFile f)
      = Some "Please upload a valid document file (PDF, DOC, DOCX, TXT)") /\
     (documentListed -> tooBig ->
      snd (DocumentUpload.validateFile f) = Some "File size must be less than 50MB") /\
     (snd (DocumentUpload.validateFile f) = None
      <-> fst (DocumentUpload.validateFile f) = true)).
Proof.
  intros f. cbv zeta.
  assert (Haudio : forall s, testExtension_i AudioUpload.extensions s = true
                             <-> hasExtensionIn AudioUpload.extensions s).
  { intros s. apply testExtension_i_hasExtensionIn. repeat constructor. }
  assert (Himage : forall s, testExtension_i ImageUpload.extensions s = true
                             <-> hasExtensionIn ImageUpload.extensions s).
  { intros s. apply testExtension_i_hasExtensionIn. repeat constructor. }
  split; [|split].
  - unfold AudioUpload.validateFile. rewrite validate_message, validate_shape.
    split; [|split].
    + intros Hn. rewrite (orb_false_of_not _ _ _ _ (includes_spec _ _) (Haudio _) Hn).
      reflexivity.
    + intros Hl Hbig. rewrite (orb_true_of _ _ _ _ (includes_spec _ _) (Haudio _) Hl).
      apply N.ltb_lt in Hbig. unfold AudioUpload.maxSize. rewrite Hbig. reflexivity.
    + destruct (includes _ _), (testExtension_i _ _), (_ <? _)%N; cbn;
        intuition congruence.
  - unfold ImageUpload.validateFile. rewrite validate_message, validate_shape.
    split; [|split].
    + intros Hn. rewrite (orb_false_of_not _ _ _ _ (includes_spec _ _) (Himage _) Hn).
      reflexivity.
    + intros Hl Hbig. rewrite (orb_true_of _ _ _ _ (includes_spec _ _) (Himage _) Hl).
      apply N.ltb_lt in Hbig. unfold ImageUpload.maxSize. rewrite Hbig. reflexivity.
    + destruct (includes _ _), (testExtension_i _ _), (_ <? _)%N; cbn;
        intuition congruence.
  - unfold DocumentUpload.validateFile. cbv zeta.
    rewrite validate_message, validate_shape.
    split; [|split].
    + intros Hn.
      rewrite (orb_false_of_not _ _ _ _ (includes_spec _ _)
                 (document_extension_spec _) Hn).
      reflexivity.
    + intros Hl Hbig.
      rewrite (orb_true_of _ _ _ _ (includes_spec _ _) (document_extension_spec _) Hl).
      apply N.ltb_lt in Hbig. unfold DocumentUpload.maxSize. rewrite Hbig. reflexivity.
    + destruct (includes _ _), (_ || _ || _ || _), (_ <? _)%N; cbn; intuition congruence.
Qed.

Lemma uploaders_report_witness :
  snd (AudioUpload.validateFile
         {| name := "lecture.mp3"; type := "audio/mpeg"; size := 60 * 1024 * 1024 |})
  = Some "File size must be less than 50MB".
Proof.
  refine (proj1 (proj2 (proj1 (uploaders_report
            {| name := "lecture.mp3"; type := "audio/mpeg"; size := 60 * 1024 * 1024 |})))
          _ _).
  - left. cbn. tauto.
  - reflexivity.
Defined.

Section DropFacts.

Variable handleFile : File -> Uploader -> Uploader.
Variable accepts : File -> bool.
Hypothesis handleFile_selected :
  forall f u, selected (handleFile f u) = (selected u ++ if accepts f then [f] else [])%list.

Lemma drops_selected (drops : list (list File)) (z : Zone) :
  selected (uploader (fold_left (fun z files => handleDrop handleFile files z) drops z)) =
  (selected (uploader z) ++ filter accepts (flat_map considered drops))%list.
Proof.
  revert z. induction drops as [|files drops IH]; intros z; cbn [fold_left flat_map].
  - rewrite app_nil_r. reflexivity.
  - rewrite IH. cbn [handleDrop uploader].
    destruct files as [|file rest]; cbn [considered app filter].
    + reflexivity.
    + rewrite handleFile_selected, <- app_assoc.
      destruct (accepts file); reflexivity.
Qed.

End DropFacts.

Lemma handleFile_selected_audio (f : File) (u : Uploader) :
  selected (AudioUpload.handleFile f u) =
  (selected u ++ if fst (AudioUpload.validateFile f) then [f] else [])%list.
Proof.
  unfold AudioUpload.handleFile. destruct (AudioUpload.validateFile f) as [[] e]; cbn;
    [reflexivity | rewrite app_nil_r; reflexivity].
Qed.

Lemma handleFile_selected_image (f : File) (u : Uploader) :
  selected (ImageUpload.handleFile f u) =
  (selected u ++ if fst (ImageUpload.validateFile f) then [f] else [])%list.
Proof.
  unfold ImageUpload.handleFile. destruct (ImageUpload.validateFile f) as [[] e]; cbn;
    [reflexivity | rewrite app_nil_r; reflexivity].
Qed.

Lemma handleFile_selected_document (f : File) (u : Uploader) :
  selected (DocumentUpload.handleFile f u) =
  (selected u ++ if fst (DocumentUpload.validateFile f) then [f] else [])%list.
Proof.
  unfold DocumentUpload.handleFile.
  destruct (DocumentUpload.validateFile f) as [[] e]; cbn;
    [reflexivity | rewrite app_nil_r; reflexivity].
Qed.

(** X17.  Over any series of drops, each uploader hands to [onFileSelect]
    exactly the first file of every drop that validation accepts, in the
    order of the drops: the other files of a drop are never looked at, an
    empty drop does nothing, and a rejected file leaves the earlier
    selections alone. *)
Theorem drops_select_accepted_first_files :
  forall (drops : list (list File)) (z : Zone),
    selected (uploader (fold_left (fun z files => handleDrop AudioUpload.handleFile files z)
                                  drops z)) =
    (selected (uploader z)
     ++ filter (fun f => fst (AudioUpload.validateFile f)) (flat_map considered drops))%list
    /\
    selected (uploader (fold_left (fun z files => handleDrop ImageUpload.handleFile files z)
                                  drops z)) =
    (selected (uploader z)
     ++ filter (fun f => fst (ImageUpload.validateFile f)) (flat_map considered drops))%list
    /\
    selected (uploader (fold_left (fun z files => handleDrop DocumentUpload.handleFile files z)
                                  drops z)) =
    (selected (uploader z)
     ++ filter (fun f => fst (DocumentUpload.validateFile f))
               (flat_map considered drops))%list.
Proof.
  intros drops z. repeat split.
  - apply drops_selected. exact handleFile_selected_audio.
  - apply drops_selected. exact handleFile_selected_image.
  - apply drops_selected. exact handleFile_selected_document.
Qed.

Section CaseFacts.

Lemma testExtension_i_lower (alts : list string) (s s' : string) :
  toLowerCase s = toLowerCase s' ->
  testExtension_i alts s = true -> testExtension_i alts s' = true.
Proof.
  intros Heq H. apply testExtension_i_spec in H as (stem & ext & a & -> & Hin & Ha).
  apply testExtension_i_spec.
  rewrite toLowerCase_app in Heq. symmetry in Heq.
  destruct (toLowerCase_split _ _ _ Heq) as (stem' & tail & -> & _ & Htail).
  destruct tail as [|c ext']; cbn in Htail; [discriminate|].
  injection Htail as Hc He. apply lowerChar_dot in Hc. subst c.
  exists stem', ext', a. split; [reflexivity|]. split; [exact Hin|].
  rewrite Ha, He. reflexivity.
Qed.

Lemma testExtension_i_case (alts : list string) (s s' : string) :
  toLowerCase s = toLowerCase s' ->
  testExtension_i alts s = testExtension_i alts s'.
Proof.
  intros Heq.
  destruct (testExtension_i alts s) eqn:H1, (testExtension_i alts s') eqn:H2;
    try reflexivity.
  - rewrite (testExtension_i_lower alts s s' Heq H1) in H2. discriminate.
  - rewrite (testExtension_i_lower alts s' s (eq_sym Heq) H2) in H1. discriminate.
Qed.

End CaseFacts.

(** X18.  Validation does not look at the letter case of the file name:
    two files with the same media type and size whose names differ only in
    letter case get the same verdict and the same message from each
    uploader. *)
Theorem validation_ignores_name_case :
  forall f g : File,
    type f = type g -> size f = size g ->
    toLowerCase (name f) = toLowerCase (name g) ->
    AudioUpload.validateFile f = AudioUpload.validateFile g /\
    ImageUpload.validateFile f = ImageUpload.validateFile g /\
    DocumentUpload.validateFile f = DocumentUpload.validateFile g.
Proof.
  intros f g Htype Hsize Hname.
  unfold AudioUpload.validateFile, ImageUpload.validateFile, DocumentUpload.validateFile.
  cbv zeta.
  rewrite Htype, Hsize, Hname,
    (testExtension_i_case AudioUpload.extensions _ _ Hname),
    (testExtension_i_case ImageUpload.extensions _ _ Hname).
  repeat split.
Qed.

Lemma validation_ignores_name_case_witness :
  AudioUpload.validateFile {| name := "Call.MP3"; type := ""; size := 2048 |}
  = AudioUpload.validateFile {| name := "call.mp3"; type := ""; size := 2048 |}.
Proof.
  exact (proj1 (validation_ignores_name_case
                  {| name := "Call.MP3"; type := ""; size := 2048 |}
                  {| name := "call.mp3"; type := ""; size := 2048 |}
                  eq_refl eq_refl eq_refl)).
Defined.

(** ** More on the inline poll loops *)

Section ImageAnalysisLoopFacts.

Context {Res : Type}.
Variable backend : Backend StatusData Res.
Variable job : string.

Abbreviation ImageAnalysisMachine := (Machine (ImageAnalysis.View Res)).

(** A pass on a job in progress: one request, the progress shown, two
    seconds of sleep. *)
Lemma ImageAnalysis_pass_in_progress (m : ImageAnalysisMachine) (sd : StatusData) :
  answers backend (statusCalls m) sd ->
  inProgress sd = true ->
  ImageAnalysis.pollBody backend job m =
  (inr Again,
   {| statusCalls := S (statusCalls m);
      resultCalls := resultCalls m;
      trace := (trace m ++ [GetStatus job]) ++ [Delay 2000];
      user := {| ImageAnalysis.progress := sd_progress sd;
                 ImageAnalysis.result := ImageAnalysis.result (user m);
                 ImageAnalysis.activeTab := ImageAnalysis.activeTab (user m) |} |}).
Proof.
  intros (r & Hr & Hb) Hp.
  unfold inProgress in Hp. apply andb_true_iff in Hp as [Hc Hf].
  apply negb_true_iff in Hc, Hf.
  cbv beta iota zeta delta [ImageAnalysis.pollBody bind fetchStatus json ImageAnalysis.setProgress modify
                       delay emit ret throw].
  rewrite Hr. cbv beta iota zeta. rewrite Hb. cbv beta iota zeta.
  cbn [sd_status statusCalls resultCalls trace user].
  rewrite Hc, Hf. reflexivity.
Qed.

(** Every pass asks the status endpoint once; it asks the result endpoint
    at most once, and only when it leaves the loop; it sleeps two seconds
    exactly when the loop goes on.  A pass that breaks has stored a result
    and selected the first tab; a pass that throws or goes on has left
    both alone. *)
Lemma ImageAnalysis_pass_budget (m : ImageAnalysisMachine) :
  let out := ImageAnalysis.pollBody backend job m in
  statusCalls (snd out) = S (statusCalls m) /\
  statusRequests (trace (snd out)) = S (statusRequests (trace m)) /\
  match fst out with
  | inr Again =>
      resultCalls (snd out) = resultCalls m /\
      totalDelay (trace (snd out)) = (totalDelay (trace m) + 2000)%Z /\
      ImageAnalysis.result (user (snd out)) = ImageAnalysis.result (user m) /\
      ImageAnalysis.activeTab (user (snd out)) = ImageAnalysis.activeTab (user m)
  | inr Break =>
      resultCalls (snd out) = S (resultCalls m) /\
      totalDelay (trace (snd out)) = totalDelay (trace m) /\
      (exists res, resultAnswers backend (resultCalls m) res /\
                   ImageAnalysis.result (user (snd out)) = Some res) /\
      ImageAnalysis.activeTab (user (snd out)) = 0
  | inl _ =>
      resultCalls (snd out) <= S (resultCalls m) /\
      totalDelay (trace (snd out)) = totalDelay (trace m) /\
      ImageAnalysis.result (user (snd out)) = ImageAnalysis.result (user m) /\
      ImageAnalysis.activeTab (user (snd out)) = ImageAnalysis.activeTab (user m)
  end.
Proof.
  cbv zeta.
  cbv beta iota zeta delta [ImageAnalysis.pollBody bind fetchStatus fetchResult json ImageAnalysis.setProgress
                       ImageAnalysis.setResult ImageAnalysis.setActiveTab modify delay emit ret throw].
  destruct (statusEndpoint backend (statusCalls m)) as [e|r]; cbv beta iota zeta;
    cbn [fst snd statusCalls resultCalls trace user];
    rewrite ?statusRequests_append, ?totalDelay_app;
    cbn [statusRequests totalDelay];
    [repeat split; first [lia | reflexivity]|].
  destruct (body r) as [e|sd]; cbv beta iota zeta;
    cbn [fst snd statusCalls resultCalls trace user];
    rewrite ?statusRequests_append, ?totalDelay_app;
    cbn [statusRequests totalDelay];
    [repeat split; first [lia | reflexivity]|].
  destruct (sd_status sd =? "completed"); cbv beta iota zeta;
    cbn [fst snd statusCalls resultCalls trace user].
  - destruct (resultEndpoint backend (resultCalls m)) as [e|rr] eqn:Hfetch; cbv beta iota zeta;
      cbn [fst snd statusCalls resultCalls trace user
           ImageAnalysis.result ImageAnalysis.activeTab ImageAnalysis.progress];
      rewrite ?statusRequests_append, ?totalDelay_app;
      cbn [statusRequests totalDelay];
      [repeat split; first [lia | reflexivity]|].
    destruct (body rr) as [e|res] eqn:Hbody; cbv beta iota zeta;
      cbn [fst snd statusCalls resultCalls trace user
           ImageAnalysis.result ImageAnalysis.activeTab ImageAnalysis.progress];
      rewrite ?statusRequests_append, ?totalDelay_app;
      cbn [statusRequests totalDelay];
      [repeat split; first [lia | reflexivity]|].
    repeat split; try lia.
    exists res. split; [|reflexivity]. exists rr. split; assumption.
  - destruct (sd_status sd =? "failed"); cbv beta iota zeta;
      cbn [fst snd statusCalls resultCalls trace user
           ImageAnalysis.result ImageAnalysis.activeTab ImageAnalysis.progress];
      rewrite ?statusRequests_append, ?totalDelay_app;
      cbn [statusRequests totalDelay];
      repeat split; first [lia | reflexivity].
Qed.

(** While the job is reported in progress the loop goes on, one request and
    two seconds per pass. *)
Lemma ImageAnalysis_loop_skips (k passes : nat) (m : ImageAnalysisMachine) :
  (forall i, i < k ->
             exists sd, answers backend (statusCalls m + i) sd /\ inProgress sd = true) ->
  exists m',
    ImageAnalysis.pollLoop backend (k + passes) job m = ImageAnalysis.pollLoop backend passes job m' /\
    statusCalls m' = statusCalls m + k /\
    resultCalls m' = resultCalls m /\
    totalDelay (trace m') = (totalDelay (trace m) + 2000 * Z.of_nat k)%Z /\
    ImageAnalysis.result (user m') = ImageAnalysis.result (user m) /\
    ImageAnalysis.activeTab (user m') = ImageAnalysis.activeTab (user m).
Proof.
  revert m. induction k as [|k IH]; intros m Hall.
  - exists m. rewrite Nat.add_0_r. repeat split. lia.
  - destruct (Hall 0) as (sd & Hans & Hp); [lia|]. rewrite Nat.add_0_r in Hans.
    cbn [Nat.add ImageAnalysis.pollLoop].
    rewrite (ImageAnalysis_pass_in_progress m sd Hans Hp).
    match goal with
    | |- context [ImageAnalysis.pollLoop backend (k + passes) job ?m1] =>
        destruct (IH m1) as (m' & Hrun & Hs & Hr & Hd & Hres & Htab)
    end.
    + intros i Hi. cbn [statusCalls].
      destruct (Hall (S i)) as (sd' & Hans' & Hp'); [lia|].
      exists sd'. replace (S (statusCalls m) + i) with (statusCalls m + S i) by lia.
      split; assumption.
    + exists m'. rewrite Hrun.
      cbn [statusCalls resultCalls trace user ImageAnalysis.result ImageAnalysis.activeTab] in *.
      rewrite !totalDelay_app in Hd. cbn [totalDelay] in Hd.
      repeat split; try lia; assumption.
Qed.

(** What holds whenever the loop has been left. *)
Lemma ImageAnalysis_loop_left (passes : nat) (m m' : ImageAnalysisMachine) (c : JsError + unit) :
  ImageAnalysis.pollLoop backend passes job m = Left c m' ->
  statusCalls m < statusCalls m' /\
  statusRequests (trace m') + statusCalls m = statusRequests (trace m) + statusCalls m' /\
  totalDelay (trace m') =
    (totalDelay (trace m) + 2000 * (Z.of_nat (statusCalls m') - Z.of_nat (statusCalls m) - 1))%Z /\
  match c with
  | inr _ =>
      resultCalls m' = S (resultCalls m) /\
      (exists res, resultAnswers backend (resultCalls m) res /\
                   ImageAnalysis.result (user m') = Some res) /\
      ImageAnalysis.activeTab (user m') = 0
  | inl _ =>
      resultCalls m' <= S (resultCalls m) /\
      ImageAnalysis.result (user m') = ImageAnalysis.result (user m) /\
      ImageAnalysis.activeTab (user m') = ImageAnalysis.activeTab (user m)
  end.
Proof.
  revert m. induction passes as [|passes IH]; intros m Hrun; cbn [ImageAnalysis.pollLoop] in Hrun;
    [discriminate|].
  pose proof (ImageAnalysis_pass_budget m) as Hpass. cbv zeta in Hpass.
  destruct (ImageAnalysis.pollBody backend job m) as [[e|[|]] m1]; cbn [fst snd] in Hpass.
  - injection Hrun as <- <-.
    destruct Hpass as (Hs & Hq & Hr & Hd & Hres & Htab).
    repeat split; try lia; assumption.
  - injection Hrun as <- <-.
    destruct Hpass as (Hs & Hq & Hr & Hd & Hres & Htab).
    repeat split; try lia; assumption.
  - destruct Hpass as (Hs & Hq & Hr & Hd & Hres & Htab).
    apply IH in Hrun as (Is & Iq & Id & Ic).
    split; [lia|]. split; [lia|]. split; [lia|].
    destruct c as [e|u].
    + destruct Ic as (Ir & Ires & Itab). repeat split; try lia; congruence.
    + destruct Ic as (Ir & (res & Hans & Ires) & Itab).
      split; [lia|]. split; [|exact Itab].
      exists res. rewrite <- Hr. split; assumption.
Qed.

(** A lost status request ends the pass with that error, before anything
    else is done. *)
Lemma ImageAnalysis_pass_lost (m : ImageAnalysisMachine) (e : JsError) :
  statusLost backend (statusCalls m) e ->
  ImageAnalysis.pollBody backend job m =
  (inl e,
   {| statusCalls := S (statusCalls m);
      resultCalls := resultCalls m;
      trace := trace m ++ [GetStatus job];
      user := user m |}).
Proof.
  intros [Hr | (r & Hr & Hb)];
    cbv beta iota zeta delta [ImageAnalysis.pollBody bind fetchStatus json ret throw];
    rewrite Hr; cbv beta iota zeta; [reflexivity|].
  rewrite Hb. reflexivity.
Qed.

(** A job reported failed ends the pass with the backend's message. *)
Lemma ImageAnalysis_pass_failed (m : ImageAnalysisMachine) (sd : StatusData) :
  answers backend (statusCalls m) sd ->
  sd_status sd = "failed" ->
  ImageAnalysis.pollBody backend job m =
  (inl (Error (sd_message sd)),
   {| statusCalls := S (statusCalls m);
      resultCalls := resultCalls m;
      trace := trace m ++ [GetStatus job];
      user := {| ImageAnalysis.progress := sd_progress sd;
                 ImageAnalysis.result := ImageAnalysis.result (user m);
                 ImageAnalysis.activeTab := ImageAnalysis.activeTab (user m) |} |}).
Proof.
  intros (r & Hr & Hb) Hf.
  cbv beta iota zeta delta [ImageAnalysis.pollBody bind fetchStatus json ImageAnalysis.setProgress modify
                            ret throw].
  rewrite Hr. cbv beta iota zeta. rewrite Hb. cbv beta iota zeta. rewrite Hf.
  reflexivity.
Qed.

(** A job reported completed ends the pass with the body of the result
    request stored and the first tab selected. *)
Lemma ImageAnalysis_pass_completed (m : ImageAnalysisMachine) (sd : StatusData) (res : Res) :
  answers backend (statusCalls m) sd ->
  sd_status sd = "completed" ->
  resultAnswers backend (resultCalls m) res ->
  ImageAnalysis.pollBody backend job m =
  (inr Break,
   {| statusCalls := S (statusCalls m);
      resultCalls := S (resultCalls m);
      trace := (trace m ++ [GetStatus job]) ++ [GetResult job];
      user := {| ImageAnalysis.progress := sd_progress sd;
                 ImageAnalysis.result := Some res;
                 ImageAnalysis.activeTab := 0 |} |}).
Proof.
  intros (r & Hr & Hb) Hc (rr & Hrr & Hrb).
  cbv beta iota zeta delta [ImageAnalysis.pollBody bind fetchStatus fetchResult json
                            ImageAnalysis.setProgress ImageAnalysis.setResult ImageAnalysis.setActiveTab modify
                            ret throw].
  rewrite Hr. cbv beta iota zeta. rewrite Hb. cbv beta iota zeta.
  rewrite Hc, String.eqb_refl. cbv beta iota zeta.
  cbn [statusCalls resultCalls trace user].
  rewrite Hrr. cbv beta iota zeta. rewrite Hrb. reflexivity.
Qed.

End ImageAnalysisLoopFacts.

Section DocumentSummarizationLoopFacts.

Context {Res : Type}.
Variable backend : Backend StatusData Res.
Variable job : string.

Abbreviation DocumentSummarizationMachine := (Machine (DocumentSummarization.View Res)).

(** A pass on a job in progress: one request, the progress shown, two
    seconds of sleep. *)
Lemma DocumentSummarization_pass_in_progress (m : DocumentSummarizationMachine) (sd : StatusData) :
  answers backend (statusCalls m) sd ->
  inProgress sd = true ->
  DocumentSummarization.pollBody backend job m =
  (inr Again,
   {| statusCalls := S (statusCalls m);
      resultCalls := resultCalls m;
      trace := (trace m ++ [GetStatus job]) ++ [Delay 2000];
      user := {| DocumentSummarization.progress := sd_progress sd;
                 DocumentSummarization.result := DocumentSummarization.result (user m);
                 DocumentSummarization.activeTab := DocumentSummarization.activeTab (user m) |} |}).
Proof.
  intros (r & Hr & Hb) Hp.
  unfold inProgress in Hp. apply andb_true_iff in Hp as [Hc Hf].
  apply negb_true_iff in Hc, Hf.
  cbv beta iota zeta delta [DocumentSummarization.pollBody bind fetchStatus json DocumentSummarization.setProgress modify
                       delay emit ret throw].
  rewrite Hr. cbv beta iota zeta. rewrite Hb. cbv beta iota zeta.
  cbn [sd_status statusCalls resultCalls trace user].
  rewrite Hc, Hf. reflexivity.
Qed.

(** Every pass asks the status endpoint once; it asks the result endpoint
    at most once, and only when it leaves the loop; it sleeps two seconds
    exactly when the loop goes on.  A pass that breaks has stored a result
    and selected the first tab; a pass that throws or goes on has left
    both alone. *)
Lemma DocumentSummarization_pass_budget (m : DocumentSummarizationMachine) :
  let out := DocumentSummarization.pollBody backend job m in
  statusCalls (snd out) = S (statusCalls m) /\
  statusRequests (trace (snd out)) = S (statusRequests (trace m)) /\
  match fst out with
  | inr Again =>
      resultCalls (snd out) = resultCalls m /\
      totalDelay (trace (snd out)) = (totalDelay (trace m) + 2000)%Z /\
      DocumentSummarization.result (user (snd out)) = DocumentSummarization.result (user m) /\
      DocumentSummarization.activeTab (user (snd out)) = DocumentSummarization.activeTab (user m)
  | inr Break =>
      resultCalls (snd out) = S (resultCalls m) /\
      totalDelay (trace (snd out)) = totalDelay (trace m) /\
      (exists res, resultAnswers backend (resultCalls m) res /\
                   DocumentSummarization.result (user (snd out)) = Some res) /\
      DocumentSummarization.activeTab (user (snd out)) = 0
  | inl _ =>
      resultCalls (snd out) <= S (resultCalls m) /\
      totalDelay (trace (snd out)) = totalDelay (trace m) /\
      DocumentSummarization.result (user (snd out)) = DocumentSummarization.result (user m) /\
      DocumentSummarization.activeTab (user (snd out)) = DocumentSummarization.activeTab (user m)
  end.
Proof.
  cbv zeta.
  cbv beta iota zeta delta [DocumentSummarization.pollBody bind fetchStatus fetchResult json DocumentSummarization.setProgress
                       DocumentSummarization.setResult DocumentSummarization.setActiveTab modify delay emit ret throw].
  destruct (statusEndpoint backend (statusCalls m)) as [e|r]; cbv beta iota zeta;
    cbn [fst snd statusCalls resultCalls trace user];
    rewrite ?statusRequests_append, ?totalDelay_app;
    cbn [statusRequests totalDelay];
    [repeat split; first [lia | reflexivity]|].
  destruct (body r) as [e|sd]; cbv beta iota zeta;
    cbn [fst snd statusCalls resultCalls trace user];
    rewrite ?statusRequests_append, ?totalDelay_app;
    cbn [statusRequests totalDelay];
    [repeat split; first [lia | reflexivity]|].
  destruct (sd_status sd =? "completed"); cbv beta iota zeta;
    cbn [fst snd statusCalls resultCalls trace user].
  - destruct (resultEndpoint backend (resultCalls m)) as [e|rr] eqn:Hfetch; cbv beta iota zeta;
      cbn [fst snd statusCalls resultCalls trace user
           DocumentSummarization.result DocumentSummarization.activeTab DocumentSummarization.progress];
      rewrite ?statusRequests_append, ?totalDelay_app;
      cbn [statusRequests totalDelay];
      [repeat split; first [lia | reflexivity]|].
    destruct (body rr) as [e|res] eqn:Hbody; cbv beta iota zeta;
      cbn [fst snd statusCalls resultCalls trace user
           DocumentSummarization.result DocumentSummarization.activeTab DocumentSummarization.progress];
      rewrite ?statusRequests_append, ?totalDelay_app;
      cbn [statusRequests totalDelay];
      [repeat split; first [lia | reflexivity]|].
    repeat split; try lia.
    exists res. split; [|reflexivity]. exists rr. split; assumption.
  - destruct (sd_status sd =? "failed"); cbv beta iota zeta;
      cbn [fst snd statusCalls resultCalls trace user
           DocumentSummarization.result DocumentSummarization.activeTab DocumentSummarization.progress];
      rewrite ?statusRequests_append, ?totalDelay_app;
      cbn [statusRequests totalDelay];
      repeat split; first [lia | reflexivity].
Qed.

(** While the job is reported in progress the loop goes on, one request and
    two seconds per pass. *)
Lemma DocumentSummarization_loop_skips (k passes : nat) (m : DocumentSummarizationMachine) :
  (forall i, i < k ->
             exists sd, answers backend (statusCalls m + i) sd /\ inProgress sd = true) ->
  exists m',
    DocumentSummarization.pollLoop backend (k + passes) job m = DocumentSummarization.pollLoop backend passes job m' /\
    statusCalls m' = statusCalls m + k /\
    resultCalls m' = resultCalls m /\
    totalDelay (trace m') = (totalDelay (trace m) + 2000 * Z.of_nat k)%Z /\
    DocumentSummarization.result (user m') = DocumentSummarization.result (user m) /\
    DocumentSummarization.activeTab (user m') = DocumentSummarization.activeTab (user m).
Proof.
  revert m. induction k as [|k IH]; intros m Hall.
  - exists m. rewrite Nat.add_0_r. repeat split. lia.
  - destruct (Hall 0) as (sd & Hans & Hp); [lia|]. rewrite Nat.add_0_r in Hans.
    cbn [Nat.add DocumentSummarization.pollLoop].
    rewrite (DocumentSummarization_pass_in_progress m sd Hans Hp).
    match goal with
    | |- context [DocumentSummarization.pollLoop backend (k + passes) job ?m1] =>
        destruct (IH m1) as (m' & Hrun & Hs & Hr & Hd & Hres & Htab)
    end.
    + intros i Hi. cbn [statusCalls].
      destruct (Hall (S i)) as (sd' & Hans' & Hp'); [lia|].
      exists sd'. replace (S (statusCalls m) + i) with (statusCalls m + S i) by lia.
      split; assumption.
    + exists m'. rewrite Hrun.
      cbn [statusCalls resultCalls trace user DocumentSummarization.result DocumentSummarization.activeTab] in *.
      rewrite !totalDelay_app in Hd. cbn [totalDelay] in Hd.
      repeat split; try lia; assumption.
Qed.

(** What holds whenever the loop has been left. *)
Lemma DocumentSummarization_loop_left (passes : nat) (m m' : DocumentSummarizationMachine) (c : JsError + unit) :
  DocumentSummarization.pollLoop backend passes job m = Left c m' ->
  statusCalls m < statusCalls m' /\
  statusRequests (trace m') + statusCalls m = statusRequests (trace m) + statusCalls m' /\
  totalDelay (trace m') =
    (totalDelay (trace m) + 2000 * (Z.of_nat (statusCalls m') - Z.of_nat (statusCalls m) - 1))%Z /\
  match c with
  | inr _ =>
      resultCalls m' = S (resultCalls m) /\
      (exists res, resultAnswers backend (resultCalls m) res /\
                   DocumentSummarization.result (user m') = Some res) /\
      DocumentSummarization.activeTab (user m') = 0
  | inl _ =>
      resultCalls m' <= S (resultCalls m) /\
      DocumentSummarization.result (user m') = DocumentSummarization.result (user m) /\
      DocumentSummarization.activeTab (user m') = DocumentSummarization.activeTab (user m)
  end.
Proof.
  revert m. induction passes as [|passes IH]; intros m Hrun; cbn [DocumentSummarization.pollLoop] in Hrun;
    [discriminate|].
  pose proof (DocumentSummarization_pass_budget m) as Hpass. cbv zeta in Hpass.
  destruct (DocumentSummarization.pollBody backend job m) as [[e|[|]] m1]; cbn [fst snd] in Hpass.
  - injection Hrun as <- <-.
    destruct Hpass as (Hs & Hq & Hr & Hd & Hres & Htab).
    repeat split; try lia; assumption.
  - injection Hrun as <- <-.
    destruct Hpass as (Hs & Hq & Hr & Hd & Hres & Htab).
    repeat split; try lia; assumption.
  - destruct Hpass as (Hs & Hq & Hr & Hd & Hres & Htab).
    apply IH in Hrun as (Is & Iq & Id & Ic).
    split; [lia|]. split; [lia|]. split; [lia|].
    destruct c as [e|u].
    + destruct Ic as (Ir & Ires & Itab). repeat split; try lia; congruence.
    + destruct Ic as (Ir & (res & Hans & Ires) & Itab).
      split; [lia|]. split; [|exact Itab].
      exists res. rewrite <- Hr. split; assumption.
Qed.

(** A lost status request ends the pass with that error, before anything
    else is done. *)
Lemma DocumentSummarization_pass_lost (m : DocumentSummarizationMachine) (e : JsError) :
  statusLost backend (statusCalls m) e ->
  DocumentSummarization.pollBody backend job m =
  (inl e,
   {| statusCalls := S (statusCalls m);
      resultCalls := resultCalls m;
      trace := trace m ++ [GetStatus job];
      user := user m |}).
Proof.
  intros [Hr | (r & Hr & Hb)];
    cbv beta iota zeta delta [DocumentSummarization.pollBody bind fetchStatus json ret throw];
    rewrite Hr; cbv beta iota zeta; [reflexivity|].
  rewrite Hb. reflexivity.
Qed.

(** A job reported failed ends the pass with the backend's message. *)
Lemma DocumentSummarization_pass_failed (m : DocumentSummarizationMachine) (sd : StatusData) :
  answers backend (statusCalls m) sd ->
  sd_status sd = "failed" ->
  DocumentSummarization.pollBody backend job m =
  (inl (Error (sd_message sd)),
   {| statusCalls := S (statusCalls m);
      resultCalls := resultCalls m;
      trace := trace m ++ [GetStatus job];
      user := {| DocumentSummarization.progress := sd_progress sd;
                 DocumentSummarization.result := DocumentSummarization.result (user m);
                 DocumentSummarization.activeTab := DocumentSummarization.activeTab (user m) |} |}).
Proof.
  intros (r & Hr & Hb) Hf.
  cbv beta iota zeta delta [DocumentSummarization.pollBody bind fetchStatus json DocumentSummarization.setProgress modify
                            ret throw].
  rewrite Hr. cbv beta iota zeta. rewrite Hb. cbv beta iota zeta. rewrite Hf.
  reflexivity.
Qed.

(** A job reported completed ends the pass with the body of the result
    request stored and the first tab selected. *)
Lemma DocumentSummarization_pass_completed (m : DocumentSummarizationMachine) (sd : StatusData) (res : Res) :
  answers backend (statusCalls m) sd ->
  sd_status sd = "completed" ->
  resultAnswers backend (resultCalls m) res ->
  DocumentSummarization.pollBody backend job m =
  (inr Break,
   {| statusCalls := S (statusCalls m);
      resultCalls := S (resultCalls m);
      trace := (trace m ++ [GetStatus job]) ++ [GetResult job];
      user := {| DocumentSummarization.progress := sd_progress sd;
                 DocumentSummarization.result := Some res;
                 DocumentSummarization.activeTab := 0 |} |}).
Proof.
  intros (r & Hr & Hb) Hc (rr & Hrr & Hrb).
  cbv beta iota zeta delta [DocumentSummarization.pollBody bind fetchStatus fetchResult json
                            DocumentSummarization.setProgress DocumentSummarization.setResult DocumentSummarization.setActiveTab modify
                            ret throw].
  rewrite Hr. cbv beta iota zeta. rewrite Hb. cbv beta iota zeta.
  rewrite Hc, String.eqb_refl. cbv beta iota zeta.
  cbn [statusCalls resultCalls trace user].
  rewrite Hrr. cbv beta iota zeta. rewrite Hrb. reflexivity.
Qed.

End DocumentSummarizationLoopFacts.

(** X19.  The poll loops of the image and document skills never retry: when
    a status request is lost after [k] polls that found the job in
    progress, the loop is left with that error on request [k + 1], having
    slept two seconds per earlier poll and asked for no result. *)
Theorem inline_loops_never_retry :
  forall (Res : Type) (backend : Backend StatusData Res) (job : string)
         (k passes : nat) (e : JsError)
         (image : ImageAnalysis.View Res) (document : DocumentSummarization.View Res),
    (forall i, i < k -> exists sd, answers backend i sd /\ inProgress sd = true) ->
    statusLost backend k e ->
    (exists m,
        ImageAnalysis.pollLoop backend (k + S passes) job (start image) = Left (inl e) m /\
        statusCalls m = S k /\ resultCalls m = 0 /\
        totalDelay (trace m) = (2000 * Z.of_nat k)%Z) /\
    (exists m,
        DocumentSummarization.pollLoop backend (k + S passes) job (start document)
        = Left (inl e) m /\
        statusCalls m = S k /\ resultCalls m = 0 /\
        totalDelay (trace m) = (2000 * Z.of_nat k)%Z).
Proof.
  intros Res backend job k passes e image document Hall Hlost. split.
  - destruct (ImageAnalysis_loop_skips backend job k (S passes) (start image))
      as (m1 & Hrun & Hs & Hr & Hd & _); [exact Hall|].
    rewrite Hrun. cbn [ImageAnalysis.pollLoop].
    cbn [start statusCalls resultCalls trace totalDelay] in Hs, Hr, Hd.
    rewrite (ImageAnalysis_pass_lost backend job m1 e); [|rewrite Hs; exact Hlost].
    eexists. split; [reflexivity|]. cbn [statusCalls resultCalls trace].
    rewrite totalDelay_app. cbn [totalDelay]. repeat split; lia.
  - destruct (DocumentSummarization_loop_skips backend job k (S passes) (start document))
      as (m1 & Hrun & Hs & Hr & Hd & _); [exact Hall|].
    rewrite Hrun. cbn [DocumentSummarization.pollLoop].
    cbn [start statusCalls resultCalls trace totalDelay] in Hs, Hr, Hd.
    rewrite (DocumentSummarization_pass_lost backend job m1 e); [|rewrite Hs; exact Hlost].
    eexists. split; [reflexivity|]. cbn [statusCalls resultCalls trace].
    rewrite totalDelay_app. cbn [totalDelay]. repeat split; lia.
Qed.

Lemma inline_loops_never_retry_witness :
  exists m,
    ImageAnalysis.pollLoop Scenario3.dropsLate 5 "job-7" (start Scenario3.blankImage)
    = Left (inl (Error "Failed to fetch")) m /\
    statusCalls m = 3 /\ resultCalls m = 0 /\ totalDelay (trace m) = 4000%Z.
Proof.
  refine (proj1 (inline_loops_never_retry string Scenario3.dropsLate "job-7" 2 2
                   (Error "Failed to fetch") Scenario3.blankImage Scenario3.blankDocument
                   _ _)).
  - intros i Hi. destruct i as [|[|i]]; [| | lia];
      (eexists; split; [eexists; split; reflexivity | reflexivity]).
  - left. reflexivity.
Defined.

(** X20.  When the job is reported failed after [k] polls in progress, the
    poll loops of the image and document skills are left with an error
    whose message is the backend's message, word for word, on request
    [k + 1]; the stored result and the selected tab are untouched. *)
Theorem inline_loops_report_backend_message :
  forall (Res : Type) (backend : Backend StatusData Res) (job : string)
         (k passes : nat) (sd : StatusData)
         (image : ImageAnalysis.View Res) (document : DocumentSummarization.View Res),
    (forall i, i < k -> exists sd', answers backend i sd' /\ inProgress sd' = true) ->
    answers backend k sd ->
    sd_status sd = "failed" ->
    (exists m,
        ImageAnalysis.pollLoop backend (k + S passes) job (start image)
        = Left (inl (Error (sd_message sd))) m /\
        statusCalls m = S k /\ resultCalls m = 0 /\
        ImageAnalysis.result (user m) = ImageAnalysis.result image /\
        ImageAnalysis.activeTab (user m) = ImageAnalysis.activeTab image) /\
    (exists m,
        DocumentSummarization.pollLoop backend (k + S passes) job (start document)
        = Left (inl (Error (sd_message sd))) m /\
        statusCalls m = S k /\ resultCalls m = 0 /\
        DocumentSummarization.result (user m) = DocumentSummarization.result document /\
        DocumentSummarization.activeTab (user m)
        = DocumentSummarization.activeTab document).
Proof.
  intros Res backend job k passes sd image document Hall Hans Hf. split.
  - destruct (ImageAnalysis_loop_skips backend job k (S passes) (start image))
      as (m1 & Hrun & Hs & Hr & _ & Hres & Htab); [exact Hall|].
    rewrite Hrun. cbn [ImageAnalysis.pollLoop].
    cbn [start statusCalls resultCalls user] in Hs, Hr, Hres, Htab.
    rewrite (ImageAnalysis_pass_failed backend job m1 sd); [|rewrite Hs; exact Hans | exact Hf].
    eexists. split; [reflexivity|].
    cbn [statusCalls resultCalls user ImageAnalysis.result ImageAnalysis.activeTab].
    repeat split; try lia; assumption.
  - destruct (DocumentSummarization_loop_skips backend job k (S passes) (start document))
      as (m1 & Hrun & Hs & Hr & _ & Hres & Htab); [exact Hall|].
    rewrite Hrun. cbn [DocumentSummarization.pollLoop].
    cbn [start statusCalls resultCalls user] in Hs, Hr, Hres, Htab.
    rewrite (DocumentSummarization_pass_failed backend job m1 sd);
      [|rewrite Hs; exact Hans | exact Hf].
    eexists. split; [reflexivity|].
    cbn [statusCalls resultCalls user DocumentSummarization.result
         DocumentSummarization.activeTab].
    repeat split; try lia; assumption.
Qed.

Lemma inline_loops_report_backend_message_witness :
  exists m,
    ImageAnalysis.pollLoop Scenario3.failsLate 3 "job-7" (start Scenario3.blankImage)
    = Left (inl (Error "unsupported image")) m /\
    statusCalls m = 3 /\ resultCalls m = 0 /\
    ImageAnalysis.result (user m) = None /\
    ImageAnalysis.activeTab (user m) = 2.
Proof.
  refine (proj1 (inline_loops_report_backend_message string Scenario3.failsLate "job-7" 2 0
                   {| sd_status := "failed"; sd_progress := 40;
                      sd_message := "unsupported image" |}
                   Scenario3.blankImage Scenario3.blankDocument _ _ eq_refl)).
  - intros i Hi. destruct i as [|[|i]]; [| | lia];
      (eexists; split; [eexists; split; reflexivity | reflexivity]).
  - eexists. split; reflexivity.
Defined.

(** X21.  When the job is reported completed after [k] polls in progress,
    the poll loops of the image and document skills ask the result endpoint
    once, store the body it answers, select the first tab and stop; the
    HTTP status of the answers is not looked at. *)
Theorem inline_loops_store_fetched_result :
  forall (Res : Type) (backend : Backend StatusData Res) (job : string)
         (k passes : nat) (sd : StatusData) (res : Res)
         (image : ImageAnalysis.View Res) (document : DocumentSummarization.View Res),
    (forall i, i < k -> exists sd', answers backend i sd' /\ inProgress sd' = true) ->
    answers backend k sd ->
    sd_status sd = "completed" ->
    resultAnswers backend 0 res ->
    (exists m,
        ImageAnalysis.pollLoop backend (k + S passes) job (start image) = Left (inr tt) m /\
        statusCalls m = S k /\ resultCalls m = 1 /\
        user m = {| ImageAnalysis.progress := sd_progress sd;
                    ImageAnalysis.result := Some res;
                    ImageAnalysis.activeTab := 0 |}) /\
    (exists m,
        DocumentSummarization.pollLoop backend (k + S passes) job (start document)
        = Left (inr tt) m /\
        statusCalls m = S k /\ resultCalls m = 1 /\
        user m = {| DocumentSummarization.progress := sd_progress sd;
                    DocumentSummarization.result := Some res;
                    DocumentSummarization.activeTab := 0 |}).
Proof.
  intros Res backend job k passes sd res image document Hall Hans Hc Hres. split.
  - destruct (ImageAnalysis_loop_skips backend job k (S passes) (start image))
      as (m1 & Hrun & Hs & Hr & _); [exact Hall|].
    rewrite Hrun. cbn [ImageAnalysis.pollLoop].
    cbn [start statusCalls resultCalls] in Hs, Hr.
    rewrite (ImageAnalysis_pass_completed backend job m1 sd res);
      [|rewrite Hs; exact Hans | exact Hc | rewrite Hr; exact Hres].
    eexists. split; [reflexivity|]. cbn [statusCalls resultCalls user].
    repeat split; lia.
  - destruct (DocumentSummarization_loop_skips backend job k (S passes) (start document))
      as (m1 & Hrun & Hs & Hr & _); [exact Hall|].
    rewrite Hrun. cbn [DocumentSummarization.pollLoop].
    cbn [start statusCalls resultCalls] in Hs, Hr.
    rewrite (DocumentSummarization_pass_completed backend job m1 sd res);
      [|rewrite Hs; exact Hans | exact Hc | rewrite Hr; exact Hres].
    eexists. split; [reflexivity|]. cbn [statusCalls resultCalls user].
    repeat split; lia.
Qed.

Lemma inline_loops_store_fetched_result_witness :
  exists m,
    ImageAnalysis.pollLoop Scenario3.completesLate 3 "job-7" (start Scenario3.blankImage)
    = Left (inr tt) m /\
    statusCalls m = 3 /\ resultCalls m = 1 /\
    user m = {| ImageAnalysis.progress := 100;
                ImageAnalysis.result := Some "a cat on a sofa";
                ImageAnalysis.activeTab := 0 |}.
Proof.
  refine (proj1 (inline_loops_store_fetched_result string Scenario3.completesLate "job-7"
                   2 0
                   {| sd_status := "completed"; sd_progress := 100; sd_message := "done" |}
                   "a cat on a sofa"
                   Scenario3.blankImage Scenario3.blankDocument _ _ eq_refl _)).
  - intros i Hi. destruct i as [|[|i]]; [| | lia];
      (eexists; split; [eexists; split; reflexivity | reflexivity]).
  - eexists. split; reflexivity.
  - eexists. split; reflexivity.
Defined.

(** X22.  Whenever the poll loop of the image or of the document skill has
    been left, every status request was counted, each poll but the last
    was followed by a two-second sleep, and either the loop stopped on
    [break] with the body of the first result request stored and the first
    tab selected, or it was left by a throw with the stored result and the
    selected tab untouched. *)
Theorem inline_loops_account :
  forall (Res : Type) (backend : Backend StatusData Res) (job : string) (passes : nat)
         (c : JsError + unit),
    (forall (image : ImageAnalysis.View Res) m,
        ImageAnalysis.pollLoop backend passes job (start image) = Left c m ->
        1 <= statusCalls m /\
        statusRequests (trace m) = statusCalls m /\
        totalDelay (trace m) = (2000 * (Z.of_nat (statusCalls m) - 1))%Z /\
        match c with
        | inr _ =>
            resultCalls m = 1 /\
            (exists res, resultAnswers backend 0 res /\
                         ImageAnalysis.result (user m) = Some res) /\
            ImageAnalysis.activeTab (user m) = 0
        | inl _ =>
            resultCalls m <= 1 /\
            ImageAnalysis.result (user m) = ImageAnalysis.result image /\
            ImageAnalysis.activeTab (user m) = ImageAnalysis.activeTab image
        end) /\
    (forall (document : DocumentSummarization.View Res) m,
        DocumentSummarization.pollLoop backend passes job (start document) = Left c m ->
        1 <= statusCalls m /\
        statusRequests (trace m) = statusCalls m /\
        totalDelay (trace m) = (2000 * (Z.of_nat (statusCalls m) - 1))%Z /\
        match c with
        | inr _ =>
            resultCalls m = 1 /\
            (exists res, resultAnswers backend 0 res /\
                         DocumentSummarization.result (user m) = Some res) /\
            DocumentSummarization.activeTab (user m) = 0
        | inl _ =>
            resultCalls m <= 1 /\
            DocumentSummarization.result (user m) = DocumentSummarization.result document /\
            DocumentSummarization.activeTab (user m)
            = DocumentSummarization.activeTab document
        end).
Proof.
  intros Res backend job passes c. split.
  - intros image m Hrun.
    destruct (ImageAnalysis_loop_left backend job passes _ _ _ Hrun) as (Hs & Hq & Hd & Hc).
    cbn [start statusCalls resultCalls trace user statusRequests totalDelay] in Hs, Hq, Hd, Hc.
    repeat split; try lia.
    destruct c as [e|u]; exact Hc.
  - intros document m Hrun.
    destruct (DocumentSummarization_loop_left backend job passes _ _ _ Hrun)
      as (Hs & Hq & Hd & Hc).
    cbn [start statusCalls resultCalls trace user statusRequests totalDelay] in Hs, Hq, Hd, Hc.
    repeat split; try lia.
    destruct c as [e|u]; exact Hc.
Qed.

Lemma inline_loops_account_witness :
  exists m,
    DocumentSummarization.pollLoop Scenario3.completesLate 7 "job-7"
                                   (start Scenario3.blankDocument) = Left (inr tt) m /\
    1 <= statusCalls m /\
    statusRequests (trace m) = statusCalls m /\
    totalDelay (trace m) = (2000 * (Z.of_nat (statusCalls m) - 1))%Z /\
    resultCalls m = 1 /\
    (exists res, resultAnswers Scenario3.completesLate 0 res /\
                 DocumentSummarization.result (user m) = Some res) /\
    DocumentSummarization.activeTab (user m) = 0.
Proof.
  eexists. split.
  - vm_compute. reflexivity.
  - apply (proj2 (inline_loops_account string Scenario3.completesLate "job-7" 7 (inr tt))
                 Scenario3.blankDocument).
    vm_compute. reflexivity.
Defined.

(** What [processImage] leaves behind when it has returned. *)
Lemma processImage_finished :
  forall (Res : Type) (backend : Backend StatusData Res) (upload : Fetch UploadJson)
         (passes : nat) (s s' : ImageAnalysisComponent.Screen Res) m,
    ImageAnalysisComponent.processImage backend upload passes s
    = ImageAnalysisComponent.Finished s' m ->
    ImageAnalysisComponent.imageFile s' = ImageAnalysisComponent.imageFile s /\
    statusRequests (trace m) = statusCalls m /\
    match ImageAnalysisComponent.imageFile s with
    | None => s' = s /\ trace m = []
    | Some _ =>
        ImageAnalysisComponent.loading s' = false /\
        ImageAnalysis.progress (ImageAnalysisComponent.view s') = 0%Z /\
        match ImageAnalysisComponent.error s' with
        | None =>
            (exists res, resultAnswers backend 0 res /\
                         ImageAnalysis.result (ImageAnalysisComponent.view s') = Some res) /\
            ImageAnalysis.activeTab (ImageAnalysisComponent.view s') = 0
        | Some _ =>
            ImageAnalysis.result (ImageAnalysisComponent.view s')
            = ImageAnalysis.result (ImageAnalysisComponent.view s) /\
            ImageAnalysis.activeTab (ImageAnalysisComponent.view s')
            = ImageAnalysis.activeTab (ImageAnalysisComponent.view s)
        end
    end.
Proof.
  intros Res backend upload passes s s' m.
  unfold ImageAnalysisComponent.processImage.
  destruct (ImageAnalysisComponent.imageFile s) as [file|] eqn:Hfile.
  2:{ intros H. injection H as <- <-. rewrite Hfile. repeat split; reflexivity. }
  cbv zeta.
  assert (Hcaught : forall msg,
             ImageAnalysisComponent.Finished
               {| ImageAnalysisComponent.imageFile := Some file;
                  ImageAnalysisComponent.loading := false;
                  ImageAnalysisComponent.error := Some msg;
                  ImageAnalysisComponent.view :=
                    ImageAnalysisComponent.withProgress
                      0 (user (start (ImageAnalysisComponent.withProgress
                                        0 (ImageAnalysisComponent.view s)))) |}
               (start (ImageAnalysisComponent.withProgress 0 (ImageAnalysisComponent.view s)))
             = ImageAnalysisComponent.Finished s' m ->
             ImageAnalysisComponent.imageFile s' = Some file /\
             statusRequests (trace m) = statusCalls m /\
             ImageAnalysisComponent.loading s' = false /\
             ImageAnalysis.progress (ImageAnalysisComponent.view s') = 0%Z /\
             match ImageAnalysisComponent.error s' with
             | None =>
                 (exists res, resultAnswers backend 0 res /\
                              ImageAnalysis.result (ImageAnalysisComponent.view s')
                              = Some res) /\
                 ImageAnalysis.activeTab (ImageAnalysisComponent.view s') = 0
             | Some _ =>
                 ImageAnalysis.result (ImageAnalysisComponent.view s')
                 = ImageAnalysis.result (ImageAnalysisComponent.view s) /\
                 ImageAnalysis.activeTab (ImageAnalysisComponent.view s')
                 = ImageAnalysis.activeTab (ImageAnalysisComponent.view s)
             end).
  { intros msg H. injection H as <- <-. repeat split; reflexivity. }
  destruct upload as [e|r]; [apply Hcaught|].
  destruct (ok r); cbn [negb]; [|apply Hcaught].
  destruct (body r) as [e|data]; [apply Hcaught|].
  clear Hcaught.
  destruct (ImageAnalysis.pollLoop backend passes (up_job_id data) _) as [m1|c m1] eqn:Hrun;
    [discriminate|].
  destruct (ImageAnalysis_loop_left backend _ passes _ _ _ Hrun) as (Hs & Hq & _ & Hc).
  cbn [start statusCalls resultCalls trace user statusRequests
       ImageAnalysisComponent.withProgress ImageAnalysis.result ImageAnalysis.activeTab]
    in Hs, Hq, Hc.
  destruct c as [e|u]; intros H; injection H as <- <-;
    cbn [ImageAnalysisComponent.imageFile ImageAnalysisComponent.loading
         ImageAnalysisComponent.error ImageAnalysisComponent.view
         ImageAnalysisComponent.withProgress ImageAnalysis.progress
         ImageAnalysis.result ImageAnalysis.activeTab];
    destruct Hc as (Hr & Hres & Htab); repeat split; try lia; assumption.
Qed.

(** X23.  Whenever [processImage] has returned with a file selected, the
    loading flag and the progress are reset and the file is kept; when no
    error is shown the stored result is the body the backend answered to
    the first result request and the first tab is selected; when an error
    is shown the earlier result and tab are still there.  Without a file
    nothing changes and no request is made. *)
Theorem processImage_leaves_a_settled_screen :
  forall (Res : Type) (backend : Backend StatusData Res) (upload : Fetch UploadJson)
         (passes : nat) (s s' : ImageAnalysisComponent.Screen Res) m,
    ImageAnalysisComponent.processImage backend upload passes s
    = ImageAnalysisComponent.Finished s' m ->
    ImageAnalysisComponent.imageFile s' = ImageAnalysisComponent.imageFile s /\
    statusRequests (trace m) = statusCalls m /\
    match ImageAnalysisComponent.imageFile s with
    | None => s' = s /\ trace m = []
    | Some _ =>
        ImageAnalysisComponent.loading s' = false /\
        ImageAnalysis.progress (ImageAnalysisComponent.view s') = 0%Z /\
        match ImageAnalysisComponent.error s' with
        | None =>
            (exists res, resultAnswers backend 0 res /\
                         ImageAnalysis.result (ImageAnalysisComponent.view s') = Some res) /\
            ImageAnalysis.activeTab (ImageAnalysisComponent.view s') = 0
        | Some _ =>
            ImageAnalysis.result (ImageAnalysisComponent.view s')
            = ImageAnalysis.result (ImageAnalysisComponent.view s) /\
            ImageAnalysis.activeTab (ImageAnalysisComponent.view s')
            = ImageAnalysis.activeTab (ImageAnalysisComponent.view s)
        end
    end.
Proof.
  exact processImage_finished.
Qed.

Lemma processImage_leaves_a_settled_screen_witness :
  exists s' m,
    ImageAnalysisComponent.processImage
      Scenario3.completesLate (Scenario3.accepted "job-7") 5 Scenario3.imageScreen
    = ImageAnalysisComponent.Finished s' m /\
    ImageAnalysisComponent.loading s' = false /\
    ImageAnalysis.progress (ImageAnalysisComponent.view s') = 0%Z /\
    ImageAnalysisComponent.error s' = None /\
    ImageAnalysis.result (ImageAnalysisComponent.view s') = Some "a cat on a sofa".
Proof.
  eexists. eexists.
  match goal with |- ?A /\ _ => cut A; [intros Hrun | vm_compute; reflexivity] end.
  split; [exact Hrun|].
  destruct (processImage_leaves_a_settled_screen
              string Scenario3.completesLate (Scenario3.accepted "job-7") 5
              Scenario3.imageScreen _ _ Hrun) as (_ & _ & Hl & Hp & _).
  split; [exact Hl|]. split; [exact Hp|]. split; reflexivity.
Defined.

(** X24.  A submission answered with a status outside 200..299 is reported
    with a fixed message, whatever the body says, and is never polled:
    [processImage] shows "Failed to upload image", [processDocument] shows
    "Failed to upload document" for a file and "Failed to process URL" for
    a URL; the loading flag and the progress are reset all the same. *)
Theorem refused_submissions_are_not_polled :
  forall (Res : Type) (backend : Backend StatusData Res) (passes : nat)
         (r : Response UploadJson) (other : Fetch UploadJson),
    ok r = false ->
    (forall (s : ImageAnalysisComponent.Screen Res) file,
        ImageAnalysisComponent.imageFile s = Some file ->
        ImageAnalysisComponent.processImage backend (Resolved r) passes s =
        ImageAnalysisComponent.Finished
          {| ImageAnalysisComponent.imageFile := Some file;
             ImageAnalysisComponent.loading := false;
             ImageAnalysisComponent.error := Some "Failed to upload image";
             ImageAnalysisComponent.view :=
               ImageAnalysisComponent.withProgress 0 (ImageAnalysisComponent.view s) |}
          (start (ImageAnalysisComponent.withProgress 0 (ImageAnalysisComponent.view s)))) /\
    (forall (s : DocumentSummarizationComponent.Screen Res) file,
        DocumentSummarizationComponent.mode s = DocumentSummarizationComponent.FileMode ->
        DocumentSummarizationComponent.documentFile s = Some file ->
        DocumentSummarizationComponent.processDocument backend (Resolved r) other passes s =
        DocumentSummarizationComponent.Finished
          (Some (DocumentSummarizationComponent.UploadDocument file))
          {| DocumentSummarizationComponent.documentFile := Some file;
             DocumentSummarizationComponent.url := DocumentSummarizationComponent.url s;
             DocumentSummarizationComponent.mode := DocumentSummarizationComponent.FileMode;
             DocumentSummarizationComponent.loading := false;
             DocumentSummarizationComponent.error := Some "Failed to upload document";
             DocumentSummarizationComponent.view :=
               DocumentSummarizationComponent.withProgress
                 0 (DocumentSummarizationComponent.view s) |}
          (start (DocumentSummarizationComponent.withProgress
                    0 (DocumentSummarizationComponent.view s)))) /\
    (forall (s : DocumentSummarizationComponent.Screen Res),
        DocumentSummarizationComponent.mode s = DocumentSummarizationComponent.UrlMode ->
        DocumentSummarizationComponent.nothingToDo s = false ->
        DocumentSummarizationComponent.processDocument backend other (Resolved r) passes s =
        DocumentSummarizationComponent.Finished
          (Some (DocumentSummarizationComponent.SummarizeUrl
                   (DocumentSummarizationComponent.url s)))
          {| DocumentSummarizationComponent.documentFile :=
               DocumentSummarizationComponent.documentFile s;
             DocumentSummarizationComponent.url := DocumentSummarizationComponent.url s;
             DocumentSummarizationComponent.mode := DocumentSummarizationComponent.UrlMode;
             DocumentSummarizationComponent.loading := false;
             DocumentSummarizationComponent.error := Some "Failed to process URL";
             DocumentSummarizationComponent.view :=
               DocumentSummarizationComponent.withProgress
                 0 (DocumentSummarizationComponent.view s) |}
          (start (DocumentSummarizationComponent.withProgress
                    0 (DocumentSummarizationComponent.view s)))).
Proof.
  intros Res backend passes r other Hok. repeat split.
  - intros s file Hfile. unfold ImageAnalysisComponent.processImage.
    rewrite Hfile. cbv zeta. rewrite Hok. reflexivity.
  - intros s file Hmode Hfile. unfold DocumentSummarizationComponent.processDocument,
      DocumentSummarizationComponent.nothingToDo.
    rewrite Hfile, Hmode. cbv zeta. rewrite Hok. reflexivity.
  - intros s Hmode Hgo. unfold DocumentSummarizationComponent.processDocument.
    rewrite Hgo, Hmode. cbv zeta. rewrite Hok. reflexivity.
Qed.

Lemma refused_submissions_are_not_polled_witness :
  ImageAnalysisComponent.processImage
    Scenario3.completesLate Scenario3.refused 5 Scenario3.imageScreen =
  ImageAnalysisComponent.Finished
    {| ImageAnalysisComponent.imageFile :=
         Some {| name := "cat.png"; type := "image/png"; size := 2048 |};
       ImageAnalysisComponent.loading := false;
       ImageAnalysisComponent.error := Some "Failed to upload image";
       ImageAnalysisComponent.view :=
         ImageAnalysisComponent.withProgress 0 Scenario3.blankImage |}
    (start (ImageAnalysisComponent.withProgress 0 Scenario3.blankImage)).
Proof.
  refine (proj1 (refused_submissions_are_not_polled
                   string Scenario3.completesLate 5 Scenario3.tooLarge Scenario3.refused
                   eq_refl)
                Scenario3.imageScreen _ eq_refl).
Defined.

(** What [processDocument] has submitted, read off its outcome. *)
Lemma processDocument_submits_one_way_aux
      {Res : Type} (backend : Backend StatusData Res) (passes : nat)
      (upload summarize : Fetch UploadJson)
      (s : DocumentSummarizationComponent.Screen Res) :
  match DocumentSummarizationComponent.processDocument backend upload summarize passes s with
  | DocumentSummarizationComponent.StillPolling sent _
  | DocumentSummarizationComponent.Finished (Some sent) _ _ =>
      DocumentSummarizationComponent.nothingToDo s = false /\
      match sent with
      | DocumentSummarizationComponent.UploadDocument file =>
          DocumentSummarizationComponent.mode s = DocumentSummarizationComponent.FileMode /\
          DocumentSummarizationComponent.documentFile s = Some file
      | DocumentSummarizationComponent.SummarizeUrl u =>
          u = DocumentSummarizationComponent.url s /\
          (DocumentSummarizationComponent.mode s = DocumentSummarizationComponent.UrlMode \/
           DocumentSummarizationComponent.documentFile s = None)
      end
  | DocumentSummarizationComponent.Finished None s' m =>
      DocumentSummarizationComponent.nothingToDo s = true /\ s' = s /\ trace m = []
  end.
Proof.
  unfold DocumentSummarizationComponent.processDocument.
  destruct (DocumentSummarizationComponent.nothingToDo s) eqn:Hgo;
    [repeat split; reflexivity|].
  cbv zeta.
  destruct (DocumentSummarizationComponent.mode s) eqn:Hmode;
    destruct (DocumentSummarizationComponent.documentFile s) as [file|] eqn:Hdoc;
    cbv beta iota;
    match goal with
    | |- context [match ?resp with Rejected _ => _ | Resolved _ => _ end] =>
        destruct resp as [e|r]
    end;
    try (repeat split; auto; fail);
    (destruct (ok r); cbn [negb]; [|repeat split; auto]);
    (destruct (body r) as [e|data]; [repeat split; auto|]);
    match goal with
    | |- context [DocumentSummarization.pollLoop ?b ?p ?j ?m] =>
        destruct (DocumentSummarization.pollLoop b p j m) as [m1|[e|u] m1]
    end; repeat split; auto.
Qed.

(** X25.  [processDocument] makes exactly one of its two submissions: in
    file mode with a document selected only the upload counts, in every
    other case only the URL request counts, even when a document is
    selected and the URL is empty. *)
Theorem processDocument_submits_one_way :
  forall (Res : Type) (backend : Backend StatusData Res) (passes : nat)
         (upload upload' summarize summarize' : Fetch UploadJson)
         (s : DocumentSummarizationComponent.Screen Res),
    (DocumentSummarizationComponent.mode s = DocumentSummarizationComponent.FileMode ->
     DocumentSummarizationComponent.documentFile s <> None ->
     DocumentSummarizationComponent.processDocument backend upload summarize passes s =
     DocumentSummarizationComponent.processDocument backend upload summarize' passes s) /\
    (DocumentSummarizationComponent.mode s = DocumentSummarizationComponent.UrlMode \/
     DocumentSummarizationComponent.documentFile s = None ->
     DocumentSummarizationComponent.processDocument backend upload summarize passes s =
     DocumentSummarizationComponent.processDocument backend upload' summarize passes s) /\
    match DocumentSummarizationComponent.processDocument backend upload summarize passes s with
    | DocumentSummarizationComponent.StillPolling sent _
    | DocumentSummarizationComponent.Finished (Some sent) _ _ =>
        DocumentSummarizationComponent.nothingToDo s = false /\
        match sent with
        | DocumentSummarizationComponent.UploadDocument file =>
            DocumentSummarizationComponent.mode s = DocumentSummarizationComponent.FileMode /\
            DocumentSummarizationComponent.documentFile s = Some file
        | DocumentSummarizationComponent.SummarizeUrl u =>
            u = DocumentSummarizationComponent.url s /\
            (DocumentSummarizationComponent.mode s = DocumentSummarizationComponent.UrlMode \/
             DocumentSummarizationComponent.documentFile s = None)
        end
    | DocumentSummarizationComponent.Finished None s' m =>
        DocumentSummarizationComponent.nothingToDo s = true /\ s' = s /\ trace m = []
    end.
Proof.
  intros Res backend passes upload upload' summarize summarize' s.
  unfold DocumentSummarizationComponent.processDocument.
  split; [|split].
  - intros Hmode Hfile.
    destruct (DocumentSummarizationComponent.documentFile s) as [file|] eqn:Hdoc;
      [|contradiction].
    rewrite Hmode. reflexivity.
  - intros [Hmode | Hfile].
    + rewrite Hmode. reflexivity.
    + rewrite Hfile. destruct (DocumentSummarizationComponent.mode s); reflexivity.
  - fold (DocumentSummarizationComponent.processDocument backend upload summarize passes s).
    apply processDocument_submits_one_way_aux.
Qed.

Lemma processDocument_submits_one_way_witness :
  DocumentSummarizationComponent.processDocument
    Scenario3.completesLate Scenario3.refused (Scenario3.accepted "job-7") 5
    Scenario3.documentScreen =
  DocumentSummarizationComponent.processDocument
    Scenario3.completesLate (Scenario3.accepted "job-9") (Scenario3.accepted "job-7") 5
    Scenario3.documentScreen.
Proof.
  refine (proj1 (proj2 (processDocument_submits_one_way
                          string Scenario3.completesLate 5
                          Scenario3.refused (Scenario3.accepted "job-9")
                          (Scenario3.accepted "job-7") Scenario3.refused
                          Scenario3.documentScreen)) _).
  left. reflexivity.
Defined.

(** What [processDocument] leaves behind when it has returned. *)
Lemma processDocument_finished :
  forall (Res : Type) (backend : Backend StatusData Res)
         (upload summarize : Fetch UploadJson) (passes : nat)
         (s s' : DocumentSummarizationComponent.Screen Res) sent m,
    DocumentSummarizationComponent.processDocument backend upload summarize passes s
    = DocumentSummarizationComponent.Finished (Some sent) s' m ->
    DocumentSummarizationComponent.documentFile s'
    = DocumentSummarizationComponent.documentFile s /\
    DocumentSummarizationComponent.url s' = DocumentSummarizationComponent.url s /\
    DocumentSummarizationComponent.mode s' = DocumentSummarizationComponent.mode s /\
    statusRequests (trace m) = statusCalls m /\
    DocumentSummarizationComponent.loading s' = false /\
    DocumentSummarization.progress (DocumentSummarizationComponent.view s') = 0%Z /\
    match DocumentSummarizationComponent.error s' with
    | None =>
        (exists res, resultAnswers backend 0 res /\
                     DocumentSummarization.result (DocumentSummarizationComponent.view s')
                     = Some res) /\
        DocumentSummarization.activeTab (DocumentSummarizationComponent.view s') = 0
    | Some _ =>
        DocumentSummarization.result (DocumentSummarizationComponent.view s')
        = DocumentSummarization.result (DocumentSummarizationComponent.view s) /\
        DocumentSummarization.activeTab (DocumentSummarizationComponent.view s')
        = DocumentSummarization.activeTab (DocumentSummarizationComponent.view s)
    end.
Proof.
  intros Res backend upload summarize passes s s' sent m.
  unfold DocumentSummarizationComponent.processDocument.
  destruct (DocumentSummarizationComponent.nothingToDo s); [discriminate|].
  cbv zeta.
  destruct (match DocumentSummarizationComponent.mode s,
                  DocumentSummarizationComponent.documentFile s with
            | DocumentSummarizationComponent.FileMode, Some file =>
                (DocumentSummarizationComponent.UploadDocument file, upload,
                 "Failed to upload document")
            | _, _ =>
                (DocumentSummarizationComponent.SummarizeUrl
                   (DocumentSummarizationComponent.url s), summarize,
                 "Failed to process URL")
            end) as [[sent0 response] refused].
  assert (Hcaught : forall msg,
             DocumentSummarizationComponent.Finished
               (Some sent0)
               {| DocumentSummarizationComponent.documentFile :=
                    DocumentSummarizationComponent.documentFile s;
                  DocumentSummarizationComponent.url := DocumentSummarizationComponent.url s;
                  DocumentSummarizationComponent.mode :=
                    DocumentSummarizationComponent.mode s;
                  DocumentSummarizationComponent.loading := false;
                  DocumentSummarizationComponent.error := Some msg;
                  DocumentSummarizationComponent.view :=
                    DocumentSummarizationComponent.withProgress
                      0 (user (start (DocumentSummarizationComponent.withProgress
                                        0 (DocumentSummarizationComponent.view s)))) |}
               (start (DocumentSummarizationComponent.withProgress
                         0 (DocumentSummarizationComponent.view s)))
             = DocumentSummarizationComponent.Finished (Some sent) s' m ->
             DocumentSummarizationComponent.documentFile s'
             = DocumentSummarizationComponent.documentFile s /\
             DocumentSummarizationComponent.url s' = DocumentSummarizationComponent.url s /\
             DocumentSummarizationComponent.mode s' = DocumentSummarizationComponent.mode s /\
             statusRequests (trace m) = statusCalls m /\
             DocumentSummarizationComponent.loading s' = false /\
             DocumentSummarization.progress (DocumentSummarizationComponent.view s') = 0%Z /\
             match DocumentSummarizationComponent.error s' with
             | None =>
                 (exists res,
                     resultAnswers backend 0 res /\
                     DocumentSummarization.result (DocumentSummarizationComponent.view s')
                     = Some res) /\
                 DocumentSummarization.activeTab (DocumentSummarizationComponent.view s') = 0
             | Some _ =>
                 DocumentSummarization.result (DocumentSummarizationComponent.view s')
                 = DocumentSummarization.result (DocumentSummarizationComponent.view s) /\
                 DocumentSummarization.activeTab (DocumentSummarizationComponent.view s')
                 = DocumentSummarization.activeTab (DocumentSummarizationComponent.view s)
             end).
  { intros msg H. injection H as _ <- <-. repeat split; reflexivity. }
  destruct response as [e|r]; [apply Hcaught|].
  destruct (ok r); cbn [negb]; [|apply Hcaught].
  destruct (body r) as [e|data]; [apply Hcaught|].
  clear Hcaught.
  destruct (DocumentSummarization.pollLoop backend passes (up_job_id data) _)
    as [m1|c m1] eqn:Hrun; [discriminate|].
  destruct (DocumentSummarization_loop_left backend _ passes _ _ _ Hrun)
    as (Hs & Hq & _ & Hc).
  cbn [start statusCalls resultCalls trace user statusRequests
       DocumentSummarizationComponent.withProgress DocumentSummarization.result
       DocumentSummarization.activeTab] in Hs, Hq, Hc.
  destruct c as [e|u]; intros H; injection H as _ <- <-;
    cbn [DocumentSummarizationComponent.documentFile DocumentSummarizationComponent.url
         DocumentSummarizationComponent.mode DocumentSummarizationComponent.loading
         DocumentSummarizationComponent.error DocumentSummarizationComponent.view
         DocumentSummarizationComponent.withProgress DocumentSummarization.progress
         DocumentSummarization.result DocumentSummarization.activeTab];
    destruct Hc as (Hr & Hres & Htab); repeat split; try lia; assumption.
Qed.

(** X26.  Whenever [processDocument] has returned after a submission, the
    loading flag and the progress are reset and the document, the URL and
    the mode are kept; when no error is shown the stored result is the
    body the backend answered to the first result request and the first
    tab is selected; when an error is shown the earlier result and tab
    are still there. *)
Theorem processDocument_leaves_a_settled_screen :
  forall (Res : Type) (backend : Backend StatusData Res)
         (upload summarize : Fetch UploadJson) (passes : nat)
         (s s' : DocumentSummarizationComponent.Screen Res) sent m,
    DocumentSummarizationComponent.processDocument backend upload summarize passes s
    = DocumentSummarizationComponent.Finished (Some sent) s' m ->
    DocumentSummarizationComponent.documentFile s'
    = DocumentSummarizationComponent.documentFile s /\
    DocumentSummarizationComponent.url s' = DocumentSummarizationComponent.url s /\
    DocumentSummarizationComponent.mode s' = DocumentSummarizationComponent.mode s /\
    statusRequests (trace m) = statusCalls m /\
    DocumentSummarizationComponent.loading s' = false /\
    DocumentSummarization.progress (DocumentSummarizationComponent.view s') = 0%Z /\
    match DocumentSummarizationComponent.error s' with
    | None =>
        (exists res, resultAnswers backend 0 res /\
                     DocumentSummarization.result (DocumentSummarizationComponent.view s')
                     = Some res) /\
        DocumentSummarization.activeTab (DocumentSummarizationComponent.view s') = 0
    | Some _ =>
        DocumentSummarization.result (DocumentSummarizationComponent.view s')
        = DocumentSummarization.result (DocumentSummarizationComponent.view s) /\
        DocumentSummarization.activeTab (DocumentSummarizationComponent.view s')
        = DocumentSummarization.activeTab (DocumentSummarizationComponent.view s)
    end.
Proof.
  exact processDocument_finished.
Qed.

Lemma processDocument_leaves_a_settled_screen_witness :
  exists s' m,
    DocumentSummarizationComponent.processDocument
      Scenario3.failsLate Scenario3.refused (Scenario3.accepted "job-7") 5
      Scenario3.documentScreen
    = DocumentSummarizationComponent.Finished
        (Some (DocumentSummarizationComponent.SummarizeUrl "https://example.com/a.html"))
        s' m /\
    DocumentSummarizationComponent.loading s' = false /\
    DocumentSummarization.progress (DocumentSummarizationComponent.view s') = 0%Z /\
    DocumentSummarizationComponent.error s' = Some "unsupported image".
Proof.
  eexists. eexists.
  match goal with |- ?A /\ _ => cut A; [intros Hrun | vm_compute; reflexivity] end.
  split; [exact Hrun|].
  destruct (processDocument_leaves_a_settled_screen
              string Scenario3.failsLate Scenario3.refused (Scenario3.accepted "job-7") 5
              Scenario3.documentScreen _ _ _ Hrun) as (_ & _ & _ & _ & Hl & Hp & _).
  split; [exact Hl|]. split; [exact Hp|]. reflexivity.
Defined.

(** X27.  Selecting a file and then running the skill: the run works on
    that file and keeps it selected, [processDocument] always uploads it,
    whatever URL or mode was set before, and a run that ends with an error
    shows no result, the earlier one having been cleared by the
    selection. *)
Theorem selected_file_is_what_gets_processed :
  forall (Res : Type) (backend : Backend StatusData Res)
         (upload summarize : Fetch UploadJson) (passes : nat) (file : File),
    (forall s : ImageAnalysisComponent.Screen Res,
        match ImageAnalysisComponent.processImage
                backend upload passes (ImageAnalysisComponent.handleFileSelect file s) with
        | ImageAnalysisComponent.StillPolling _ => True
        | ImageAnalysisComponent.Finished s' _ =>
            ImageAnalysisComponent.imageFile s' = Some file /\
            (ImageAnalysisComponent.error s' = None \/
             ImageAnalysis.result (ImageAnalysisComponent.view s') = None)
        end) /\
    (forall s : DocumentSummarizationComponent.Screen Res,
        match DocumentSummarizationComponent.processDocument
                backend upload summarize passes
                (DocumentSummarizationComponent.handleFileSelect file s) with
        | DocumentSummarizationComponent.StillPolling sent _ =>
            sent = DocumentSummarizationComponent.UploadDocument file
        | DocumentSummarizationComponent.Finished sent s' _ =>
            sent = Some (DocumentSummarizationComponent.UploadDocument file) /\
            DocumentSummarizationComponent.documentFile s' = Some file /\
            (DocumentSummarizationComponent.error s' = None \/
             DocumentSummarization.result (DocumentSummarizationComponent.view s') = None)
        end).
Proof.
  intros Res backend upload summarize passes file. split; intros s.
  - destruct (ImageAnalysisComponent.processImage _ _ _ _) as [m|s' m] eqn:Hrun;
      [exact I|].
    destruct (processImage_finished _ _ _ _ _ _ _ Hrun) as (Hfile & _ & Hrest).
    cbn [ImageAnalysisComponent.handleFileSelect ImageAnalysisComponent.imageFile
         ImageAnalysisComponent.view ImageAnalysis.result] in Hfile, Hrest.
    split; [exact Hfile|].
    destruct Hrest as (_ & _ & Hrest).
    destruct (ImageAnalysisComponent.error s'); [right; apply Hrest | left; reflexivity].
  - pose proof (processDocument_submits_one_way_aux
                  backend passes upload summarize
                  (DocumentSummarizationComponent.handleFileSelect file s)) as Hsent.
    destruct (DocumentSummarizationComponent.processDocument _ _ _ _ _)
      as [sent m|sent s' m] eqn:Hrun.
    + cbn [DocumentSummarizationComponent.handleFileSelect
           DocumentSummarizationComponent.documentFile
           DocumentSummarizationComponent.mode] in Hsent.
      destruct Hsent as (_ & Hsent). destruct sent as [f|u].
      * destruct Hsent as (_ & Hf). congruence.
      * destruct Hsent as (_ & [Hm | Hf]); discriminate.
    + destruct sent as [sent|].
      2:{ destruct Hsent as (Hgo & _). discriminate. }
      cbn [DocumentSummarizationComponent.handleFileSelect
           DocumentSummarizationComponent.documentFile
           DocumentSummarizationComponent.mode] in Hsent.
      destruct (processDocument_finished _ _ _ _ _ _ _ _ _ Hrun)
        as (Hfile & _ & _ & _ & _ & _ & Hrest).
      cbn [DocumentSummarizationComponent.handleFileSelect
           DocumentSummarizationComponent.documentFile
           DocumentSummarizationComponent.view DocumentSummarization.result]
        in Hfile, Hrest.
      split; [|split; [exact Hfile|]].
      * destruct Hsent as (_ & Hsent). destruct sent as [f|u].
        -- destruct Hsent as (_ & Hf). congruence.
        -- destruct Hsent as (_ & [Hm | Hf]); discriminate.
      * destruct (DocumentSummarizationComponent.error s');
          [right; apply Hrest | left; reflexivity].
Qed.
